(** * ComfyUI Universal Image Loader: the input-precedence controller

    A shallow embedding of the front-end controller [ImageLoaderNodeHandler]
    in the three revisions of the script kept in the repository:

    - [Full]    : the four-widget script (image, filepath, base64,
                  pasted_base64) with the table-driven clearing pass;
    - [Reduced] : the three-widget script (image, filepath, base64), same
                  clearing pass without the clipboard source;
    - [Legacy]  : [js/imgloader.js], which clears every other entry of
                  [filepath; base64; paste] and fires no callbacks.

    JavaScript strings are modelled as [string], the object [this.widgets]
    as a finite map from property names to widget records, closures as data
    ([callback_fn], [task]), and every method as a function in a small
    state-and-exception monad over the controller, the part of the host
    it touches, and a trace of the calls that leave the controller.

    The host is an external collaborator: a handler it installed on a widget
    is opaque, so calling it is recorded in the trace and nothing more (it
    does not write to the widgets of the node); widget values are strings;
    timers and image loads complete as separate steps ([run_task],
    [img_onload], [img_onerror]). *)

From Stdlib Require Import Ascii String.
From stdpp Require Import gmap strings list fin_maps.

(** ** JavaScript string primitives *)

Module JS.

(** [if (s)] on a string: the empty string is the only falsy one. *)
Definition truthy (s : string) : bool :=
  match s with
  | EmptyString => false
  | String _ _ => true
  end.

(** White space removed by [String.prototype.trim], on code units below
    256: TAB, LF, VT, FF, CR, SPACE and NBSP. *)
Definition is_white_space (c : ascii) : bool :=
  match c with
  | "009" | "010" | "011" | "012" | "013" | " " | "160" => true
  | _ => false
  end%char.

Fixpoint trimStart (s : string) : string :=
  match s with
  | EmptyString => EmptyString
  | String c s' => if is_white_space c then trimStart s' else s
  end.

Definition trim (s : string) : string :=
  String.rev (trimStart (String.rev (trimStart s))).

(** [value && value.trim()] used as a condition. *)
Definition is_filled (value : string) : bool :=
  truthy value && truthy (trim value).

Definition startsWith (s p : string) : bool := String.prefix p s.

(** [s.substring(0, n)]. *)
Definition substring0 (n : nat) (s : string) : string :=
  String.substring 0 n s.

(** [s.split(sep)] for a separator described by a predicate on one code
    unit: the result always has at least one element. *)
Fixpoint split_go (sep : ascii -> bool) (cur : string) (s : string)
  : list string :=
  match s with
  | EmptyString => [String.rev cur]
  | String c s' =>
      if sep c then String.rev cur :: split_go sep EmptyString s'
      else split_go sep (String c cur) s'
  end.

Definition split (sep : ascii -> bool) (s : string) : list string :=
  split_go sep EmptyString s.

Definition is_comma (c : ascii) : bool := Ascii.eqb c ","%char.
Definition is_slash (c : ascii) : bool :=
  Ascii.eqb c "/"%char || Ascii.eqb c "\"%char.

(** *** [atob]

    The decode probe is the browser's [atob], the forgiving-base64 decode
    of the HTML standard: ASCII white space is dropped, up to two trailing
    [=] are dropped when the length is a multiple of four, a remaining
    length of 1 modulo 4 fails, and so does any code unit outside the
    base64 alphabet.  Only success or failure is observed by the
    controller, so the decoded bytes are not modelled. *)
Definition is_ascii_whitespace (c : ascii) : bool :=
  match c with
  | "009" | "010" | "012" | "013" | " " => true
  | _ => false
  end%char.

Definition is_base64_alphabet (c : ascii) : bool :=
  let n := nat_of_ascii c in
  (65 <=? n) && (n <=? 90) || (97 <=? n) && (n <=? 122)
  || (48 <=? n) && (n <=? 57) || Ascii.eqb c "+"%char || Ascii.eqb c "/"%char.

Definition strip_padding (l : list ascii) : list ascii :=
  if (length l mod 4 =? 0)%nat then
    match rev l with
    | "="%char :: "="%char :: r => rev r
    | "="%char :: r => rev r
    | _ => l
    end
  else l.

Definition atob_throws (data : string) : bool :=
  let l := strip_padding
             (filter (fun c => is_ascii_whitespace c = false)
                     (list_ascii_of_string data)) in
  (length l mod 4 =? 1)%nat || negb (forallb is_base64_alphabet l).

End JS.

(** ** Data model *)

(** The three revisions of the controller script. *)
Inductive variant := Full | Reduced | Legacy.

(** A widget's [callback] is a JavaScript function.  Two kinds occur: the
    handlers the host installed before the controller ran, which are opaque
    and identified by a number, and the arrow functions that
    [setupEventListeners] installs, which capture the name of their source
    and the handler they replace ([originalCallback], possibly undefined). *)
#[local] Unset Elimination Schemes.
Inductive callback_fn :=
| HostCallback (id : nat)
| Wrapper (source : string) (originalCallback : option callback_fn).
#[local] Set Elimination Schemes.

(** What a method or callback returns: nothing, a boolean, or whatever the
    host handler [id] returns when applied to [arg]. *)
Inductive jsval :=
| JSUndefined
| JSBool (b : bool)
| HostResult (id : nat) (arg : string).

(** A host widget: [{value, callback, inputEl?}]. *)
Record widget := Widget {
  value : string;
  callback : option callback_fn;
  inputEl : bool
}.

(** What [innerHTML] of the preview box holds. *)
Inductive image_src :=
| Inline (imageUrl : string)          (* a data URL *)
| InputFile (filePath : string).      (* /view?filename=<filePath>&type=input *)

Inductive markup :=
| NoMarkup
| PreviewImage (src : image_src)              (* showPreview *)
| PreviewPlaceholder (baseName : string)      (* showPreviewPlaceholder *)
| LegacyImage (imageUrl : string).            (* updatePreview of js/imgloader.js *)

Inductive container := DocumentBody | NodeElement.

(** The preview [<div>]: the two properties the controller writes and the
    parent it is attached to. *)
Record element := Element {
  display : string;
  innerHTML : markup;
  parentNode : option container
}.

Inductive target := Base64InputEl | Document | NodeCanvas | NodeElementTarget.

Inductive handler_fn :=
| InputHandler            (* inputHandler of the base64 field *)
| DeferInputHandler       (* its paste listener: setTimeout(inputHandler, 10) *)
| PasteHandler            (* handlePaste *)
| DragOverHandler | DragLeaveHandler | DropHandler.

(** An entry of [this.eventListeners]: [{element, type, handler}]. *)
Record listener := Listener {
  l_element : target;
  l_type : string;
  l_handler : handler_fn
}.

(** A closure handed to [setTimeout]. *)
Inductive task :=
| PreviewRecheck (activeInput : string).   (* scheduled by clearOtherInputs *)

Record timer := Timer { t_task : task; t_delay : nat }.

(** The trace: the calls that leave the controller (host handlers, console,
    image requests, redraws) and the entry of each clearing pass, in the
    order they happen. *)
Inductive event :=
| EvClearPass (activeInput : string)              (* clearOtherInputs entered *)
| EvHostCallback (id : nat) (arg : string)        (* a host handler runs *)
| EvCleared (inputName oldPrefix : string) (truncated : bool)  (* console.info *)
| EvInvalidBase64                                 (* console.warn *)
| EvImageLoaded (source : string)                 (* console.info *)
| EvWidgetChanged (dataUrl : string)              (* node.onWidgetChanged *)
| EvImageRequest (filePath : string)              (* new Image().src = ... *)
| EvRedraw.                                       (* canvas.draw(true, true) *)

(** The part of [this.node] the controller reads or writes. *)
Record node := Node {
  bgcolor : string;
  color : string;
  graph_canvas : bool;             (* node.graph && node.graph.canvas *)
  imageLoaderPreview : bool;       (* node._imageLoaderPreview is set *)
  canvas : bool;                   (* node.canvas, Legacy *)
  node_element : option (string * string);
      (* node.element and its style (outline, backgroundColor), Legacy *)
  onWidgetChanged : bool           (* node.onWidgetChanged is defined *)
}.

Record state := State {
  widgets : gmap string widget;            (* this.widgets *)
  eventListeners : list listener;          (* this.eventListeners *)
  isDragging : bool;                       (* this.isDragging *)
  previewElement : option element;         (* this.previewElement *)
  originalColors : option (string * string);  (* this.originalColors *)
  the_node : node;                         (* this.node *)
  registered : list listener;              (* listeners attached in the page *)
  timers : list timer;                     (* pending setTimeout closures *)
  trace : list event
}.

Global Instance container_eq_dec : EqDecision container.
Proof. solve_decision. Defined.
Global Instance target_eq_dec : EqDecision target.
Proof. solve_decision. Defined.
Global Instance handler_fn_eq_dec : EqDecision handler_fn.
Proof. solve_decision. Defined.
Global Instance listener_eq_dec : EqDecision listener.
Proof. solve_decision. Defined.

Definition set_widgets (f : gmap string widget -> gmap string widget) (s : state) : state :=
  State (f (widgets s)) (eventListeners s) (isDragging s) (previewElement s)
        (originalColors s) (the_node s) (registered s) (timers s) (trace s).
Definition set_eventListeners (l : list listener) (s : state) : state :=
  State (widgets s) l (isDragging s) (previewElement s)
        (originalColors s) (the_node s) (registered s) (timers s) (trace s).
Definition set_isDragging (b : bool) (s : state) : state :=
  State (widgets s) (eventListeners s) b (previewElement s)
        (originalColors s) (the_node s) (registered s) (timers s) (trace s).
Definition set_previewElement (e : option element) (s : state) : state :=
  State (widgets s) (eventListeners s) (isDragging s) e
        (originalColors s) (the_node s) (registered s) (timers s) (trace s).
Definition set_originalColors (c : option (string * string)) (s : state) : state :=
  State (widgets s) (eventListeners s) (isDragging s) (previewElement s)
        c (the_node s) (registered s) (timers s) (trace s).
Definition set_node (f : node -> node) (s : state) : state :=
  State (widgets s) (eventListeners s) (isDragging s) (previewElement s)
        (originalColors s) (f (the_node s)) (registered s) (timers s) (trace s).
Definition set_registered (l : list listener) (s : state) : state :=
  State (widgets s) (eventListeners s) (isDragging s) (previewElement s)
        (originalColors s) (the_node s) l (timers s) (trace s).
Definition set_timers (l : list timer) (s : state) : state :=
  State (widgets s) (eventListeners s) (isDragging s) (previewElement s)
        (originalColors s) (the_node s) (registered s) l (trace s).
Definition set_trace (l : list event) (s : state) : state :=
  State (widgets s) (eventListeners s) (isDragging s) (previewElement s)
        (originalColors s) (the_node s) (registered s) (timers s) l.

Definition set_colors (bg fg : string) (n : node) : node :=
  Node bg fg (graph_canvas n) (imageLoaderPreview n) (canvas n) (node_element n)
       (onWidgetChanged n).
Definition set_imageLoaderPreview (b : bool) (n : node) : node :=
  Node (bgcolor n) (color n) (graph_canvas n) b (canvas n) (node_element n)
       (onWidgetChanged n).
Definition set_node_element (e : option (string * string)) (n : node) : node :=
  Node (bgcolor n) (color n) (graph_canvas n) (imageLoaderPreview n) (canvas n) e
       (onWidgetChanged n).

(** ** The monad of controller methods *)

Inductive error :=
| InvalidCharacterError      (* atob on a malformed string *)
| NotFoundError              (* removeChild of a node that is not a child *)
| TypeError.                 (* calling what is not a function *)

(** A method call returns a value, throws, or exceeds the allowed nesting of
    clearing passes ([OutOfFuel], see [clearOtherInputs]). *)
Inductive outcome (A : Type) :=
| Ok (a : A) (s : state)
| Throw (e : error) (s : state)
| OutOfFuel.
Arguments Ok {A} a s.
Arguments Throw {A} e s.
Arguments OutOfFuel {A}.

Definition M (A : Type) : Type := state -> outcome A.

Global Instance M_ret : MRet M := fun A a s => Ok a s.
Global Instance M_bind : MBind M := fun A B f m s =>
  match m s with
  | Ok a s' => f a s'
  | Throw e s' => Throw e s'
  | OutOfFuel => OutOfFuel
  end.

Definition get : M state := fun s => Ok s s.
Definition modify (f : state -> state) : M unit := fun s => Ok tt (f s).
Definition throw {A} (e : error) : M A := fun s => Throw e s.
Definition out_of_fuel {A} : M A := fun _ => OutOfFuel.
Definition skip : M unit := mret tt.

(** [try { body } catch (error) { handler }] *)
Definition try_catch {A} (body : M A) (handler : error -> M A) : M A := fun s =>
  match body s with
  | Throw e s' => handler e s'
  | r => r
  end.

Definition emit (e : event) : M unit :=
  modify (fun s => set_trace (trace s ++ [e]) s).

(** [list.forEach(f)] *)
Fixpoint forEach {A} (l : list A) (f : A -> M unit) : M unit :=
  match l with
  | [] => skip
  | x :: l' => f x;; forEach l' f
  end.

(** [setTimeout(closure, delay)] *)
Definition setTimeout (k : task) (delay : nat) : M unit :=
  modify (fun s => set_timers (timers s ++ [Timer k delay]) s).

(** ** Preview *)

Definition with_preview (f : element -> element) : M unit :=
  modify (fun s => match previewElement s with
                   | Some e => set_previewElement (Some (f e)) s
                   | None => s
                   end).

(** [hidePreview()] *)
Definition hidePreview : M unit :=
  with_preview (fun e => Element "none" (innerHTML e) (parentNode e)).

(** [showPreview(imageUrl)]: returns at once without a preview element. *)
Definition showPreview (src : image_src) : M unit :=
  with_preview (fun e => Element "block" (PreviewImage src) (parentNode e)).

(** [showPreviewPlaceholder(fileName)]:
    [fileName.split(/[\\/]/).pop() || fileName]. *)
Definition showPreviewPlaceholder (fileName : string) : M unit :=
  let last_part := default "" (last (JS.split JS.is_slash fileName)) in
  let baseName := if JS.truthy last_part then last_part else fileName in
  with_preview (fun e => Element "block" (PreviewPlaceholder baseName) (parentNode e)).

(** [loadImagePreview(filePath)] starts an image request; its completion
    arrives later as [img_onload] or [img_onerror]. *)
Definition loadImagePreview (filePath : string) : M unit :=
  emit (EvImageRequest filePath).

Definition img_onload (filePath : string) : M unit :=
  showPreview (InputFile filePath).

Definition img_onerror (filePath : string) : M unit :=
  showPreviewPlaceholder filePath.

(** [value.startsWith('data:') ? value : `data:image/png;base64,${value}`] *)
Definition as_data_url (value : string) : string :=
  if JS.startsWith value "data:" then value
  else "data:image/png;base64," +:+ value.

(** The tail of [updatePreview] in the table-driven scripts. *)
Definition show_or_hide (imageUrl : string) : M unit :=
  if JS.truthy imageUrl then showPreview (Inline imageUrl) else hidePreview.

Definition updatePreview_full (source value : string) : M unit :=
  s ← get;
  match previewElement s with
  | None => skip
  | Some _ =>
      if String.eqb source "filepath" || String.eqb source "image" then
        if JS.is_filled value then loadImagePreview value
        else show_or_hide ""
      else if String.eqb source "base64" || String.eqb source "paste" then
        show_or_hide (as_data_url value)
      else show_or_hide ""
  end.

Definition updatePreview_reduced (source value : string) : M unit :=
  s ← get;
  match previewElement s with
  | None => skip
  | Some _ =>
      if String.eqb source "filepath" || String.eqb source "image" then
        if JS.is_filled value then loadImagePreview value
        else show_or_hide ""
      else if String.eqb source "base64" then
        show_or_hide (as_data_url value)
      else show_or_hide ""
  end.

Definition updatePreview_legacy (source value : string) : M unit :=
  s ← get;
  match previewElement s with
  | None => skip
  | Some _ =>
      if String.eqb source "filepath" then hidePreview
      else
        let imageUrl :=
          if String.eqb source "base64" || String.eqb source "paste"
          then as_data_url value else "" in
        if JS.truthy imageUrl then
          with_preview (fun e => Element "block" (LegacyImage imageUrl) (parentNode e))
        else skip
  end.

Definition updatePreview (v : variant) : string -> string -> M unit :=
  match v with
  | Full => updatePreview_full
  | Reduced => updatePreview_reduced
  | Legacy => updatePreview_legacy
  end.

(** ** Base64 validation *)

Definition atob (data : string) : M unit :=
  if JS.atob_throws data then throw InvalidCharacterError else skip.

(** [validateBase64Input(value)]: [true] when a preview was requested,
    [false] from the [catch] block, and [undefined] when a [data:image/]
    value has no second element after [split(',')]. *)
Definition validateBase64Input (v : variant) (value : string) : M jsval :=
  try_catch
    (if JS.startsWith value "data:image/" then
       match JS.split JS.is_comma value !! 1%nat with
       | Some data =>
           if JS.truthy data && (0 <? String.length data) then
             updatePreview v "base64" value;; mret (JSBool true)
           else mret JSUndefined
       | None => mret JSUndefined
       end
     else
       atob (JS.substring0 100 value);;
       updatePreview v "base64" ("data:image/png;base64," +:+ value);;
       mret (JSBool true))
    (fun _ => emit EvInvalidBase64;; hidePreview;; mret (JSBool false)).

(** ** Widget callbacks and the clearing pass *)

Definition set_value (key newValue : string) : M unit :=
  modify (set_widgets (alter (fun w => Widget newValue (callback w) (inputEl w)) key)).

(** Calling a widget callback.  A host handler is recorded in the trace and
    its result returned.  A wrapper is the arrow function

      (value) => {
          if (value && value.trim()) {
              this.clearOtherInputs(source);
              this.updatePreview(source, value);
          }
          return originalCallback?.call(this.node, value);
      }

    with the two methods of [this] passed in. *)
Fixpoint call_callback (clearOther : string -> M unit)
    (update : string -> string -> M unit)
    (f : callback_fn) (value : string) : M jsval :=
  match f with
  | HostCallback id => emit (EvHostCallback id value);; mret (HostResult id value)
  | Wrapper source originalCallback =>
      (if JS.is_filled value then clearOther source;; update source value
       else skip);;
      match originalCallback with
      | Some g => call_callback clearOther update g value
      | None => mret JSUndefined
      end
  end.

(** The body of the [forEach] of the table-driven scripts for one entry:
    [widget] is [this.widgets[key]]. *)
Definition clear_widget (call : callback_fn -> string -> M jsval)
    (inputName key : string) : M unit :=
  s ← get;
  match widgets s !! key with
  | Some widget =>
      if negb (String.eqb (value widget) "") then
        let oldValue := value widget in
        set_value key "";;
        match callback widget with
        | Some f => call f "";; skip
        | None => skip
        end;;
        emit (EvCleared inputName (JS.substring0 50 oldValue)
                        (50 <? String.length oldValue))
      else skip
  | None => skip
  end.

Definition clearingRules_full : gmap string (list string) :=
  <["paste" := ["image"; "filepath"; "base64"]]>
  (<["filepath" := ["image"; "base64"]]>
  (<["base64" := ["image"; "filepath"]]>
  (<["image" := ["filepath"; "base64"]]> ∅))).

Definition clearingRules_reduced : gmap string (list string) :=
  <["filepath" := ["image"; "base64"]]>
  (<["base64" := ["image"; "filepath"]]>
  (<["image" := ["filepath"; "base64"]]> ∅)).

(** [clearingRules] is an object literal, so [clearingRules[activeInput]]
    also finds what every object inherits from [Object.prototype]: eleven
    functions and, under [__proto__], the prototype itself. *)
Definition Object_prototype : list string :=
  ["constructor"; "hasOwnProperty"; "isPrototypeOf"; "propertyIsEnumerable";
   "toLocaleString"; "toString"; "valueOf"; "__proto__"; "__defineGetter__";
   "__defineSetter__"; "__lookupGetter__"; "__lookupSetter__"].

Definition inherited (name : string) : bool :=
  bool_decide (name ∈ Object_prototype).

Inductive property (A : Type) :=
| Own (a : A)        (* a property of the literal *)
| Inherited          (* a function or an object of the prototype *)
| Undefined.
Arguments Own {A} a.
Arguments Inherited {A}.
Arguments Undefined {A}.

Definition get_property {A} (object : gmap string A) (name : string)
  : property A :=
  match object !! name with
  | Some a => Own a
  | None => if inherited name then Inherited else Undefined
  end.

(** [const inputsToClear = clearingRules[activeInput] || []], as far as
    [inputsToClear.forEach] goes: an inherited property is truthy and has no
    [forEach], so the call throws a [TypeError]. *)
Definition rule_for (clearingRules : gmap string (list string))
    (activeInput : string) : M (list string) :=
  match get_property clearingRules activeInput with
  | Own inputsToClear => mret inputsToClear
  | Undefined => mret []
  | Inherited => throw TypeError
  end.

(** [inputName === 'paste' ? this.widgets.pasted : this.widgets[inputName]] *)
Definition widget_key (inputName : string) : string :=
  if String.eqb inputName "paste" then "pasted" else inputName.

Definition clearOtherInputs_full (call : callback_fn -> string -> M jsval)
    (activeInput : string) : M unit :=
  inputsToClear ← rule_for clearingRules_full activeInput;
  forEach inputsToClear (fun inputName =>
    clear_widget call inputName (widget_key inputName));;
  hidePreview;;
  if negb (String.eqb activeInput "paste")
  then setTimeout (PreviewRecheck activeInput) 100
  else skip.

Definition clearOtherInputs_reduced (call : callback_fn -> string -> M jsval)
    (activeInput : string) : M unit :=
  inputsToClear ← rule_for clearingRules_reduced activeInput;
  forEach inputsToClear (fun inputName =>
    clear_widget call inputName inputName);;
  hidePreview;;
  setTimeout (PreviewRecheck activeInput) 100.

Definition clearOtherInputs_legacy (activeInput : string) : M unit :=
  forEach ["filepath"; "base64"; "paste"] (fun input =>
    if negb (String.eqb input activeInput) then
      s ← get;
      match widgets s !! widget_key input with
      | Some widget =>
          if negb (String.eqb (value widget) "")
          then set_value (widget_key input) ""
          else skip
      | None => skip
      end
    else skip);;
  if negb (String.eqb activeInput "paste") then hidePreview else skip.

(** [clearOtherInputs(activeInput)].  The clearing pass calls widget
    callbacks, and a wrapper callback calls the clearing pass; [fuel] bounds
    how deep clearing passes may nest, and a pass that would nest deeper
    ends in [OutOfFuel].  Each pass entered is marked in the trace. *)
Fixpoint clearOtherInputs (v : variant) (fuel : nat) (activeInput : string)
  : M unit :=
  match fuel with
  | O => out_of_fuel
  | S n =>
      let call := call_callback (clearOtherInputs v n) (updatePreview v) in
      emit (EvClearPass activeInput);;
      match v with
      | Full => clearOtherInputs_full call activeInput
      | Reduced => clearOtherInputs_reduced call activeInput
      | Legacy => clearOtherInputs_legacy activeInput
      end
  end.

(** The host calls [widget.callback(value)] on [this.widgets[key]]. *)
Definition widget_callback (v : variant) (fuel : nat) (key value : string)
  : M jsval :=
  s ← get;
  match widgets s !! key with
  | Some widget =>
      match callback widget with
      | Some f => call_callback (clearOtherInputs v fuel) (updatePreview v) f value
      | None => mret JSUndefined
      end
  | None => mret JSUndefined
  end.

(** [inputHandler] of the base64 field, on an event whose
    [event.target.value] is [value]. *)
Definition inputHandler (v : variant) (fuel : nat) (value : string) : M unit :=
  if JS.is_filled value then
    clearOtherInputs v fuel "base64";;
    validateBase64Input v value;;
    skip
  else skip.

(** [reader.onload] of [processImageFile(file, source)], with
    [event.target.result = dataUrl] (Full and Legacy);
    [this.node.onWidgetChanged?.(...)] calls the hook of the node when it
    has one. *)
Definition processImageFile_onload (v : variant) (fuel : nat)
    (dataUrl source : string) : M unit :=
  s ← get;
  match widgets s !! "pasted" with
  | Some _ =>
      set_value "pasted" dataUrl;;
      clearOtherInputs v fuel "paste";;
      updatePreview v "paste" dataUrl;;
      s' ← get;
      (if onWidgetChanged (the_node s') then emit (EvWidgetChanged dataUrl)
       else skip);;
      emit (EvImageLoaded source)
  | None => skip
  end.

(** [this.widgets[key]?.value], with undefined read as the empty string. *)
Definition widget_value (key : string) (s : state) : string :=
  match widgets s !! key with
  | Some widget => value widget
  | None => ""
  end.

(** Firing a timer: the closure that [clearOtherInputs] hands to
    [setTimeout] reads the widget of its source again. *)
Definition run_task (v : variant) (k : task) : M unit :=
  match k with
  | PreviewRecheck activeInput =>
      s ← get;
      if String.eqb activeInput "image" && JS.truthy (widget_value "image" s)
      then updatePreview v "image" (widget_value "image" s)
      else if String.eqb activeInput "filepath"
              && JS.truthy (widget_value "filepath" s)
      then updatePreview v "filepath" (widget_value "filepath" s)
      else if String.eqb activeInput "base64"
              && JS.truthy (widget_value "base64" s)
      then updatePreview v "base64" (widget_value "base64" s)
      else skip
  end.

(** ** Listeners, drag state, set-up and clean-up *)

(** [element.addEventListener(type, handler)]: a listener already present is
    not added again. *)
Definition addEventListener (l : listener) : M unit :=
  modify (fun s => if bool_decide (l ∈ registered s) then s
                   else set_registered (registered s ++ [l]) s).

(** [element.removeEventListener(type, handler)]: silent when absent. *)
Definition removeEventListener (l : listener) : M unit :=
  modify (fun s => set_registered (filter (fun l' => l' ≠ l) (registered s)) s).

(** [this.eventListeners.push(l)] *)
Definition push_listener (l : listener) : M unit :=
  modify (fun s => set_eventListeners (eventListeners s ++ [l]) s).

(** [parent.removeChild(this.previewElement)]: throws when the element is
    not a child of [parent]. *)
Definition removeChild (parent : container) : M unit :=
  s ← get;
  match previewElement s with
  | Some e =>
      if bool_decide (parentNode e = Some parent)
      then modify (set_previewElement (Some (Element (display e) (innerHTML e) None)))
      else throw NotFoundError
  | None => throw NotFoundError
  end.

(** Replacing [widget.callback] by the wrapper for [key], which captures
    the callback found there, when [this.widgets[key]] exists. *)
Definition wrap (key : string) (w : widget) : widget :=
  Widget (value w) (Some (Wrapper key (callback w))) (inputEl w).

Definition wrap_callback (key : string) : M unit :=
  modify (set_widgets (alter (wrap key) key)).

Definition has_inputEl (key : string) (s : state) : bool :=
  match widgets s !! key with
  | Some widget => inputEl widget
  | None => false
  end.

Definition setupEventListeners (v : variant) : M unit :=
  match v with
  | Full =>
      wrap_callback "image";;
      wrap_callback "filepath";;
      s ← get;
      (if has_inputEl "base64" s then
         addEventListener (Listener Base64InputEl "input" InputHandler);;
         addEventListener (Listener Base64InputEl "paste" DeferInputHandler);;
         push_listener (Listener Base64InputEl "input" InputHandler)
       else skip);;
      addEventListener (Listener Document "paste" PasteHandler);;
      push_listener (Listener Document "paste" PasteHandler)
  | Reduced =>
      wrap_callback "image";;
      wrap_callback "filepath";;
      s ← get;
      if has_inputEl "base64" s then
        addEventListener (Listener Base64InputEl "input" InputHandler);;
        push_listener (Listener Base64InputEl "input" InputHandler)
      else skip
  | Legacy =>
      wrap_callback "filepath";;
      s ← get;
      (if has_inputEl "base64" s then
         addEventListener (Listener Base64InputEl "input" InputHandler);;
         addEventListener (Listener Base64InputEl "paste" DeferInputHandler);;
         push_listener (Listener Base64InputEl "input" InputHandler)
       else skip);;
      (if canvas (the_node s) then
         addEventListener (Listener NodeCanvas "paste" PasteHandler);;
         push_listener (Listener NodeCanvas "paste" PasteHandler)
       else skip);;
      (if bool_decide (is_Some (node_element (the_node s))) then
         addEventListener (Listener NodeElementTarget "paste" PasteHandler);;
         push_listener (Listener NodeElementTarget "paste" PasteHandler)
       else skip)
  end.

(** [setupPreview()]: the box starts hidden and empty. *)
Definition setupPreview (v : variant) : M unit :=
  match v with
  | Full | Reduced =>
      modify (set_previewElement (Some (Element "none" NoMarkup (Some DocumentBody))));;
      modify (set_node (set_imageLoaderPreview true))
  | Legacy =>
      s ← get;
      if bool_decide (is_Some (node_element (the_node s)))
      then modify (set_previewElement (Some (Element "none" NoMarkup (Some NodeElement))))
      else modify (set_previewElement (Some (Element "none" NoMarkup None)))
  end.

(** [canvas.draw(true, true)] when [node.graph.canvas] exists. *)
Definition redraw : M unit :=
  s ← get;
  if graph_canvas (the_node s) then emit EvRedraw else skip.

Definition setDragState_full (dragging : bool) : M unit :=
  modify (set_isDragging dragging);;
  if dragging then
    s ← get;
    modify (set_originalColors (Some (bgcolor (the_node s), color (the_node s))));;
    modify (set_node (set_colors "rgba(76, 175, 80, 0.2)" "#4CAF50"));;
    redraw
  else
    s ← get;
    match originalColors s with
    | Some (bg, fg) =>
        modify (set_node (set_colors bg fg));;
        modify (set_originalColors None)
    | None => skip
    end;;
    redraw.

Definition setDragState_legacy (dragging : bool) : M unit :=
  modify (set_isDragging dragging);;
  s ← get;
  match node_element (the_node s) with
  | Some _ =>
      if dragging
      then modify (set_node (set_node_element
                     (Some ("2px dashed #4CAF50", "rgba(76, 175, 80, 0.1)"))))
      else modify (set_node (set_node_element (Some ("", ""))))
  | None => skip
  end.

(** [cleanup()] *)
Definition cleanup (v : variant) : M unit :=
  s ← get;
  forEach (eventListeners s) removeEventListener;;
  modify (set_eventListeners []);;
  s ← get;
  match previewElement s with
  | Some e =>
      match parentNode e with
      | Some parent => removeChild parent
      | None => skip
      end
  | None => skip
  end;;
  match v with
  | Full =>
      setDragState_full false;;
      s ← get;
      if imageLoaderPreview (the_node s)
      then modify (set_node (set_imageLoaderPreview false))
      else skip
  | Reduced =>
      s ← get;
      if imageLoaderPreview (the_node s)
      then modify (set_node (set_imageLoaderPreview false))
      else skip
  | Legacy => setDragState_legacy false
  end.

(** ** Activations *)

(** One activation of the precedence engine, [activate(source, newValue)],
    as the host delivers it.  For [paste] an image is pasted while the node
    is selected: a paste listener of the controller that is still attached
    hands it to the file reader, which completes with [newValue].  For
    [base64] the widget holds [newValue] and its text field fires [input]:
    the handler runs if the widget has a text field and the listener is
    still attached to it.  For the other sources the host stores [newValue]
    in the widget and calls its callback. *)
Inductive activation := Activate (source newValue : string).

Definition input_listener : listener :=
  Listener Base64InputEl "input" InputHandler.

Definition is_attached (l : listener) (s : state) : bool :=
  bool_decide (l ∈ registered s).

(** An [input] event of the base64 text field reaches [inputHandler]. *)
Definition input_heard (s : state) : bool :=
  has_inputEl "base64" s && is_attached input_listener s.

(** A paste on the selected node reaches [handlePaste] and passes its test
    of [isNodeActive()], which the four-widget script makes and which needs
    a graph canvas. *)
Definition paste_heard (v : variant) (s : state) : bool :=
  match v with
  | Full =>
      is_attached (Listener Document "paste" PasteHandler) s
      && graph_canvas (the_node s)
  | Reduced => false
  | Legacy =>
      is_attached (Listener NodeCanvas "paste" PasteHandler) s
      || is_attached (Listener NodeElementTarget "paste" PasteHandler) s
  end.

Definition activate (v : variant) (fuel : nat) (a : activation) : M unit :=
  match a with
  | Activate source newValue =>
      if String.eqb source "paste" then
        s ← get;
        if paste_heard v s
        then processImageFile_onload v fuel newValue "paste"
        else skip
      else if String.eqb source "base64" then
        set_value "base64" newValue;;
        s ← get;
        if input_heard s then inputHandler v fuel newValue else skip
      else
        set_value source newValue;;
        widget_callback v fuel source newValue;;
        skip
  end.

Definition run_activations (v : variant) (fuel : nat) (l : list activation)
  : M unit :=
  forEach l (activate v fuel).

(** [new ImageLoaderNodeHandler(node)]; [handler_with ws n] is a controller
    whose [this.widgets] already holds [ws]. *)
Definition handler_with (ws : gmap string widget) (n : node) : state :=
  State ws [] false None None n [] [] [].

Definition new_handler (n : node) : state := handler_with ∅ n.

(** [findWidgets()]: [node.widgets] is a list of named widgets, and each
    property of [this.widgets] is the first widget of the given name, if
    there is one. *)
Definition find_widget (name : string) (node_widgets : list (string * widget))
  : option widget :=
  snd <$> List.find (fun p => String.eqb (fst p) name) node_widgets.

Definition store_widget (key name : string)
    (node_widgets : list (string * widget)) : M unit :=
  match find_widget name node_widgets with
  | Some w => modify (set_widgets (<[key := w]>))
  | None => skip
  end.

Definition findWidgets (v : variant) (node_widgets : list (string * widget))
  : M unit :=
  match v with
  | Full =>
      store_widget "image" "image" node_widgets;;
      store_widget "filepath" "filepath" node_widgets;;
      store_widget "base64" "base64" node_widgets;;
      store_widget "pasted" "pasted_base64" node_widgets
  | Reduced =>
      store_widget "image" "image" node_widgets;;
      store_widget "filepath" "filepath" node_widgets;;
      store_widget "base64" "base64" node_widgets
  | Legacy =>
      store_widget "filepath" "filepath" node_widgets;;
      store_widget "base64" "base64" node_widgets;;
      store_widget "pasted" "pasted_base64" node_widgets
  end.

(** [setupDragAndDrop()]: [js/imgloader.js] attaches three listeners to
    [node.element || node.canvas]; the four-widget script assigns the node's
    own drag handlers, which are not part of this model, and the
    three-widget script has no drag and drop. *)
Definition setupDragAndDrop (v : variant) : M unit :=
  match v with
  | Legacy =>
      s ← get;
      let nodeElement :=
        if bool_decide (is_Some (node_element (the_node s)))
        then Some NodeElementTarget
        else if canvas (the_node s) then Some NodeCanvas else None in
      match nodeElement with
      | Some t =>
          addEventListener (Listener t "dragover" DragOverHandler);;
          addEventListener (Listener t "dragleave" DragLeaveHandler);;
          addEventListener (Listener t "drop" DropHandler);;
          push_listener (Listener t "dragover" DragOverHandler);;
          push_listener (Listener t "dragleave" DragLeaveHandler);;
          push_listener (Listener t "drop" DropHandler)
      | None => skip
      end
  | _ => skip
  end.

(** [initialize()] on a node whose [widgets] are [node_widgets], without
    the styling done by [setupWidgets]. *)
Definition initialize (v : variant) (node_widgets : list (string * widget))
  : M unit :=
  findWidgets v node_widgets;;
  setupEventListeners v;;
  setupDragAndDrop v;;
  setupPreview v.

(** ** What a clearing pass amounts to *)

(** The host handler a callback chain ends in, if any. *)
Fixpoint innermost (f : callback_fn) : option nat :=
  match f with
  | HostCallback id => Some id
  | Wrapper _ (Some g) => innermost g
  | Wrapper _ None => None
  end.

(** What calling [f] with a blank value adds to the trace, and returns. *)
Definition callback_events (f : callback_fn) (value : string) : list event :=
  match innermost f with
  | Some id => [EvHostCallback id value]
  | None => []
  end.

Definition callback_result (f : callback_fn) (value : string) : jsval :=
  match innermost f with
  | Some id => HostResult id value
  | None => JSUndefined
  end.

(** A widget with its value emptied. *)
Definition blank (w : widget) : widget :=
  Widget "" (callback w) (inputEl w).

Definition blank_all (keys : list string) (m : gmap string widget)
  : gmap string widget :=
  foldl (fun m k => alter blank k m) m keys.

(** The trace of clearing one widget: its callback, then the log line. *)
Definition clear_events (inputName : string) (w : widget) : list event :=
  if String.eqb (value w) "" then []
  else match callback w with
       | Some f => callback_events f ""
       | None => []
       end
       ++ [EvCleared inputName (JS.substring0 50 (value w))
                     (50 <? String.length (value w))].

Definition key_events (inputName key : string) (m : gmap string widget)
  : list event :=
  match m !! key with
  | Some w => clear_events inputName w
  | None => []
  end.

Fixpoint pass_events (key : string -> string) (names : list string)
    (m : gmap string widget) : list event :=
  match names with
  | [] => []
  | n :: names' =>
      key_events n (key n) m ++ pass_events key names' (alter blank (key n) m)
  end.

(** The entries of the rule table that a pass for [activeInput] walks. *)
Definition inputsToClear (v : variant) (activeInput : string) : list string :=
  match v with
  | Full => default [] (clearingRules_full !! activeInput)
  | Reduced => default [] (clearingRules_reduced !! activeInput)
  | Legacy =>
      filter (fun input => input ≠ activeInput) ["filepath"; "base64"; "paste"]
  end.

(** In the scripts that have a rule table, a pass for [activeInput] finds an
    inherited property where it looks for its rule. *)
Definition finds_inherited (v : variant) (activeInput : string) : bool :=
  match v with
  | Legacy => false
  | _ => inherited activeInput
  end.

(** The property of [this.widgets] read for an entry. *)
Definition key_of (v : variant) (inputName : string) : string :=
  match v with
  | Reduced => inputName
  | _ => widget_key inputName
  end.

Definition cleared_keys (v : variant) (activeInput : string) : list string :=
  key_of v <$> inputsToClear v activeInput.

Definition hide (e : element) : element :=
  Element "none" (innerHTML e) (parentNode e).

(** The state a clearing pass for [activeInput] ends in, unless it finds an
    inherited property. *)
Definition pass_result (v : variant) (activeInput : string) (s : state) : state :=
  State (blank_all (cleared_keys v activeInput) (widgets s))
        (eventListeners s) (isDragging s)
        (match v with
         | Legacy => if String.eqb activeInput "paste" then previewElement s
                     else hide <$> previewElement s
         | _ => hide <$> previewElement s
         end)
        (originalColors s) (the_node s) (registered s)
        (match v with
         | Full => if String.eqb activeInput "paste" then timers s
                   else timers s ++ [Timer (PreviewRecheck activeInput) 100]
         | Reduced => timers s ++ [Timer (PreviewRecheck activeInput) 100]
         | Legacy => timers s
         end)
        (trace s ++ EvClearPass activeInput ::
           match v with
           | Legacy => []
           | _ => pass_events (key_of v) (inputsToClear v activeInput) (widgets s)
           end).

(** ** The vocabulary of the specification *)

(** The four sources, under the names the specification gives them. *)
Inductive source_id := upload | filepath | base64 | pasted.

Global Instance source_id_eq_dec : EqDecision source_id.
Proof. solve_decision. Defined.

(** The name a source has as [activeInput], and the property of
    [this.widgets] that holds its widget: the specification's [upload] is
    the [image] widget, and [pasted] is activated as ['paste']. *)
Definition input_of (x : source_id) : string :=
  match x with
  | upload => "image"
  | filepath => "filepath"
  | base64 => "base64"
  | pasted => "paste"
  end.

Definition widget_of (x : source_id) : string :=
  match x with
  | upload => "image"
  | filepath => "filepath"
  | base64 => "base64"
  | pasted => "pasted"
  end.

(** The precedence tables as the specification words them. *)
Definition spec_full_precedence (x : source_id) : list source_id :=
  match x with
  | pasted => [upload; filepath; base64]
  | filepath => [upload; base64]
  | base64 => [upload; filepath]
  | upload => [filepath; base64]
  end.

Definition spec_reduced_precedence (x : source_id) : list source_id :=
  match x with
  | filepath => [upload; base64]
  | base64 => [upload; filepath]
  | upload => [filepath; base64]
  | pasted => []                      (* not a source of this policy *)
  end.

(** What [js/imgloader.js] clears: the other entries of
    [filepath; base64; paste]. *)
Definition legacy_others (x : source_id) : list source_id :=
  match x with
  | filepath => [base64; pasted]
  | base64 => [filepath; pasted]
  | pasted => [filepath; base64]
  | upload => [filepath; base64; pasted]
  end.

(** A pass for [a] clears exactly the sources [xs]: it ends normally, the
    widgets of [xs] are emptied, and every other property of
    [this.widgets] is as before. *)
Definition clears_exactly (v : variant) (a : source_id) (xs : list source_id)
  : Prop :=
  forall n s, exists s',
    clearOtherInputs v (S n) (input_of a) s = Ok tt s' /\
    forall k : string,
      widgets s' !! k =
      if bool_decide (k ∈ widget_of <$> xs) then blank <$> widgets s !! k
      else widgets s !! k.

(** A source holds a non-empty value. *)
Definition holds (s : state) (x : source_id) : bool :=
  JS.truthy (widget_value (widget_of x) s).

Definition at_most_one (xs : list source_id) (s : state) : Prop :=
  length (List.filter (holds s) xs) <= 1.

(** ** Observations on states and traces *)

(** How many clearing passes a trace records. *)
Definition is_pass (e : event) : bool :=
  match e with
  | EvClearPass _ => true
  | _ => false
  end.

Definition passes (l : list event) : nat := length (List.filter is_pass l).

(** Events that only the preview code emits. *)
Definition is_preview_event (e : event) : bool :=
  match e with
  | EvImageRequest _ | EvInvalidBase64 => true
  | _ => false
  end.

Definition not_preview_event (e : event) : bool := negb (is_preview_event e).

(** [s'] differs from [s] at most in what the preview box shows (its
    [display] and [innerHTML], when the box exists) and in preview events
    added to the trace. *)
Definition only_preview (s s' : state) : Prop :=
  exists d h evs,
    s' = set_trace (trace s ++ evs)
           (set_previewElement
              ((fun e => Element d h (parentNode e)) <$> previewElement s) s) /\
    forallb is_preview_event evs = true.

(** The preview box, when there is one, is hidden. *)
Definition preview_hidden (s : state) : Prop :=
  forall e, previewElement s = Some e -> display e = "none".

(** An original callback as the host leaves it: absent, or a host handler. *)
Definition plain (orig : option callback_fn) : bool :=
  match orig with
  | None | Some (HostCallback _) => true
  | Some (Wrapper _ _) => false
  end.

(** The final state of a run that ends normally. *)
Definition final {A} (r : outcome A) (otherwise : state) : state :=
  match r with
  | Ok _ s => s
  | _ => otherwise
  end.

(** A node with the four widgets as the host creates them, and the
    controller after [initialize()]. *)
Definition host_widgets : list (string * widget) :=
  [("image", Widget "" (Some (HostCallback 1)) false);
   ("filepath", Widget "" (Some (HostCallback 2)) true);
   ("base64", Widget "" (Some (HostCallback 3)) true);
   ("pasted_base64", Widget "" None true)].

Definition host_node : node :=
  Node "#222" "#fff" true false true (Some ("", "")) true.

Definition booted (v : variant) : state :=
  final (initialize v host_widgets (new_handler host_node))
        (new_handler host_node).

(** States used to evaluate the scripts on concrete inputs: widgets as a
    wired four-widget controller has them, and as js/imgloader.js finds
    them. *)
Definition full_probe : state :=
  handler_with
    (<["image" := Widget "" (Some (Wrapper "image" (Some (HostCallback 1)))) false]>
     (<["filepath" := Widget "x.png" (Some (Wrapper "filepath" (Some (HostCallback 2)))) true]>
     (<["base64" := Widget "" (Some (HostCallback 3)) true]>
     (<["pasted" := Widget "" None true]> ∅))))
    (Node "#222" "#fff" true true false None true).

Definition both_set_probe : state :=
  handler_with
    (<["image" := Widget "" (Some (Wrapper "image" (Some (HostCallback 1)))) false]>
     (<["filepath" := Widget "x.png" (Some (Wrapper "filepath" (Some (HostCallback 2)))) true]>
     (<["base64" := Widget "BBB" (Some (HostCallback 3)) true]>
     (<["pasted" := Widget "" None true]> ∅))))
    (Node "#222" "#fff" true true false None true).

Definition legacy_probe : state :=
  handler_with
    (<["filepath" := Widget "" None true]>
     (<["base64" := Widget "BBB" (Some (HostCallback 7)) true]>
     (<["pasted" := Widget "data:image/png;base64,AAA=" None true]> ∅)))
    (Node "" "" false false false None false).

(** ** Acceptance of a base64 value *)

(** When [validateBase64Input] returns [true], read off its branches. *)
Definition accepts (value : string) : bool :=
  if JS.startsWith value "data:image/" then
    match JS.split JS.is_comma value !! 1%nat with
    | Some data => JS.truthy data && (0 <? String.length data)
    | None => false
    end
  else negb (JS.atob_throws (JS.substring0 100 value)).

(** Acceptance as the specification words it: the [data:image/] prefix with
    a non-empty payload after the first comma, or a successful decode of the
    first 100 characters. *)
Fixpoint after_first_comma (s : string) : option string :=
  match s with
  | EmptyString => None
  | String c s' => if JS.is_comma c then Some s' else after_first_comma s'
  end.

Definition spec_accepts (value : string) : bool :=
  JS.startsWith value "data:image/"
    && match after_first_comma value with
       | Some payload => JS.truthy payload
       | None => false
       end
  || negb (JS.atob_throws (JS.substring0 100 value)).

(** The same with the payload read as the code reads it: the text between
    the first comma and the next one, or the end of the value. *)
Definition second_field (value : string) : string :=
  default "" (JS.split JS.is_comma value !! 1%nat).

Definition accepts_by_fields (value : string) : bool :=
  JS.startsWith value "data:image/" && JS.truthy (second_field value)
  || negb (JS.atob_throws (JS.substring0 100 value)).

(** ** Wired controllers and deliverable activations *)

(** Every widget carries a host handler or no callback. *)
Definition all_plain (m : gmap string widget) : Prop :=
  forall k w, m !! k = Some w -> plain (callback w) = true.

(** The widgets whose callback [setupEventListeners] wraps. *)
Definition wrapped_keys (v : variant) : list string :=
  match v with
  | Legacy => ["filepath"]
  | _ => ["image"; "filepath"]
  end.

(** The callback of [key] is the wrapper for [key] around what the host had
    installed. *)
Definition wrapped_once (key : string) (w : widget) : bool :=
  match callback w with
  | Some (Wrapper source orig) => String.eqb source key && plain orig
  | _ => false
  end.

(** [s] is a controller after [setupEventListeners]: every wrapped widget
    that exists carries its wrapper. *)
Definition wired (v : variant) (s : state) : bool :=
  forallb (fun key => match widgets s !! key with
                      | Some w => wrapped_once key w
                      | None => true
                      end)
          (wrapped_keys v).

(** The names under which the sources of a policy are activated. *)
Definition sources_of (v : variant) : list string :=
  match v with
  | Full => ["image"; "filepath"; "base64"; "paste"]
  | Reduced => ["image"; "filepath"; "base64"]
  | Legacy => ["filepath"; "base64"; "paste"]
  end.

(** The event of an activation reaches the controller: for [base64] and
    [paste] through a listener, for the other sources through the callback
    of the widget. *)
Definition heard (v : variant) (s : state) (source : string) : bool :=
  if String.eqb source "paste" then paste_heard v s
  else if String.eqb source "base64" then input_heard s
  else true.

(** An activation the host can deliver: a source of the policy, whose widget
    exists and whose event reaches the controller, with a value that is
    non-empty after trimming. *)
Definition deliverable (v : variant) (s : state) (a : activation) : bool :=
  match a with
  | Activate source newValue =>
      bool_decide (source ∈ sources_of v)
      && JS.is_filled newValue
      && bool_decide (is_Some (widgets s !! widget_key source))
      && heard v s source
  end.

Definition source_of (a : activation) : string :=
  match a with
  | Activate source _ => source
  end.

(** The widgets after a deliverable activation: the value is stored and the
    pass for the source has run. *)
Definition widgets_after (v : variant) (a : activation)
    (m : gmap string widget) : gmap string widget :=
  match a with
  | Activate source newValue =>
      blank_all (cleared_keys v source)
        (alter (fun w => Widget newValue (callback w) (inputEl w))
               (widget_key source) m)
  end.

(** ** What [cleanup] amounts to *)

Definition detach (e : element) : element :=
  Element (display e) (innerHTML e) None.

Definition unregister (ls : list listener) (registered : list listener)
  : list listener :=
  foldl (fun r l => filter (fun l' => l' ≠ l) r) registered ls.

(** The redraw requested by [setDragState(false)] in the four-widget
    script. *)
Definition cleanup_events (v : variant) (s : state) : list event :=
  match v with
  | Full => if graph_canvas (the_node s) then [EvRedraw] else []
  | _ => []
  end.

(** The state [cleanup()] ends in. *)
Definition cleaned (v : variant) (s : state) : state :=
  State (widgets s) []
        (match v with
         | Reduced => isDragging s
         | _ => false
         end)
        (detach <$> previewElement s)
        (match v with
         | Full => None
         | _ => originalColors s
         end)
        (match v with
         | Full =>
             set_imageLoaderPreview false
               (match originalColors s with
                | Some (bg, fg) => set_colors bg fg (the_node s)
                | None => the_node s
                end)
         | Reduced => set_imageLoaderPreview false (the_node s)
         | Legacy =>
             match node_element (the_node s) with
             | Some _ => set_node_element (Some ("", "")) (the_node s)
             | None => the_node s
             end
         end)
        (unregister (eventListeners s) (registered s))
        (timers s)
        (trace s ++ cleanup_events v s).

(** A four-widget controller after a rejected base64 input, with the
    re-check of that activation still pending. *)
Definition stale_probe : state :=
  final (activate Full 1 (Activate "base64" "!!") (booted Full)) (booted Full).

(** * Definitions for the further properties *)

(** What the preview box holds when it shows the data URL [imageUrl]: the
    [<img>] of [showPreview] in the table-driven scripts, the one written by
    [updatePreview] in js/imgloader.js. *)
Definition inline_markup (v : variant) (imageUrl : string) : markup :=
  match v with
  | Legacy => LegacyImage imageUrl
  | _ => PreviewImage (Inline imageUrl)
  end.

(** The preview box [e] once it displays [imageUrl]. *)
Definition showing (v : variant) (imageUrl : string) (e : element) : element :=
  Element "block" (inline_markup v imageUrl) (parentNode e).

(** The drag highlight of the four-widget script: the redraw that
    [setDragState] requests, and the states its two branches end in. *)
Definition redraw_events (s : state) : list event :=
  if graph_canvas (the_node s) then [EvRedraw] else [].

Definition drag_started (s : state) : state :=
  State (widgets s) (eventListeners s) true (previewElement s)
        (Some (bgcolor (the_node s), color (the_node s)))
        (set_colors "rgba(76, 175, 80, 0.2)" "#4CAF50" (the_node s))
        (registered s) (timers s) (trace s ++ redraw_events s).

Definition drag_ended (s : state) : state :=
  State (widgets s) (eventListeners s) false (previewElement s) None
        (match originalColors s with
         | Some (bg, fg) => set_colors bg fg (the_node s)
         | None => the_node s
         end)
        (registered s) (timers s) (trace s ++ redraw_events s).

(** [s] contains a code unit that satisfies [p]. *)
Fixpoint contains (p : ascii -> bool) (s : string) : bool :=
  match s with
  | EmptyString => false
  | String c s' => p c || contains p s'
  end.

(** The properties of [this.widgets] that [findWidgets] assigns, and the
    name of the node widget each one is looked up by. *)
Definition keys_of (v : variant) : list string :=
  match v with
  | Full => ["image"; "filepath"; "base64"; "pasted"]
  | Reduced => ["image"; "filepath"; "base64"]
  | Legacy => ["filepath"; "base64"; "pasted"]
  end.

Definition node_name (key : string) : string :=
  if String.eqb key "pasted" then "pasted_base64" else key.

(** The node has a base64 widget with a text field. *)
Definition has_textarea (node_widgets : list (string * widget)) : bool :=
  match find_widget "base64" node_widgets with
  | Some w => inputEl w
  | None => false
  end.

(** The listener that [setupEventListeners] attaches to the base64 text
    field for pasted text, in the scripts that have it. *)
Definition text_paste_listener : listener :=
  Listener Base64InputEl "paste" DeferInputHandler.

(** The element the drag listeners of js/imgloader.js are attached to. *)
Definition drag_target (n : node) : option target :=
  if bool_decide (is_Some (node_element n)) then Some NodeElementTarget
  else if canvas n then Some NodeCanvas
  else None.

(** The listeners [initialize()] attaches for clipboard images and dragged
    files, all of which it records in [this.eventListeners]. *)
Definition node_listeners (v : variant) (n : node) : list listener :=
  match v with
  | Full => [Listener Document "paste" PasteHandler]
  | Reduced => []
  | Legacy =>
      (if canvas n then [Listener NodeCanvas "paste" PasteHandler] else []) ++
      (if bool_decide (is_Some (node_element n))
       then [Listener NodeElementTarget "paste" PasteHandler] else []) ++
      match drag_target n with
      | Some t => [Listener t "dragover" DragOverHandler;
                   Listener t "dragleave" DragLeaveHandler;
                   Listener t "drop" DropHandler]
      | None => []
      end
  end.

(** The listener on the base64 text field that [cleanup()] has no record
    of, in the scripts that attach it. *)
Definition unrecorded (v : variant) (textarea : bool) : list listener :=
  match v with
  | Reduced => []
  | _ => if textarea then [text_paste_listener] else []
  end.

(** The entries of [this.eventListeners] after [initialize()], and the
    listeners attached by then, on a node whose base64 widget has a text
    field or not. *)
Definition recorded (v : variant) (textarea : bool) (n : node) : list listener :=
  (if textarea then [Listener Base64InputEl "input" InputHandler] else []) ++
  node_listeners v n.

Definition attached (v : variant) (textarea : bool) (n : node) : list listener :=
  (if textarea
   then Listener Base64InputEl "input" InputHandler :: unrecorded v true
   else []) ++
  node_listeners v n.

(** The preview box [setupPreview()] creates. *)
Definition new_preview (v : variant) (n : node) : element :=
  Element "none" NoMarkup
          (match v with
           | Legacy => if bool_decide (is_Some (node_element n))
                       then Some NodeElement else None
           | _ => Some DocumentBody
           end).

(** The widgets after [setupEventListeners()]. *)
Definition wrapped (v : variant) (m : gmap string widget) : gmap string widget :=
  foldl (fun m key => alter (wrap key) key m) m (wrapped_keys v).

(** An activation the host can deliver to the controller that
    [initialize()] sets up on the node [n] with the widgets [node_widgets]:
    a source of the policy whose widget the node has, with a value that is
    non-empty after trimming, and whose event reaches the controller.  An
    input into the base64 field needs the text field; a paste needs the
    graph canvas in the four-widget script, and the canvas or the element
    of the node, where the listeners are put, in js/imgloader.js. *)
Definition offered (v : variant) (node_widgets : list (string * widget))
    (n : node) (a : activation) : bool :=
  match a with
  | Activate source newValue =>
      bool_decide (source ∈ sources_of v)
      && JS.is_filled newValue
      && bool_decide (is_Some (find_widget (node_name (widget_key source))
                                           node_widgets))
      && (if String.eqb source "paste" then
            match v with
            | Full => graph_canvas n
            | Reduced => false
            | Legacy => canvas n || bool_decide (is_Some (node_element n))
            end
          else if String.eqb source "base64" then has_textarea node_widgets
          else true)
  end.

(** The preview box showing the placeholder for [baseName]. *)
Definition placeholder (baseName : string) (e : element) : element :=
  Element "block" (PreviewPlaceholder baseName) (parentNode e).

(** ** Clipboard and drag events (Full and Legacy)

    The handlers below read an event of the browser.  What they do to the
    event and to the document is returned as a list of [action]s, in the
    order of the calls; what they do to the controller goes through the
    monad as before.  A file read started by [processImageFile] completes
    later, as [processImageFile_onload]. *)

(** [String.prototype.toLowerCase] on code units below 256: the letters
    A to Z, and À to Þ without the multiplication sign. *)
Definition lower (c : ascii) : ascii :=
  let n := nat_of_ascii c in
  if (Nat.leb 65 n && Nat.leb n 90)
     || (Nat.leb 192 n && Nat.leb n 222 && negb (Nat.eqb n 215))
  then ascii_of_nat (n + 32)
  else c.

Fixpoint toLowerCase (s : string) : string :=
  match s with
  | EmptyString => EmptyString
  | String c s' => String (lower c) (toLowerCase s')
  end.

(** [CONFIG.SUPPORTED_IMAGE_TYPES] *)
Definition SUPPORTED_IMAGE_TYPES : list string :=
  ["image/png"; "image/jpeg"; "image/jpg"; "image/gif"; "image/webp";
   "image/bmp"].

(** [isValidImageType(type)] *)
Definition isValidImageType (type : string) : bool :=
  bool_decide (toLowerCase type ∈ SUPPORTED_IMAGE_TYPES).

(** A [File], and an entry of a [DataTransferItemList]: its [kind] is
    ['string'] or ['file'], and for a file [item.type] is the type of the
    file that [item.getAsFile()] returns. *)
Record file := File { file_name : string; file_type : string }.

Inductive item :=
| StringItem (type : string)
| FileItem (f : file).

(** [event.dataTransfer]; [types] and [items] may be missing. *)
Record dataTransfer := DataTransfer {
  dt_types : option (list string);
  dt_items : option (list item);
  dt_files : list file
}.

Inductive action :=
| PreventDefault                (* event.preventDefault() *)
| StopPropagation               (* event.stopPropagation() *)
| DropEffectCopy                (* event.dataTransfer.dropEffect = 'copy' *)
| ReadAsDataURL (f : file) (source : string)
                                (* reader.readAsDataURL(file) in processImageFile *)
| ShowPasteIndicator.           (* this.showPasteIndicator() *)

(** What a handler assigned to [node.onDragOver], [node.onDragLeave] or
    [node.onDrop] returns: [true], or what the handler the node had before
    returns, which is called if there is one. *)
Inductive verdict := ReturnTrue | Forward.

(** [item.kind === 'file' && this.isValidImageType(item.type)] *)
Definition is_image_item (it : item) : bool :=
  match it with
  | FileItem f => isValidImageType (file_type f)
  | StringItem _ => false
  end.

(** [hasImageFiles(dataTransfer)] *)
Definition hasImageFiles (dt : option dataTransfer) : bool :=
  match dt with
  | Some d =>
      match dt_types d with
      | Some types =>
          bool_decide ("Files" ∈ types)
          && existsb is_image_item (default [] (dt_items d))
      | None => false
      end
  | None => false
  end.

(** [processImageFile(file, source)] up to the start of the read. *)
Definition processImageFile (f : file) (source : string) : M (list action) :=
  mret [ReadAsDataURL f source].

(** [isNodeActive()]; [selected] is
    [canvas.selected_nodes && canvas.selected_nodes[this.node.id]]. *)
Definition isNodeActive (selected : bool) (s : state) : bool :=
  graph_canvas (the_node s) && selected.

(** The loop of [handlePaste(event)] over
    [(event.clipboardData || event.originalEvent?.clipboardData)?.items],
    which returns at the first image. *)
Fixpoint paste_items (items : list item) : M (list action) :=
  match items with
  | [] => mret []
  | StringItem _ :: rest => paste_items rest
  | FileItem f :: rest =>
      if isValidImageType (file_type f) then
        acts ← processImageFile f "paste";
        mret ([PreventDefault; StopPropagation] ++ acts ++ [ShowPasteIndicator])
      else paste_items rest
  end.

Definition handlePaste_legacy (items : option (list item)) : M (list action) :=
  match items with
  | Some items => paste_items items
  | None => mret []
  end.

Definition handlePaste_full (selected : bool) (items : option (list item))
  : M (list action) :=
  s ← get;
  if negb (isNodeActive selected s) then mret []
  else handlePaste_legacy items.

(** [handleDrop(event)] with [event.dataTransfer = d]. *)
Definition handleDrop (d : dataTransfer) : M (list action) :=
  let imageFiles := List.filter (fun f => isValidImageType (file_type f))
                                (dt_files d) in
  match imageFiles with
  | f :: _ => processImageFile f "drop"
  | [] => mret []
  end.

(** The handlers that [setupDragAndDrop] of the four-widget script assigns
    to the node. *)
Definition onDragOver (dt : option dataTransfer) : M (list action * verdict) :=
  if hasImageFiles dt then
    setDragState_full true;;
    mret ([PreventDefault; StopPropagation; DropEffectCopy], ReturnTrue)
  else mret ([], Forward).

Definition onDragLeave : M (list action * verdict) :=
  setDragState_full false;;
  mret ([], Forward).

Definition onDrop (dt : option dataTransfer) : M (list action * verdict) :=
  match dt with
  | Some d =>
      if hasImageFiles dt then
        setDragState_full false;;
        acts ← handleDrop d;
        mret ([PreventDefault; StopPropagation] ++ acts, ReturnTrue)
      else mret ([], Forward)
  | None => mret ([], Forward)
  end.

(** The listeners that [setupDragAndDrop] of js/imgloader.js attaches;
    [inside] is [nodeElement.contains(event.relatedTarget)]. *)
Definition dragOverHandler (dt : option dataTransfer) : M (list action) :=
  if hasImageFiles dt then
    setDragState_legacy true;;
    mret [PreventDefault; StopPropagation; DropEffectCopy]
  else mret [PreventDefault; StopPropagation].

Definition dragLeaveHandler (inside : bool) : M (list action) :=
  (if inside then skip else setDragState_legacy false);;
  mret [PreventDefault; StopPropagation].

Definition dropHandler (d : dataTransfer) : M (list action) :=
  setDragState_legacy false;;
  acts ← handleDrop d;
  mret ([PreventDefault; StopPropagation] ++ acts).

(** The controller of js/imgloader.js after [setDragState(dragging)]. *)
Definition outlined (dragging : bool) (s : state) : state :=
  State (widgets s) (eventListeners s) dragging (previewElement s)
        (originalColors s)
        (match node_element (the_node s) with
         | Some _ =>
             set_node_element
               (Some (if dragging
                      then ("2px dashed #4CAF50", "rgba(76, 175, 80, 0.1)")
                      else ("", "")))
               (the_node s)
         | None => the_node s
         end)
        (registered s) (timers s) (trace s).

(** The actions of [handleDrop]: one read, of the first file of a supported
    image type. *)
Definition drop_actions (d : dataTransfer) : list action :=
  match List.filter (fun f => isValidImageType (file_type f)) (dt_files d) with
  | f :: _ => [ReadAsDataURL f "drop"]
  | [] => []
  end.

(** The widgets after [newValue] is stored in the widget [key]. *)
Definition stored (key newValue : string) (m : gmap string widget)
  : gmap string widget :=
  alter (fun w => Widget newValue (callback w) (inputEl w)) key m.


(** The call [this.node.onWidgetChanged?.(...)] at the end of
    [reader.onload]: it reaches the node only when the node has the hook. *)
Definition notification (s : state) (dataUrl : string) : list event :=
  if onWidgetChanged (the_node s) then [EvWidgetChanged dataUrl] else [].

(** * Properties *)

(** ** The string primitives on sample inputs *)

Example trim_blank : JS.trim "  	 " = "".
Proof. reflexivity. Qed.

Example trim_inner : JS.trim "  a b  " = "a b".
Proof. reflexivity. Qed.

Example split_two : JS.split JS.is_comma "data:image/png;base64,AAA=" =
                    ["data:image/png;base64"; "AAA="].
Proof. reflexivity. Qed.

Example split_none : JS.split JS.is_comma "abc" = ["abc"].
Proof. reflexivity. Qed.

Example atob_QQQ : JS.atob_throws "QQQ" = false.
Proof. reflexivity. Qed.

Example atob_bang : JS.atob_throws "!!" = true.
Proof. reflexivity. Qed.

Example atob_len1 : JS.atob_throws "QQQQQ" = true.
Proof. reflexivity. Qed.

(** ** The scripts on sample inputs *)

(** A paste while filepath and base64 are set empties both. *)
Example paste_clears_filepath_and_base64 :
  exists s',
    processImageFile_onload Full 1 "data:image/png;base64,AAA=" "paste"
                            both_set_probe = Ok tt s' /\
    widget_value "pasted" s' = "data:image/png;base64,AAA=" /\
    widget_value "filepath" s' = "" /\
    widget_value "base64" s' = "" /\
    trace s' = [EvClearPass "paste";
                EvHostCallback 2 ""; EvCleared "filepath" "x.png" false;
                EvHostCallback 3 ""; EvCleared "base64" "BBB" false;
                EvWidgetChanged "data:image/png;base64,AAA=";
                EvImageLoaded "paste"].
Proof. eexists. split; [vm_compute; reflexivity |]. repeat split. Qed.

(** A pass without fuel ends in [OutOfFuel]; one level is enough. *)
Example pass_without_fuel :
  clearOtherInputs Full 0 "image" both_set_probe = OutOfFuel.
Proof. reflexivity. Qed.

Example upload_clears_filepath_and_base64 :
  exists s',
    clearOtherInputs Full 1 "image" both_set_probe = Ok tt s' /\
    widget_value "filepath" s' = "" /\ widget_value "base64" s' = "" /\
    timers s' = [Timer (PreviewRecheck "image") 100].
Proof. eexists. split; [vm_compute; reflexivity |]. repeat split. Qed.

(** The three-widget script has no rule for paste: nothing is emptied. *)
Example reduced_has_no_paste_rule :
  exists s',
    clearOtherInputs Reduced 1 "paste" both_set_probe = Ok tt s' /\
    widgets s' = widgets both_set_probe.
Proof. eexists. split; [vm_compute; reflexivity |]. reflexivity. Qed.

(** On a node whose base64 widget has no text field no input handler is
    attached: a value that arrives in the widget after filepath was set runs
    no clearing pass, and both stay set. *)
Example base64_without_text_field :
  exists s1 s',
    initialize Full [("filepath", Widget "" (Some (HostCallback 2)) true);
                     ("base64", Widget "" (Some (HostCallback 3)) false)]
               (new_handler host_node) = Ok tt s1 /\
    run_activations Full 1
      [Activate "filepath" "x.png"; Activate "base64" "QUJD"] s1 = Ok tt s' /\
    widget_value "filepath" s' = "x.png" /\
    widget_value "base64" s' = "QUJD" /\
    passes (trace s') = 1%nat.
Proof.
  eexists _, _. split; [vm_compute; reflexivity |].
  split; [vm_compute; reflexivity |]. repeat split.
Qed.

(** The rule table is an object literal: a name it inherits is no rule, and
    the pass throws before it clears or hides anything. *)
Example inherited_name_throws :
  clearOtherInputs Full 1 "constructor" both_set_probe
  = Throw TypeError (set_trace [EvClearPass "constructor"] both_set_probe).
Proof. reflexivity. Qed.

(** ** Running monadic code *)

Ltac unfold_M :=
  unfold skip, emit, setTimeout, with_preview in *;
  unfold mbind, M_bind, mret, M_ret, modify, get, throw, out_of_fuel in *.

Ltac elem_cases H :=
  repeat (apply elem_of_cons in H as [H | H]; [try discriminate H |]);
  try (by apply elem_of_nil in H).

Lemma bind_Ok {A B} (m : M A) (k : A -> M B) s a s' :
  m s = Ok a s' -> (m ≫= k) s = k a s'.
Proof. intros H. unfold mbind, M_bind. by rewrite H. Qed.

Lemma callback_fn_ind (P : callback_fn -> Prop) :
  (forall id, P (HostCallback id)) ->
  (forall source, P (Wrapper source None)) ->
  (forall source g, P g -> P (Wrapper source (Some g))) ->
  forall f, P f.
Proof.
  intros Hh Hn Hs. fix IH 1. intros [id | source [g |]].
  - apply Hh.
  - apply Hs, IH.
  - apply Hn.
Qed.

Lemma set_trace_nil s : set_trace (trace s ++ []) s = s.
Proof. destruct s; unfold set_trace; simpl. by rewrite app_nil_r. Qed.

(** A callback called with a blank value only reaches the host handler at
    the end of its chain. *)
Lemma call_callback_blank clearOther update f value s :
  JS.is_filled value = false ->
  call_callback clearOther update f value s =
  Ok (callback_result f value)
     (set_trace (trace s ++ callback_events f value) s).
Proof.
  intros Hv. revert s.
  induction f as [id | source | source g IH] using callback_fn_ind; intros s.
  - reflexivity.
  - simpl. rewrite Hv. unfold callback_events, callback_result. simpl.
    unfold_M. by rewrite set_trace_nil.
  - simpl. rewrite Hv. unfold_M. simpl. apply IH.
Qed.

Lemma blank_empty w : value w = "" -> blank w = w.
Proof. destruct w; simpl; intros ->; reflexivity. Qed.

(** One entry of the rule table. *)
Lemma clear_widget_spec clearOther update inputName key s :
  clear_widget (call_callback clearOther update) inputName key s =
  Ok tt (set_trace (trace s ++ key_events inputName key (widgets s))
           (set_widgets (alter blank key) s)).
Proof.
  unfold clear_widget, key_events, clear_events.
  unfold mbind at 1, M_bind at 1, get.
  destruct (widgets s !! key) as [w |] eqn:Hw.
  - destruct (String.eqb (value w) "") eqn:Hv; simpl.
    + apply String.eqb_eq in Hv.
      unfold_M. f_equal. destruct s; unfold set_trace, set_widgets; simpl in *.
      rewrite app_nil_r. f_equal. symmetry. apply alter_id.
      intros x Hx. rewrite Hw in Hx. injection Hx as <-. by apply blank_empty.
    + destruct (callback w) as [f |] eqn:Hf.
      * unfold set_value. unfold mbind, M_bind, modify at 1.
        rewrite call_callback_blank by reflexivity.
        unfold_M. f_equal. destruct s; unfold set_trace, set_widgets; simpl in *.
        simpl. rewrite <- app_assoc. reflexivity.
      * unfold set_value. unfold_M. reflexivity.
  - unfold_M. f_equal. destruct s; unfold set_trace, set_widgets; simpl in *.
    rewrite app_nil_r. f_equal. symmetry. apply alter_id.
    intros x Hx. rewrite Hw in Hx. discriminate.
Qed.

Lemma set_widgets_id s : set_widgets (fun m => m) s = s.
Proof. by destruct s. Qed.

(** The [forEach] of the table-driven scripts. *)
Lemma forEach_clear clearOther update key names s :
  forEach names (fun n => clear_widget (call_callback clearOther update) n (key n)) s =
  Ok tt (set_trace (trace s ++ pass_events key names (widgets s))
           (set_widgets (blank_all (key <$> names)) s)).
Proof.
  revert s. induction names as [| n names IH]; intros s.
  - simpl. unfold_M. f_equal. destruct s; unfold set_trace, set_widgets; simpl.
    by rewrite app_nil_r.
  - cbn [forEach]. erewrite bind_Ok by apply clear_widget_spec.
    rewrite IH. f_equal.
    destruct s; unfold set_trace, set_widgets; simpl. by rewrite <- app_assoc.
Qed.

(** The [forEach] of [js/imgloader.js]. *)
Lemma forEach_legacy activeInput names s :
  forEach names (fun input =>
    if negb (String.eqb input activeInput) then
      s ← get;
      match widgets s !! widget_key input with
      | Some widget =>
          if negb (String.eqb (value widget) "")
          then set_value (widget_key input) ""
          else skip
      | None => skip
      end
    else skip) s =
  Ok tt (set_widgets
           (blank_all (widget_key <$> filter (fun input => input ≠ activeInput) names)) s).
Proof.
  revert s. induction names as [| n names IH]; intros s.
  - simpl. unfold_M. by rewrite set_widgets_id.
  - cbn [forEach]. rewrite filter_cons.
    destruct (String.eqb n activeInput) eqn:Hn; simpl.
    + apply String.eqb_eq in Hn. rewrite decide_False by (intros H; by apply H).
      unfold mbind at 1, M_bind at 1, skip, mret, M_ret. apply IH.
    + apply String.eqb_neq in Hn. rewrite decide_True by done.
      unfold mbind at 1, M_bind at 1.
      assert ((get ≫= λ s0 : state,
                 match widgets s0 !! widget_key n with
                 | Some widget =>
                     if negb (String.eqb (value widget) "")
                     then set_value (widget_key n) "" else skip
                 | None => skip
                 end) s = Ok tt (set_widgets (alter blank (widget_key n)) s)) as ->.
      { unfold mbind, M_bind, get.
        destruct (widgets s !! widget_key n) as [w |] eqn:Hw.
        - destruct (String.eqb (value w) "") eqn:Hv; simpl.
          + apply String.eqb_eq in Hv. unfold_M. f_equal.
            destruct s; unfold set_widgets; simpl in *. f_equal. symmetry.
            apply alter_id. intros x Hx. rewrite Hw in Hx.
            injection Hx as <-. by apply blank_empty.
          + reflexivity.
        - unfold_M. f_equal.
          destruct s; unfold set_widgets; simpl in *. f_equal. symmetry.
          apply alter_id. intros x Hx. rewrite Hw in Hx. discriminate. }
      rewrite IH. f_equal.
Qed.

Lemma hidePreview_spec s :
  hidePreview s = Ok tt (set_previewElement (hide <$> previewElement s) s).
Proof.
  unfold hidePreview. unfold_M. f_equal.
  destruct s as [? ? ? [e |] ? ? ? ? ?]; reflexivity.
Qed.

Lemma inherited_no_rule (rules : gmap string (list string)) activeInput :
  inherited activeInput = false ->
  rule_for rules activeInput = mret (default [] (rules !! activeInput)).
Proof.
  intros Hno. unfold rule_for, get_property. rewrite Hno.
  by destruct (rules !! activeInput).
Qed.

Lemma inherited_rule_throws v n activeInput s :
  finds_inherited v activeInput = true ->
  clearOtherInputs v (S n) activeInput s
  = Throw TypeError (set_trace (trace s ++ [EvClearPass activeInput]) s).
Proof.
  intros Hin. cbn [clearOtherInputs].
  unfold mbind at 1, M_bind at 1. unfold emit at 1, modify at 1.
  assert (forall rules : gmap string (list string),
            rules !! activeInput = None \/ inherited activeInput = false ->
            inherited activeInput = true ->
            rule_for rules activeInput = throw TypeError) as Hthrow.
  { intros rules [Hnone | Hno] Hyes; [| congruence].
    unfold rule_for, get_property. by rewrite Hnone, Hyes. }
  destruct v; [| | discriminate]; cbn in Hin;
    unfold clearOtherInputs_full, clearOtherInputs_reduced;
    rewrite Hthrow; try done; left;
    apply bool_decide_eq_true in Hin; unfold Object_prototype in Hin;
    elem_cases Hin; subst activeInput; reflexivity.
Qed.

(** A clearing pass with fuel for one level that finds its rule, or none,
    ends normally, in the state [pass_result]: no nested pass is ever
    entered. *)
Lemma clearOtherInputs_spec v n activeInput s :
  finds_inherited v activeInput = false ->
  clearOtherInputs v (S n) activeInput s = Ok tt (pass_result v activeInput s).
Proof.
  intros Hno. cbn [clearOtherInputs].
  unfold mbind at 1, M_bind at 1. unfold emit at 1, modify at 1.
  destruct v.
  - unfold clearOtherInputs_full. rewrite (inherited_no_rule _ _ Hno).
    unfold mbind at 1, M_bind at 1, mret at 1, M_ret at 1.
    erewrite bind_Ok by apply forEach_clear.
    erewrite bind_Ok by apply hidePreview_spec.
    unfold pass_result, cleared_keys, inputsToClear, key_of.
    destruct (String.eqb activeInput "paste"); simpl; unfold_M; f_equal;
      destruct s; unfold set_trace, set_widgets, set_previewElement, set_timers;
      simpl; f_equal; rewrite <- ?app_assoc; done.
  - unfold clearOtherInputs_reduced. rewrite (inherited_no_rule _ _ Hno).
    unfold mbind at 1, M_bind at 1, mret at 1, M_ret at 1.
    erewrite bind_Ok by apply (forEach_clear _ _ (fun n => n)).
    erewrite bind_Ok by apply hidePreview_spec.
    unfold pass_result, cleared_keys, inputsToClear, key_of.
    unfold_M; f_equal;
      destruct s; unfold set_trace, set_widgets, set_previewElement, set_timers;
      simpl; f_equal; rewrite ?list_fmap_id, <- ?app_assoc; done.
  - unfold clearOtherInputs_legacy.
    erewrite bind_Ok by apply forEach_legacy.
    unfold pass_result, cleared_keys, inputsToClear, key_of.
    destruct (String.eqb activeInput "paste"); simpl.
    + unfold_M. f_equal.
    + rewrite hidePreview_spec. f_equal.
Qed.

(** The names the scripts themselves pass to [clearOtherInputs] find no
    inherited property. *)
Lemma source_not_inherited v (a : source_id) :
  finds_inherited v (input_of a) = false.
Proof. by destruct v, a. Qed.

Lemma key_not_inherited v (key : string) :
  key ∈ ["image"; "filepath"; "base64"; "paste"] ->
  finds_inherited v key = false.
Proof. intros Hkey. elem_cases Hkey; subst key; by destruct v. Qed.

(** ** Widget values after a pass *)

Lemma lookup_blank_all keys (m : gmap string widget) (k : string) :
  blank_all keys m !! k =
  if bool_decide (k ∈ keys) then blank <$> m !! k else m !! k.
Proof.
  revert m. induction keys as [| k' keys IH]; intros m.
  - reflexivity.
  - cbn [blank_all foldl]. fold (blank_all keys (alter blank k' m)).
    rewrite IH. rewrite lookup_alter.
    destruct (decide (k' = k)) as [-> | Hne].
    + rewrite (bool_decide_eq_true_2 (k ∈ k :: keys)) by apply list_elem_of_here.
      case_bool_decide; [| done].
      destruct (m !! k); reflexivity.
    + case_bool_decide as Hk.
      * rewrite bool_decide_eq_true_2 by (by apply list_elem_of_further). done.
      * rewrite bool_decide_eq_false_2; [done |].
        intros [-> | ?]%elem_of_cons; done.
Qed.

Lemma widgets_pass_result v activeInput s :
  widgets (pass_result v activeInput s) =
  blank_all (cleared_keys v activeInput) (widgets s).
Proof. reflexivity. Qed.

Lemma clears_exactly_intro v a xs :
  (forall k : string, k ∈ cleared_keys v (input_of a) <-> k ∈ widget_of <$> xs) ->
  clears_exactly v a xs.
Proof.
  intros Hk n s. exists (pass_result v (input_of a) s). split.
  - apply clearOtherInputs_spec, source_not_inherited.
  - intros k. rewrite widgets_pass_result, lookup_blank_all.
    by rewrite (bool_decide_ext _ _ (Hk k)).
Qed.

(** ** C2: which sources a pass clears *)

(** C2, as amended: in the four-widget script a pass clears exactly the
    sources of the full precedence table (pasted clears upload, filepath and
    base64; filepath clears upload and base64; base64 clears upload and
    filepath; upload clears filepath and base64), in the three-widget script
    exactly those of the reduced table, and in js/imgloader.js, which has no
    table, exactly the other sources among filepath, base64 and pasted. *)
Theorem clearing_rules_by_variant :
  Forall (fun a => clears_exactly Full a (spec_full_precedence a))
         [upload; filepath; base64; pasted] /\
  Forall (fun a => clears_exactly Reduced a (spec_reduced_precedence a))
         [upload; filepath; base64] /\
  Forall (fun a => clears_exactly Legacy a (legacy_others a))
         [filepath; base64; pasted].
Proof.
  repeat split; repeat apply Forall_cons_2; try apply Forall_nil_2;
    apply clears_exactly_intro; intros k; reflexivity.
Qed.

(** C2 fails as stated: js/imgloader.js is a variant of the clearing pass in
    the code base, and there activating filepath empties the pasted widget,
    which the filepath row of neither table lists. *)
Lemma legacy_filepath_clears_pasted :
  ~ clears_exactly Legacy filepath (spec_full_precedence filepath) /\
  ~ clears_exactly Legacy filepath (spec_reduced_precedence filepath).
Proof.
  split; intros H; destruct (H 0%nat legacy_probe) as (s' & Hrun & Hk);
    rewrite clearOtherInputs_spec in Hrun by reflexivity; injection Hrun as <-;
    specialize (Hk "pasted"); vm_compute in Hk; discriminate.
Qed.

(** ** C3: a cleared source is emptied and notified *)

Lemma pass_events_split key names (m : gmap string widget) n w :
  NoDup (key <$> names) -> n ∈ names -> m !! key n = Some w ->
  exists before after,
    pass_events key names m = before ++ clear_events n w ++ after.
Proof.
  revert m. induction names as [| n' names IH]; intros m Hnd Hin Hw.
  - by apply elem_of_nil in Hin.
  - rewrite fmap_cons in Hnd. apply NoDup_cons in Hnd as [Hfresh Hnd].
    apply elem_of_cons in Hin as [<- | Hin]; cbn [pass_events].
    + exists [], (pass_events key names (alter blank (key n) m)).
      unfold key_events. by rewrite Hw.
    + assert (key n' ≠ key n) as Hne.
      { intros Heq. apply Hfresh. rewrite Heq. by apply list_elem_of_fmap_2. }
      destruct (IH (alter blank (key n') m) Hnd Hin) as (before & after & ->).
      { by rewrite lookup_alter_ne. }
      exists (key_events n' (key n') m ++ before), after.
      by rewrite <- app_assoc.
Qed.

Lemma inputsToClear_NoDup v a :
  NoDup (key_of v <$> inputsToClear v (input_of a)).
Proof.
  apply (bool_decide_unpack _). by destruct v, a; vm_compute.
Qed.

(** C3, as amended: in the two table-driven scripts, whenever a pass reaches
    a source that holds a non-empty value, the pass ends with that widget's
    value empty, and the widget's callback has been called with the empty
    string: the host handler it leads to ran, before the log line of the
    clearing.  (js/imgloader.js empties the value and calls nothing.) *)
Theorem cleared_source_is_notified (v : variant) (n : nat) (a : source_id)
    (s : state) (inputName : string) (w : widget) (f : callback_fn) (id : nat) :
  v ≠ Legacy ->
  inputName ∈ inputsToClear v (input_of a) ->
  widgets s !! key_of v inputName = Some w ->
  value w ≠ "" ->
  callback w = Some f ->
  innermost f = Some id ->
  exists s' before after,
    clearOtherInputs v (S n) (input_of a) s = Ok tt s' /\
    widget_value (key_of v inputName) s' = "" /\
    trace s' = trace s ++ before ++
               [EvHostCallback id "";
                EvCleared inputName (JS.substring0 50 (value w))
                          (50 <? String.length (value w))] ++ after.
Proof.
  intros Hv Hin Hw Hval Hf Hid.
  destruct (pass_events_split (key_of v) _ (widgets s) inputName w
              (inputsToClear_NoDup v a) Hin Hw) as (before & after & Hev).
  exists (pass_result v (input_of a) s), (EvClearPass (input_of a) :: before), after.
  split; [apply clearOtherInputs_spec, source_not_inherited |]. split.
  - unfold widget_value. rewrite widgets_pass_result, lookup_blank_all, Hw.
    rewrite bool_decide_eq_true_2; [done |].
    unfold cleared_keys. by apply list_elem_of_fmap_2.
  - assert (clear_events inputName w =
            [EvHostCallback id "";
             EvCleared inputName (JS.substring0 50 (value w))
                       (50 <? String.length (value w))]) as Hce.
    { unfold clear_events. apply String.eqb_neq in Hval. rewrite Hval, Hf.
      unfold callback_events. by rewrite Hid. }
    rewrite Hce in Hev.
    destruct v; [| | done]; cbn [pass_result trace]; rewrite Hev; reflexivity.
Qed.

Lemma cleared_source_is_notified_witness :
  exists s' before after,
    clearOtherInputs Full 1 "image" full_probe = Ok tt s' /\
    widget_value "filepath" s' = "" /\
    trace s' = [] ++ before ++
               [EvHostCallback 2 ""; EvCleared "filepath" "x.png" false] ++ after.
Proof.
  apply (cleared_source_is_notified Full 0 upload full_probe "filepath"
           (Widget "x.png" (Some (Wrapper "filepath" (Some (HostCallback 2)))) true)
           (Wrapper "filepath" (Some (HostCallback 2))) 2).
  - discriminate.
  - vm_compute. apply list_elem_of_here.
  - reflexivity.
  - discriminate.
  - reflexivity.
  - reflexivity.
Defined.

(** C3 fails as stated: the clearing pass of js/imgloader.js empties the
    base64 widget, whose value was BBB and whose callback is the host
    handler 7, and calls nothing: the pass leaves only its own mark in the
    trace. *)
Lemma legacy_clears_without_callback :
  widget_value "base64" legacy_probe = "BBB" /\
  (callback <$> widgets legacy_probe !! "base64") = Some (Some (HostCallback 7)) /\
  exists s',
    clearOtherInputs Legacy 1 "filepath" legacy_probe = Ok tt s' /\
    widget_value "base64" s' = "" /\
    trace s' = [EvClearPass "filepath"].
Proof.
  split; [reflexivity |]. split; [reflexivity |].
  eexists. split; [by apply clearOtherInputs_spec |]. split; reflexivity.
Qed.

(** ** What the preview code can change *)

Lemma only_preview_refl s : only_preview s s.
Proof.
  destruct (previewElement s) as [e |] eqn:He.
  - exists (display e), (innerHTML e), []. split; [| done].
    destruct s; simpl in *; subst. unfold set_trace, set_previewElement; simpl.
    rewrite app_nil_r. by destruct e.
  - exists "", NoMarkup, []. split; [| done].
    destruct s; simpl in *; subst. unfold set_trace, set_previewElement; simpl.
    by rewrite app_nil_r.
Qed.

Lemma only_preview_trans s1 s2 s3 :
  only_preview s1 s2 -> only_preview s2 s3 -> only_preview s1 s3.
Proof.
  intros (d1 & h1 & l1 & -> & Hl1) (d2 & h2 & l2 & -> & Hl2).
  exists d2, h2, (l1 ++ l2). split.
  - destruct s1 as [? ? ? [e |] ? ? ? ? ?];
      unfold set_trace, set_previewElement; simpl; by rewrite app_assoc.
  - rewrite forallb_app, Hl1, Hl2. done.
Qed.

Lemma only_preview_with d h s :
  only_preview s
    (set_previewElement ((fun e => Element d h (parentNode e)) <$> previewElement s) s).
Proof.
  exists d, h, []. split; [| done].
  destruct s; unfold set_trace, set_previewElement; simpl. by rewrite app_nil_r.
Qed.

Lemma only_preview_emit e s :
  is_preview_event e = true -> only_preview s (set_trace (trace s ++ [e]) s).
Proof.
  intros He. eapply only_preview_trans; [apply only_preview_refl |].
  destruct (previewElement s) as [el |] eqn:Hel.
  - exists (display el), (innerHTML el), [e]. split; [| by simpl; rewrite He].
    destruct s; simpl in *; subst. unfold set_trace, set_previewElement; simpl.
    by destruct el.
  - exists "", NoMarkup, [e]. split; [| by simpl; rewrite He].
    destruct s; simpl in *; subst. reflexivity.
Qed.

Lemma with_preview_spec (f : element -> element) s :
  with_preview f s = Ok tt (set_previewElement (f <$> previewElement s) s).
Proof.
  unfold with_preview, modify. f_equal.
  destruct s as [? ? ? [e |] ? ? ? ? ?]; reflexivity.
Qed.

Lemma hidePreview_only s : exists s', hidePreview s = Ok tt s' /\ only_preview s s'.
Proof.
  eexists. split; [apply hidePreview_spec |].
  destruct (previewElement s) as [e |] eqn:He.
  - exists "none", (innerHTML e), []. split; [| done].
    destruct s; simpl in *; subst. unfold set_trace, set_previewElement; simpl.
    by rewrite app_nil_r.
  - exists "", NoMarkup, []. split; [| done].
    destruct s; simpl in *; subst. unfold set_trace, set_previewElement; simpl.
    by rewrite app_nil_r.
Qed.

Lemma showPreview_only src s :
  exists s', showPreview src s = Ok tt s' /\ only_preview s s'.
Proof.
  eexists. split; [apply with_preview_spec |]. apply only_preview_with.
Qed.

Lemma show_or_hide_only imageUrl s :
  exists s', show_or_hide imageUrl s = Ok tt s' /\ only_preview s s'.
Proof.
  unfold show_or_hide. destruct (JS.truthy imageUrl).
  - apply showPreview_only.
  - apply hidePreview_only.
Qed.

Lemma loadImagePreview_only filePath s :
  exists s', loadImagePreview filePath s = Ok tt s' /\ only_preview s s'.
Proof.
  eexists. split; [reflexivity |]. by apply only_preview_emit.
Qed.

(** [updatePreview] never throws and touches nothing but the preview. *)
Lemma updatePreview_only v source value s :
  exists s', updatePreview v source value s = Ok tt s' /\ only_preview s s'.
Proof.
  destruct v; cbn [updatePreview];
    [unfold updatePreview_full | unfold updatePreview_reduced
     | unfold updatePreview_legacy];
    unfold mbind, M_bind, get;
    (destruct (previewElement s) eqn:He;
     [| eexists; split; [reflexivity | apply only_preview_refl]]).
  - destruct (_ || _).
    + destruct (JS.is_filled value);
        [apply loadImagePreview_only | apply show_or_hide_only].
    + destruct (_ || _); apply show_or_hide_only.
  - destruct (_ || _).
    + destruct (JS.is_filled value);
        [apply loadImagePreview_only | apply show_or_hide_only].
    + destruct (String.eqb source "base64"); apply show_or_hide_only.
  - destruct (String.eqb source "filepath"); [apply hidePreview_only |].
    destruct (JS.truthy _).
    + eexists. split; [apply with_preview_spec |]. apply only_preview_with.
    + eexists; split; [reflexivity | apply only_preview_refl].
Qed.

Lemma passes_app l1 l2 : passes (l1 ++ l2) = (passes l1 + passes l2)%nat.
Proof. unfold passes. by rewrite List.filter_app, length_app. Qed.

Lemma passes_preview_events evs :
  forallb is_preview_event evs = true -> passes evs = 0%nat.
Proof.
  induction evs as [| e evs IH]; [done |]. simpl.
  intros [He Hevs]%andb_prop. unfold passes in *. simpl.
  destruct e; try discriminate; simpl; auto.
Qed.

Lemma only_preview_widgets s s' : only_preview s s' -> widgets s' = widgets s.
Proof. by intros (d & h & evs & -> & _). Qed.

Lemma only_preview_timers s s' : only_preview s s' -> timers s' = timers s.
Proof. by intros (d & h & evs & -> & _). Qed.

Lemma only_preview_passes s s' :
  only_preview s s' -> passes (trace s') = passes (trace s).
Proof.
  intros (d & h & evs & -> & Hevs).
  destruct s; unfold set_trace, set_previewElement; cbn [trace].
  rewrite passes_app, (passes_preview_events _ Hevs). lia.
Qed.

(** ** One level of clearing pass is enough *)

Lemma trim_blank_not_filled value : JS.trim value = "" -> JS.is_filled value = false.
Proof. unfold JS.is_filled. intros ->. by destruct (JS.truthy value). Qed.

Lemma passes_callback_events f value : passes (callback_events f value) = 0%nat.
Proof. unfold callback_events. by destruct (innermost f). Qed.

Lemma passes_key_events inputName key m : passes (key_events inputName key m) = 0%nat.
Proof.
  unfold key_events, clear_events. destruct (m !! key) as [w |]; [| done].
  destruct (String.eqb (value w) ""); [done |].
  rewrite passes_app. destruct (callback w); [rewrite passes_callback_events |]; done.
Qed.

Lemma passes_pass_events key names m : passes (pass_events key names m) = 0%nat.
Proof.
  revert m. induction names as [| n names IH]; intros m; [done |].
  cbn [pass_events]. by rewrite passes_app, passes_key_events, IH.
Qed.

Lemma passes_pass_result v activeInput s :
  passes (trace (pass_result v activeInput s)) = S (passes (trace s)).
Proof.
  cbn [pass_result trace]. rewrite passes_app.
  change (EvClearPass activeInput :: ?l) with ([EvClearPass activeInput] ++ l).
  rewrite passes_app.
  destruct v; rewrite ?passes_pass_events; cbn; lia.
Qed.

(** A wrapper around a host handler, or around nothing, called with a
    filled value: one pass, the preview update, then the host handler. *)
Lemma wrapper_filled_spec v n source orig value s :
  finds_inherited v source = false ->
  plain orig = true -> JS.is_filled value = true ->
  exists s1,
    updatePreview v source value (pass_result v source s) = Ok tt s1 /\
    only_preview (pass_result v source s) s1 /\
    call_callback (clearOtherInputs v (S n)) (updatePreview v)
                  (Wrapper source orig) value s =
    Ok (callback_result (Wrapper source orig) value)
       (set_trace (trace s1 ++ callback_events (Wrapper source orig) value) s1).
Proof.
  intros Hsource Hplain Hfilled.
  destruct (updatePreview_only v source value (pass_result v source s))
    as (s1 & Hup & Hs1).
  exists s1. split; [exact Hup |]. split; [exact Hs1 |].
  cbn [call_callback]. rewrite Hfilled.
  assert (((clearOtherInputs v (S n) source;; updatePreview v source value) s)
          = Ok tt s1) as Hpre.
  { erewrite bind_Ok by by apply clearOtherInputs_spec. exact Hup. }
  erewrite bind_Ok by exact Hpre.
  destruct orig as [[id | ? ?] |]; [| done |].
  - reflexivity.
  - unfold callback_result, callback_events. cbn [innermost].
    by rewrite set_trace_nil.
Qed.

Lemma passes_set_trace_callback f value s :
  passes (trace (set_trace (trace s ++ callback_events f value) s)) =
  passes (trace s).
Proof.
  destruct s; cbn [set_trace trace].
  rewrite passes_app, passes_callback_events. lia.
Qed.


(** ** C6: the preview after a pass *)

Lemma pass_events_not_preview key names m :
  forallb not_preview_event (pass_events key names m) = true.
Proof.
  revert m. induction names as [| n names IH]; intros m; [done |].
  cbn [pass_events]. rewrite forallb_app, IH, andb_true_r.
  unfold key_events, clear_events. destruct (m !! key n) as [w |]; [| done].
  destruct (String.eqb (value w) ""); [done |].
  rewrite forallb_app. destruct (callback w) as [f |]; [| done].
  unfold callback_events. by destruct (innermost f).
Qed.

Lemma run_task_recheck v a s :
  a ≠ pasted ->
  run_task v (PreviewRecheck (input_of a)) s =
  if JS.truthy (widget_value (widget_of a) s)
  then updatePreview v (input_of a) (widget_value (widget_of a) s) s
  else Ok tt s.
Proof.
  intros Ha. unfold run_task, mbind, M_bind, get.
  destruct a; [| | | done]; cbn;
    repeat (destruct (JS.truthy _); cbn; try reflexivity).
Qed.

(** C6, as amended: in the two table-driven scripts a pass for upload,
    filepath or base64 only hides the preview box (its content is not
    touched and no image is requested while the pass runs) and schedules one
    closure with a delay of 100 ms, which, when it fires, reads the value the
    widget of that source has then and updates the preview from it, if it is
    non-empty.  A pass for pasted in the four-widget script, and every pass
    of js/imgloader.js, schedules nothing. *)
Theorem preview_recheck_is_deferred :
  (forall v n a s,
     v ≠ Legacy -> a ≠ pasted ->
     exists s' evs,
       clearOtherInputs v (S n) (input_of a) s = Ok tt s' /\
       timers s' = timers s ++ [Timer (PreviewRecheck (input_of a)) 100] /\
       previewElement s' = hide <$> previewElement s /\
       trace s' = trace s ++ evs /\ forallb not_preview_event evs = true /\
       forall later,
         run_task v (PreviewRecheck (input_of a)) later =
         if JS.truthy (widget_value (widget_of a) later)
         then updatePreview v (input_of a) (widget_value (widget_of a) later) later
         else Ok tt later) /\
  (forall n s,
     exists s', clearOtherInputs Full (S n) (input_of pasted) s = Ok tt s' /\
                timers s' = timers s) /\
  (forall n a s,
     exists s', clearOtherInputs Legacy (S n) (input_of a) s = Ok tt s' /\
                timers s' = timers s).
Proof.
  split; [| split].
  - intros v n a s Hv Ha.
    exists (pass_result v (input_of a) s). eexists.
    split; [apply clearOtherInputs_spec, source_not_inherited |].
    split; [by destruct v, a |]. split; [by destruct v, a |].
    split; [reflexivity |]. split.
    + destruct v; [| | done]; cbn; apply pass_events_not_preview.
    + intros later. by apply run_task_recheck.
  - intros n s. eexists. split; [by apply clearOtherInputs_spec | reflexivity].
  - intros n a s. eexists. split; [by apply clearOtherInputs_spec | reflexivity].
Qed.

Lemma preview_recheck_is_deferred_witness :
  exists s' evs,
    clearOtherInputs Full 1 (input_of filepath) (booted Full) = Ok tt s' /\
    timers s' = timers (booted Full) ++ [Timer (PreviewRecheck (input_of filepath)) 100] /\
    previewElement s' = hide <$> previewElement (booted Full) /\
    trace s' = trace (booted Full) ++ evs /\ forallb not_preview_event evs = true /\
    forall later,
      run_task Full (PreviewRecheck (input_of filepath)) later =
      if JS.truthy (widget_value (widget_of filepath) later)
      then updatePreview Full (input_of filepath)
             (widget_value (widget_of filepath) later) later
      else Ok tt later.
Proof.
  apply (proj1 preview_recheck_is_deferred Full 0%nat filepath (booted Full));
    discriminate.
Defined.

(** C6 fails as stated: when the file reader delivers a pasted image in the
    four-widget script, the handler ends with the preview box already showing
    the image and with no closure scheduled; and in js/imgloader.js an
    activation of base64 ends the same way. *)
Lemma paste_preview_is_immediate :
  (exists s',
     processImageFile_onload Full 1 "data:image/png;base64,AAA=" "paste"
                             (booted Full) = Ok tt s' /\
     timers s' = [] /\
     previewElement s' =
     Some (Element "block" (PreviewImage (Inline "data:image/png;base64,AAA="))
                   (Some DocumentBody))) /\
  (exists s',
     activate Legacy 1 (Activate "base64" "QUJD") (booted Legacy) = Ok tt s' /\
     timers s' = [] /\
     previewElement s' =
     Some (Element "block" (LegacyImage "data:image/png;base64,QUJD")
                   (Some NodeElement))).
Proof.
  split; eexists; (split; [vm_compute; reflexivity |]); split; reflexivity.
Qed.

(** ** Base64 validation *)

Lemma truthy_length s : JS.truthy s && (0 <? String.length s) = JS.truthy s.
Proof. by destruct s. Qed.

(** The three ways [validateBase64Input] ends. *)
Lemma validateBase64Input_cases v value s :
  (accepts value = true /\
   exists s', validateBase64Input v value s = Ok (JSBool true) s' /\
              only_preview s s') \/
  (accepts value = false /\ JS.startsWith value "data:image/" = true /\
   validateBase64Input v value s = Ok JSUndefined s) \/
  (accepts value = false /\ JS.startsWith value "data:image/" = false /\
   validateBase64Input v value s =
   Ok (JSBool false)
      (set_previewElement (hide <$> previewElement s)
         (set_trace (trace s ++ [EvInvalidBase64]) s))).
Proof.
  unfold validateBase64Input, accepts, try_catch.
  destruct (JS.startsWith value "data:image/") eqn:Hp.
  - destruct (JS.split JS.is_comma value !! 1%nat) as [data |].
    + destruct (JS.truthy data && (0 <? String.length data)).
      * left. split; [done |].
        destruct (updatePreview_only v "base64" value s) as (s' & Hup & Hs').
        exists s'. erewrite bind_Ok by exact Hup. done.
      * right; left. done.
    + right; left. done.
  - unfold atob. destruct (JS.atob_throws (JS.substring0 100 value)); cbn [negb].
    + right; right. split; [done |]. split; [done |].
      unfold emit, modify, throw, mbind, M_bind.
      rewrite hidePreview_spec. reflexivity.
    + left. split; [done |].
      destruct (updatePreview_only v "base64" ("data:image/png;base64," +:+ value) s)
        as (s' & Hup & Hs').
      exists s'. unfold skip, mret, M_ret. 
      unfold mbind at 1, M_bind at 1. erewrite bind_Ok by exact Hup. done.
Qed.

Lemma validateBase64Input_only v value s :
  exists r s', validateBase64Input v value s = Ok r s' /\ only_preview s s'.
Proof.
  destruct (validateBase64Input_cases v value s)
    as [(_ & s' & H & Hs') | [(_ & _ & H) | (_ & _ & H)]]; rewrite H.
  - eauto.
  - eexists _, _. split; [reflexivity | apply only_preview_refl].
  - eexists _, _. split; [reflexivity |].
    eapply only_preview_trans; [by apply (only_preview_emit EvInvalidBase64) |].
    destruct (hidePreview_only (set_trace (trace s ++ [EvInvalidBase64]) s))
      as (s' & Hh & Hs').
    rewrite hidePreview_spec in Hh. injection Hh as <-. exact Hs'.
Qed.

Lemma strip_padding_take (l : list ascii) :
  exists k, JS.strip_padding l = take k l /\ length l <= k + 2.
Proof.
  unfold JS.strip_padding.
  assert (exists k, l = take k l /\ length l <= k + 2) as Hid.
  { exists (length l). split; [by rewrite firstn_all | lia]. }
  destruct (length l mod 4 =? 0)%nat; [| exact Hid].
  destruct (rev l) as [| x r] eqn:Hr; [exact Hid |].
  assert (l = rev r ++ [x]) as Hl.
  { rewrite <- (rev_involutive l), Hr. reflexivity. }
  destruct (Ascii.ascii_dec x "="%char) as [-> | Hx].
  - destruct r as [| y r'].
    + exists 0%nat. subst l. split; [reflexivity | simpl; lia].
    + destruct (Ascii.ascii_dec y "="%char) as [-> | Hy].
      * exists (length (rev r')). subst l. cbn [rev]. split.
        -- rewrite <- app_assoc. by rewrite take_app_length.
        -- rewrite !length_app. simpl. lia.
      * assert (match y with
                | "="%char => rev r'
                | _ => rev (y :: r')
                end = rev (y :: r')) as ->.
        { destruct y as [[] [] [] [] [] [] [] []]; try reflexivity. by destruct Hy. }
        exists (length (rev (y :: r'))). subst l. split.
        -- by rewrite take_app_length.
        -- rewrite !length_app. simpl. lia.
  - assert (match x with
            | "="%char => match r with
                          | "="%char :: r0 => rev r0
                          | _ => rev r
                          end
            | _ => l
            end = l) as ->; [| exact Hid].
    destruct x as [[] [] [] [] [] [] [] []]; try reflexivity. by destruct Hx.
Qed.

Lemma data_image_prefix value :
  JS.startsWith value "data:image/" = true ->
  exists rest, value = "data:image/" +:+ rest.
Proof.
  unfold JS.startsWith. intros H.
  do 11 (destruct value as [| ? value]; cbn [String.prefix] in H; [discriminate |];
         destruct (Ascii.ascii_dec _ _) as [<- |]; [| discriminate]).
  by exists value.
Qed.

(** The decode probe cannot succeed on a [data:image/] value: the colon is
    no base64 character. *)
Lemma atob_throws_data_image value :
  JS.startsWith value "data:image/" = true ->
  JS.atob_throws (JS.substring0 100 value) = true.
Proof.
  intros [rest ->]%data_image_prefix.
  unfold JS.atob_throws, JS.substring0. cbn [String.append String.substring].
  cbn [list_ascii_of_string].
  set (tl := list_ascii_of_string _).
  set (l := filter _ _).
  assert (exists l', l = "d"%char :: "a"%char :: "t"%char :: "a"%char :: ":"%char
                         :: "i"%char :: "m"%char :: "a"%char :: "g"%char
                         :: "e"%char :: "/"%char :: l') as [l' Hl].
  { eexists. subst l. reflexivity. }
  destruct (strip_padding_take l) as (k & -> & Hk).
  rewrite Hl in *. simpl in Hk.
  do 9 (destruct k as [| k]; [lia |]).
  cbn. by rewrite orb_true_r. 
Qed.

Lemma accepts_by_fields_correct value : accepts_by_fields value = accepts value.
Proof.
  unfold accepts_by_fields, accepts, second_field.
  destruct (JS.startsWith value "data:image/") eqn:Hp; cbn [andb orb].
  - rewrite (atob_throws_data_image _ Hp). cbn [negb]. rewrite orb_false_r.
    destruct (JS.split JS.is_comma value !! 1%nat) as [data |]; cbn [default].
    + by rewrite truthy_length.
    + reflexivity.
  - reflexivity.
Qed.

Lemma preview_hidden_hide s p :
  previewElement s = hide <$> p -> preview_hidden s.
Proof.
  intros Hs e He. rewrite Hs in He. destruct p; [| done].
  injection He as <-. reflexivity.
Qed.

Lemma hide_hide (p : option element) : hide <$> (hide <$> p) = hide <$> p.
Proof. by destruct p. Qed.

Lemma previewElement_pass_result_base64 v s :
  previewElement (pass_result v "base64" s) = hide <$> previewElement s.
Proof. by destruct v. Qed.

(** A value that is not accepted leaves the state of the clearing pass that
    precedes validation as it is, up to the warning in the trace. *)
Lemma validate_rejected_after_pass v value s :
  accepts value = false ->
  exists r evs,
    validateBase64Input v value (pass_result v "base64" s) =
    Ok r (set_trace (trace (pass_result v "base64" s) ++ evs)
                    (pass_result v "base64" s)) /\
    r ≠ JSBool true.
Proof.
  intros Hacc. set (s1 := pass_result v "base64" s).
  destruct (validateBase64Input_cases v value s1)
    as [(Ht & _) | [(_ & _ & H) | (_ & _ & H)]].
  - congruence.
  - exists JSUndefined, []. by rewrite H, set_trace_nil.
  - exists (JSBool false), [EvInvalidBase64]. rewrite H. split; [| done].
    f_equal. unfold s1 at 1. rewrite previewElement_pass_result_base64, hide_hide.
    rewrite <- (previewElement_pass_result_base64 v s). fold s1.
    destruct s1; reflexivity.
Qed.

(** ** C4: the clearing pass does not depend on validation *)

(** The input handler on a filled value: the pass, then validation. *)
Lemma inputHandler_spec (v : variant) (n : nat) (value : string) (s : state) :
  JS.is_filled value = true ->
  exists r s',
    validateBase64Input v value (pass_result v "base64" s) = Ok r s' /\
    inputHandler v (S n) value s = Ok tt s' /\
    only_preview (pass_result v "base64" s) s'.
Proof.
  intros Hfilled.
  destruct (validateBase64Input_only v value (pass_result v "base64" s))
    as (r & s' & Hval & Hs').
  exists r, s'. split; [exact Hval |]. split; [| exact Hs'].
  unfold inputHandler. rewrite Hfilled.
  erewrite bind_Ok by (apply clearOtherInputs_spec; by destruct v).
  erewrite bind_Ok by exact Hval. reflexivity.
Qed.

Lemma rejected_state_hidden v s evs :
  preview_hidden (set_trace (trace (pass_result v "base64" s) ++ evs)
                            (pass_result v "base64" s)).
Proof.
  apply (preview_hidden_hide _ (previewElement s)). by destruct s, v.
Qed.

(** C4: for every base64 input value that is non-empty (after trimming, as
    the caller of an activation hands it over), the input handler runs the
    clearing pass and then validation,
    and ends normally whatever validation answers: exactly one pass is
    recorded, the widgets are as the pass left them, and the base64 widget is
    as it was before the handler ran.  When the value is rejected the state
    is that of the clearing pass, in which the preview box is hidden, up to
    the warning in the trace. *)
Theorem clearing_pass_ignores_validation (v : variant) (n : nat)
    (value : string) (s : state) :
  JS.is_filled value = true ->
  exists s1 r s',
    clearOtherInputs v (S n) "base64" s = Ok tt s1 /\
    validateBase64Input v value s1 = Ok r s' /\
    inputHandler v (S n) value s = Ok tt s' /\
    passes (trace s') = S (passes (trace s)) /\
    widgets s' = widgets s1 /\
    widgets s' !! "base64" = widgets s !! "base64" /\
    (r ≠ JSBool true ->
     preview_hidden s' /\ exists evs, s' = set_trace (trace s1 ++ evs) s1).
Proof.
  intros Hfilled. set (s1 := pass_result v "base64" s).
  destruct (inputHandler_spec v n value s Hfilled) as (r & s' & Hval & Hrun & Hs').
  fold s1 in Hval, Hs'.
  exists s1, r, s'. split; [apply clearOtherInputs_spec; by destruct v |].
  split; [exact Hval |].
  split; [exact Hrun |].
  assert (widgets s' = widgets s1) as Hw by by apply only_preview_widgets.
  split; [| split; [exact Hw | split]].
  - rewrite (only_preview_passes _ _ Hs'). apply passes_pass_result.
  - rewrite Hw. unfold s1. rewrite widgets_pass_result, lookup_blank_all.
    by destruct v.
  - intros Hr.
    destruct (accepts value) eqn:Hacc.
    + destruct (validateBase64Input_cases v value s1)
        as [(_ & s2 & H & _) | [(Hf & _) | (Hf & _)]]; congruence.
    + destruct (validate_rejected_after_pass v value s Hacc) as (r' & evs & H & _).
      fold s1 in H. rewrite H in Hval. injection Hval as <- <-. split.
      * apply rejected_state_hidden.
      * by exists evs.
Qed.

Lemma clearing_pass_ignores_validation_witness :
  exists s1 r s',
    clearOtherInputs Full 1 "base64" full_probe = Ok tt s1 /\
    validateBase64Input Full "!!" s1 = Ok r s' /\
    inputHandler Full 1 "!!" full_probe = Ok tt s' /\
    passes (trace s') = S (passes (trace full_probe)) /\
    widgets s' = widgets s1 /\
    widgets s' !! "base64" = widgets full_probe !! "base64" /\
    (r ≠ JSBool true ->
     preview_hidden s' /\ exists evs, s' = set_trace (trace s1 ++ evs) s1).
Proof.
  apply (clearing_pass_ignores_validation Full 0 "!!" full_probe).
  reflexivity.
Defined.

(** ** C5: which values validation accepts *)

(** C5, as amended: validation always ends normally, and it accepts a value
    (returns true) if and only if either the value is prefixed data:image/
    and the text between its first comma and the next comma, or the end, is
    non-empty, or its first 100 characters decode as base64.  For a value
    that is not accepted the preview is hidden once the base64 input handler
    has run; validation hides it itself when the decode probe fails. *)
Theorem base64_acceptance :
  (forall v value s,
     exists r s',
       validateBase64Input v value s = Ok r s' /\
       (r = JSBool true <-> accepts_by_fields value = true)) /\
  (forall v n value s,
     JS.is_filled value = true -> accepts_by_fields value = false ->
     exists s', inputHandler v (S n) value s = Ok tt s' /\ preview_hidden s') /\
  (forall v value s,
     accepts_by_fields value = false ->
     JS.startsWith value "data:image/" = false ->
     exists s', validateBase64Input v value s = Ok (JSBool false) s' /\
                preview_hidden s').
Proof.
  split; [| split].
  - intros v value s. rewrite accepts_by_fields_correct.
    destruct (validateBase64Input_cases v value s)
      as [(Ha & s' & H & _) | [(Ha & _ & H) | (Ha & _ & H)]];
      rewrite H, Ha; eexists _, _; (split; [reflexivity |]); split; congruence.
  - intros v n value s Hfilled Hacc. rewrite accepts_by_fields_correct in Hacc.
    destruct (inputHandler_spec v n value s Hfilled) as (r & s' & Hval & Hrun & _).
    exists s'. split; [exact Hrun |].
    destruct (validate_rejected_after_pass v value s Hacc) as (r' & evs & H & _).
    rewrite H in Hval. injection Hval as _ <-. apply rejected_state_hidden.
  - intros v value s Hacc Hp. rewrite accepts_by_fields_correct in Hacc.
    destruct (validateBase64Input_cases v value s)
      as [(Ha & _) | [(_ & Hp' & _) | (_ & _ & H)]]; [congruence | congruence |].
    eexists. split; [exact H |].
    apply (preview_hidden_hide _ (previewElement s)). by destruct s.
Qed.

Lemma base64_acceptance_witness :
  exists s', inputHandler Full 1 "!!" (booted Full) = Ok tt s' /\ preview_hidden s'.
Proof.
  apply (proj1 (proj2 base64_acceptance) Full 0%nat "!!" (booted Full));
    reflexivity.
Defined.

(** C5 fails as stated: this value is prefixed data:image/ and its payload
    after the first comma is not empty, so the specification's wording accepts
    it; the code reads the text up to the second comma, finds it empty, and
    returns undefined without touching the preview. *)
Lemma double_comma_not_accepted :
  spec_accepts "data:image/png;base64,,AAAA" = true /\
  after_first_comma "data:image/png;base64,,AAAA" = Some ",AAAA" /\
  validateBase64Input Full "data:image/png;base64,,AAAA" (booted Full) =
  Ok JSUndefined (booted Full).
Proof. repeat split; reflexivity. Qed.

(** ** Activations *)

Lemma set_value_spec key newValue s :
  set_value key newValue s =
  Ok tt (set_widgets (alter (fun w => Widget newValue (callback w) (inputEl w)) key) s).
Proof. reflexivity. Qed.

Lemma wired_lookup v s key w :
  wired v s = true -> key ∈ wrapped_keys v -> widgets s !! key = Some w ->
  exists orig, callback w = Some (Wrapper key orig) /\ plain orig = true.
Proof.
  unfold wired. rewrite forallb_forall. intros Hall Hkey Hw.
  specialize (Hall key). rewrite <- list_elem_of_In in Hall.
  specialize (Hall Hkey). rewrite Hw in Hall. unfold wrapped_once in Hall.
  destruct (callback w) as [[id | source orig] |]; try discriminate.
  apply andb_prop in Hall as [Hs Hp]. apply String.eqb_eq in Hs as ->. eauto.
Qed.

Lemma widget_callback_lookup v fuel key value s w f :
  widgets s !! key = Some w -> callback w = Some f ->
  widget_callback v fuel key value s =
  call_callback (clearOtherInputs v fuel) (updatePreview v) f value s.
Proof.
  intros Hw Hf. unfold widget_callback, mbind, M_bind, get. by rewrite Hw, Hf.
Qed.

Lemma only_preview_registered s s' :
  only_preview s s' -> registered s' = registered s.
Proof. by intros (d & h & evs & -> & _). Qed.

Lemma only_preview_node s s' : only_preview s s' -> the_node s' = the_node s.
Proof. by intros (d & h & evs & -> & _). Qed.

(** What a deliverable activation does on a wired controller: the value is
    stored, one clearing pass runs, and the widgets are as that pass leaves
    them; listeners and node are not touched. *)
Lemma activate_frame_spec v n a s :
  wired v s = true -> deliverable v s a = true ->
  exists s', activate v (S n) a s = Ok tt s' /\
             widgets s' = widgets_after v a (widgets s) /\
             passes (trace s') = S (passes (trace s)) /\
             registered s' = registered s /\
             the_node s' = the_node s.
Proof.
  intros Hwired Hdel. destruct a as [source newValue].
  unfold deliverable in Hdel.
  apply andb_prop in Hdel as [[[Hsrc Hfilled]%andb_prop Hex]%andb_prop Hheard].
  apply bool_decide_eq_true in Hsrc. apply bool_decide_eq_true in Hex.
  destruct Hex as [w Hw].
  unfold heard in Hheard. unfold activate, widgets_after.
  destruct (String.eqb source "paste") eqn:Hpaste.
  - apply String.eqb_eq in Hpaste as ->.
    unfold mbind at 1, M_bind at 1, get at 1. rewrite Hheard.
    unfold processImageFile_onload. unfold mbind at 1, M_bind at 1, get.
    cbn in Hw. rewrite Hw.
    erewrite bind_Ok by apply set_value_spec.
    erewrite bind_Ok by (apply clearOtherInputs_spec; by destruct v).
    match goal with |- context [updatePreview ?v ?a ?b] =>
      match goal with |- context [pass_result ?v' ?i ?st] =>
        destruct (updatePreview_only v a b (pass_result v' i st)) as (s1 & Hup & Hs1)
      end end.
    erewrite bind_Ok by exact Hup.
    unfold mbind at 1, M_bind at 1. cbn beta iota.
    assert (passes (trace s1) = S (passes (trace s))) as Hp1.
    { rewrite (only_preview_passes _ _ Hs1), passes_pass_result. reflexivity. }
    destruct (onWidgetChanged (the_node s1)); unfold_M; cbn beta iota;
      (eexists; split; [reflexivity |]);
      cbn [widgets registered the_node trace set_trace];
      rewrite ?passes_app, Hp1, (only_preview_widgets _ _ Hs1),
        (only_preview_registered _ _ Hs1), (only_preview_node _ _ Hs1);
      repeat split; unfold passes; cbn; lia.
  - destruct (String.eqb source "base64") eqn:Hb64.
    + apply String.eqb_eq in Hb64 as ->.
      erewrite bind_Ok by apply set_value_spec.
      unfold mbind at 1, M_bind at 1, get at 1.
      assert (input_heard
                (set_widgets
                   (alter (fun w0 => Widget newValue (callback w0) (inputEl w0))
                          "base64") s) = true) as ->.
      { unfold input_heard, has_inputEl, is_attached in *.
        cbn [widgets registered set_widgets] in *.
        rewrite lookup_alter_eq. by destruct (widgets s !! "base64"). }
      match goal with |- context [inputHandler ?v ?f ?x ?st] =>
        destruct (inputHandler_spec v n x st Hfilled) as (r & s' & _ & Hrun & Hs')
      end.
      exists s'. split; [exact Hrun |]. split; [| split; [| split]].
      * rewrite (only_preview_widgets _ _ Hs'). reflexivity.
      * by rewrite (only_preview_passes _ _ Hs'), passes_pass_result.
      * by rewrite (only_preview_registered _ _ Hs').
      * by rewrite (only_preview_node _ _ Hs').
    + apply String.eqb_neq in Hb64.
      assert (widget_key source = source) as Hk.
      { unfold widget_key. by rewrite Hpaste. }
      apply String.eqb_neq in Hpaste.
      assert (source ∈ wrapped_keys v) as Hkey.
      { destruct v; cbn in Hsrc |- *; elem_cases Hsrc; subst;
          try done; repeat constructor. }
      assert (finds_inherited v source = false) as Hown.
      { destruct v; cbn in Hkey; elem_cases Hkey; by subst. }
      rewrite Hk in *.
      destruct (wired_lookup v s source w Hwired Hkey Hw) as (orig & Hcb & Hplain).
      erewrite bind_Ok by apply set_value_spec.
      match goal with |- context [widget_callback ?v ?f ?k ?x] =>
        match goal with |- context [set_widgets ?g s] =>
          destruct (wrapper_filled_spec v n source orig x (set_widgets g s)
                      Hown Hplain Hfilled) as (s1 & _ & Hs1 & Hcall)
        end end.
      erewrite bind_Ok; cycle 1.
      { erewrite widget_callback_lookup; [exact Hcall | |].
        - cbn [widgets set_widgets]. rewrite lookup_alter_eq, Hw. reflexivity.
        - exact Hcb. }
      eexists. split; [reflexivity |].
      cbn [widgets registered the_node set_trace].
      rewrite (only_preview_widgets _ _ Hs1), (only_preview_registered _ _ Hs1),
        (only_preview_node _ _ Hs1).
      split; [reflexivity |]. split; [| split; reflexivity].
      by rewrite passes_set_trace_callback, (only_preview_passes _ _ Hs1),
           passes_pass_result.
Qed.

Lemma activate_spec v n a s :
  wired v s = true -> deliverable v s a = true ->
  exists s', activate v (S n) a s = Ok tt s' /\
             widgets s' = widgets_after v a (widgets s) /\
             passes (trace s') = S (passes (trace s)).
Proof.
  intros Hwired Hdel.
  destruct (activate_frame_spec v n a s Hwired Hdel) as (s' & H1 & H2 & H3 & _).
  by exists s'.
Qed.

Lemma widgets_after_callbacks v a (m : gmap string widget) (k : string) :
  callback <$> widgets_after v a m !! k = callback <$> m !! k.
Proof.
  destruct a as [source newValue]. unfold widgets_after.
  rewrite lookup_blank_all, lookup_alter.
  case_bool_decide; case_decide; subst; by destruct (m !! _).
Qed.

Lemma widgets_after_inputEl v a (m : gmap string widget) (k : string) :
  inputEl <$> widgets_after v a m !! k = inputEl <$> m !! k.
Proof.
  destruct a as [source newValue]. unfold widgets_after.
  rewrite lookup_blank_all, lookup_alter.
  case_bool_decide; case_decide; subst; by destruct (m !! _).
Qed.

Lemma wired_ext v s s' :
  (forall k : string, callback <$> widgets s' !! k = callback <$> widgets s !! k) ->
  wired v s = true -> wired v s' = true.
Proof.
  intros Hcb. unfold wired. rewrite !forallb_forall. intros Hall key Hkey.
  specialize (Hall key Hkey). specialize (Hcb key).
  destruct (widgets s !! key) as [w |], (widgets s' !! key) as [w' |];
    try done. injection Hcb as Hcb. unfold wrapped_once in *. by rewrite Hcb.
Qed.

(** Whether an event reaches the controller depends on the text field of the
    base64 widget, the attached listeners and the graph canvas only. *)
Lemma heard_ext v s s' source :
  inputEl <$> widgets s' !! "base64" = inputEl <$> widgets s !! "base64" ->
  registered s' = registered s ->
  graph_canvas (the_node s') = graph_canvas (the_node s) ->
  heard v s' source = heard v s source.
Proof.
  intros Hel Hreg Hgc.
  unfold heard, paste_heard, input_heard, has_inputEl, is_attached.
  rewrite Hreg, Hgc.
  destruct (widgets s' !! "base64"), (widgets s !! "base64");
    cbn in Hel; try done; by injection Hel as ->.
Qed.

Lemma deliverable_ext v s s' a :
  (forall k : string, callback <$> widgets s' !! k = callback <$> widgets s !! k) ->
  inputEl <$> widgets s' !! "base64" = inputEl <$> widgets s !! "base64" ->
  registered s' = registered s ->
  graph_canvas (the_node s') = graph_canvas (the_node s) ->
  deliverable v s a = true -> deliverable v s' a = true.
Proof.
  intros Hcb Hel Hreg Hgc. destruct a as [source newValue]. unfold deliverable.
  rewrite (heard_ext v s s' source Hel Hreg Hgc).
  intros [[[-> ->]%andb_prop Hex]%andb_prop ->]%andb_prop. cbn [andb].
  rewrite andb_true_r.
  apply bool_decide_eq_true in Hex. apply bool_decide_eq_true.
  specialize (Hcb (widget_key source)).
  destruct Hex as [w Hw]. rewrite Hw in Hcb.
  destruct (widgets s' !! widget_key source); [eauto | done].
Qed.

Lemma run_activations_spec v n l s :
  wired v s = true ->
  Forall (fun a => deliverable v s a = true) l ->
  exists s', run_activations v (S n) l s = Ok tt s' /\
             widgets s' = foldl (fun m a => widgets_after v a m) (widgets s) l /\
             passes (trace s') = (passes (trace s) + length l)%nat.
Proof.
  revert s. induction l as [| a l IH]; intros s Hwired Hall.
  - exists s. repeat split; cbn; lia.
  - apply Forall_cons in Hall as [Ha Hl].
    destruct (activate_frame_spec v n a s Hwired Ha)
      as (s1 & Hact & Hw1 & Hp1 & Hreg & Hnode).
    assert (forall k : string,
              callback <$> widgets s1 !! k = callback <$> widgets s !! k) as Hcb.
    { intros k. rewrite Hw1. apply widgets_after_callbacks. }
    destruct (IH s1) as (s' & Hrun & Hw' & Hp').
    + by apply (wired_ext v s).
    + eapply Forall_impl; [exact Hl |]. intros a'.
      apply deliverable_ext; [exact Hcb | | exact Hreg | by rewrite Hnode].
      rewrite Hw1. apply widgets_after_inputEl.
    + exists s'. unfold run_activations in *. cbn [forEach].
      erewrite bind_Ok by exact Hact. split; [exact Hrun |]. split.
      * rewrite Hw'. cbn [foldl]. by rewrite Hw1.
      * rewrite Hp', Hp1. cbn [length]. lia.
Qed.

(** ** C10: the wrapper and the clearing pass do not re-enter each other *)

(** C10: a wrapper called with an empty or white-space-only value runs no
    clearing pass and no preview update, whatever the fuel: it only forwards,
    so the state changes by the event of the host handler at the end of the
    chain, if there is one.  Hence a clearing pass for a name that is not an
    inherited property of the rule table, whatever callbacks the widgets
    carry, ends normally with fuel for a single level and records exactly
    one pass, its own; a wrapper for such a name around a host handler (or
    around nothing) called with a filled value runs exactly one pass; and so
    does every deliverable activation on a wired controller, in each of the
    three scripts. *)
Theorem synthetic_callbacks_do_not_reenter :
  (forall v fuel source orig value s,
     JS.trim value = "" ->
     call_callback (clearOtherInputs v fuel) (updatePreview v)
                   (Wrapper source orig) value s =
     Ok (callback_result (Wrapper source orig) value)
        (set_trace (trace s ++ callback_events (Wrapper source orig) value) s)) /\
  (forall v n activeInput s,
     finds_inherited v activeInput = false ->
     exists s', clearOtherInputs v (S n) activeInput s = Ok tt s' /\
                passes (trace s') = S (passes (trace s))) /\
  (forall v n source orig value s,
     finds_inherited v source = false ->
     plain orig = true -> JS.is_filled value = true ->
     exists r s',
       call_callback (clearOtherInputs v (S n)) (updatePreview v)
                     (Wrapper source orig) value s = Ok r s' /\
       passes (trace s') = S (passes (trace s))) /\
  (forall v n a s,
     wired v s = true -> deliverable v s a = true ->
     exists s', activate v (S n) a s = Ok tt s' /\
                passes (trace s') = S (passes (trace s))).
Proof.
  split; [| split; [| split]].
  - intros v fuel source orig value s Hv.
    apply call_callback_blank, trim_blank_not_filled, Hv.
  - intros v n activeInput s Hown. exists (pass_result v activeInput s).
    split; [by apply clearOtherInputs_spec | apply passes_pass_result].
  - intros v n source orig value s Hown Hplain Hfilled.
    destruct (wrapper_filled_spec v n source orig value s Hown Hplain Hfilled)
      as (s1 & _ & Hs1 & Hcall).
    eexists _, _. split; [exact Hcall |].
    by rewrite passes_set_trace_callback, (only_preview_passes _ _ Hs1),
         passes_pass_result.
  - intros v n a s Hwired Hdel.
    destruct (activate_spec v n a s Hwired Hdel) as (s' & Hrun & _ & Hp).
    by exists s'.
Qed.

Lemma synthetic_callbacks_do_not_reenter_witness :
  call_callback (clearOtherInputs Full 0) (updatePreview Full)
                (Wrapper "filepath" (Some (HostCallback 2))) "  " full_probe =
  Ok (HostResult 2 "  ")
     (set_trace [EvHostCallback 2 "  "] full_probe) /\
  (exists s',
     clearOtherInputs Reduced 1 "image" full_probe = Ok tt s' /\
     passes (trace s') = 1%nat) /\
  (exists r s',
     call_callback (clearOtherInputs Full 1) (updatePreview Full)
                   (Wrapper "image" (Some (HostCallback 1))) "a.png" full_probe
     = Ok r s' /\
     passes (trace s') = 1%nat) /\
  (exists s',
     activate Legacy 1 (Activate "filepath" "a.png") (booted Legacy) = Ok tt s' /\
     passes (trace s') = 1%nat) /\
  exists s',
    activate Full 1 (Activate "base64" "QUJD") (booted Full) = Ok tt s' /\
    passes (trace s') = 1%nat.
Proof.
  split; [| split; [| split; [| split]]].
  - apply (proj1 synthetic_callbacks_do_not_reenter
             Full 0%nat "filepath" (Some (HostCallback 2)) "  " full_probe).
    reflexivity.
  - apply (proj1 (proj2 synthetic_callbacks_do_not_reenter)
             Reduced 0%nat "image" full_probe).
    reflexivity.
  - apply (proj1 (proj2 (proj2 synthetic_callbacks_do_not_reenter))
             Full 0%nat "image" (Some (HostCallback 1)) "a.png" full_probe);
      reflexivity.
  - apply (proj2 (proj2 (proj2 synthetic_callbacks_do_not_reenter))
             Legacy 0%nat (Activate "filepath" "a.png") (booted Legacy));
      reflexivity.
  - apply (proj2 (proj2 (proj2 synthetic_callbacks_do_not_reenter))
             Full 0%nat (Activate "base64" "QUJD") (booted Full));
      reflexivity.
Defined.

(** ** C1: how many sources hold a value *)

Lemma holds_blanked s keys (m : gmap string widget) x :
  widgets s = blank_all keys m -> widget_of x ∈ keys -> holds s x = false.
Proof.
  intros Hs Hx. unfold holds, widget_value.
  rewrite Hs, lookup_blank_all, bool_decide_eq_true_2 by done.
  by destruct (m !! widget_of x).
Qed.

Lemma at_most_one_blanked v source s (m : gmap string widget) :
  v ≠ Legacy -> source ∈ sources_of v ->
  widgets s = blank_all (cleared_keys v source) m ->
  at_most_one [upload; filepath; base64] s /\
  (source = "paste" -> at_most_one [upload; filepath; base64; pasted] s).
Proof.
  intros Hv Hsrc Hs. unfold at_most_one. cbn [List.filter].
  destruct v; [| | done]; cbn in Hsrc; elem_cases Hsrc; subst source;
    match type of Hs with _ = blank_all ?keys ?m' =>
      pose proof (fun x => holds_blanked s keys m' x Hs) as Hb
    end; cbn in Hb;
    try (rewrite (Hb upload) by repeat constructor);
    try (rewrite (Hb filepath) by repeat constructor);
    try (rewrite (Hb base64) by repeat constructor);
    (split; [| try discriminate]);
    repeat match goal with |- context [holds ?s0 ?x] => destruct (holds s0 x) end;
    try (intros _); cbn; lia.
Qed.

Lemma input_of_source v a :
  v ≠ Legacy -> (v = Reduced -> a ≠ pasted) -> input_of a ∈ sources_of v.
Proof.
  intros Hv Ha. destruct v; [| | done]; destruct a; cbn;
    try (by destruct Ha); repeat constructor.
Qed.

(** C1, as amended: in either table-driven script, after every clearing
    pass for a source of the policy at most one of upload, filepath and
    base64 holds a non-empty value, and after a pass for pasted at most one
    of the four sources does; so it is on a wired controller after every
    non-empty sequence of deliverable activations, those whose event
    reaches the controller: the widget exists, and an input into the base64
    field or a paste finds its listener attached.  (The pasted value is
    emptied by no other source, so under the full policy it can stand next
    to one of the other three.) *)
Theorem single_source_after_activations :
  (forall v n a s,
     v ≠ Legacy -> (v = Reduced -> a ≠ pasted) ->
     exists s',
       clearOtherInputs v (S n) (input_of a) s = Ok tt s' /\
       at_most_one [upload; filepath; base64] s' /\
       (a = pasted -> at_most_one [upload; filepath; base64; pasted] s')) /\
  (forall v n l a s,
     v ≠ Legacy ->
     wired v s = true ->
     Forall (fun a' => deliverable v s a' = true) (l ++ [a]) ->
     exists s',
       run_activations v (S n) (l ++ [a]) s = Ok tt s' /\
       at_most_one [upload; filepath; base64] s' /\
       (source_of a = "paste" ->
        at_most_one [upload; filepath; base64; pasted] s')).
Proof.
  split.
  - intros v n a s Hv Ha. exists (pass_result v (input_of a) s).
    split; [apply clearOtherInputs_spec, source_not_inherited |].
    destruct (at_most_one_blanked v (input_of a) (pass_result v (input_of a) s)
                (widgets s) Hv (input_of_source v a Hv Ha) eq_refl) as [H3 H4].
    split; [exact H3 |]. intros ->. by apply H4.
  - intros v n l a s Hv Hwired Hall.
    destruct (run_activations_spec v n (l ++ [a]) s Hwired Hall)
      as (s' & Hrun & Hw & _).
    exists s'. split; [exact Hrun |].
    rewrite foldl_app in Hw. cbn [foldl] in Hw.
    apply Forall_app in Hall as [_ Ha]. apply Forall_cons in Ha as [Ha _].
    destruct a as [source newValue]. unfold deliverable in Ha.
    apply andb_prop in Ha as [[[Hsrc _]%andb_prop _]%andb_prop _].
    apply bool_decide_eq_true in Hsrc.
    by eapply (at_most_one_blanked v source s').
Qed.

Lemma single_source_after_activations_witness :
  (exists s',
     clearOtherInputs Full 1 (input_of filepath) both_set_probe = Ok tt s' /\
     at_most_one [upload; filepath; base64] s' /\
     (filepath = pasted -> at_most_one [upload; filepath; base64; pasted] s')) /\
  exists s',
    run_activations Full 1
      ([Activate "filepath" "x.png"; Activate "base64" "QUJD"]
       ++ [Activate "paste" "data:image/png;base64,AAA="]) (booted Full)
    = Ok tt s' /\
    at_most_one [upload; filepath; base64] s' /\
    (source_of (Activate "paste" "data:image/png;base64,AAA=") = "paste" ->
     at_most_one [upload; filepath; base64; pasted] s').
Proof.
  split.
  - apply (proj1 single_source_after_activations Full 0%nat filepath both_set_probe);
      discriminate.
  - apply (proj2 single_source_after_activations Full 0%nat
             [Activate "filepath" "x.png"; Activate "base64" "QUJD"]
             (Activate "paste" "data:image/png;base64,AAA=") (booted Full)).
    + discriminate.
    + reflexivity.
    + repeat constructor.
Defined.

(** C1 fails as stated for the full policy: on a freshly initialised
    four-widget controller, a paste followed by an activation of filepath
    leaves both pasted and filepath with a non-empty value after the second
    clearing pass. *)
Lemma pasted_survives_filepath :
  exists s',
    run_activations Full 1
      [Activate "paste" "data:image/png;base64,AAA="; Activate "filepath" "x.png"]
      (booted Full) = Ok tt s' /\
    widget_value "pasted" s' = "data:image/png;base64,AAA=" /\
    widget_value "filepath" s' = "x.png" /\
    ~ at_most_one [upload; filepath; base64; pasted] s'.
Proof.
  eexists. split; [vm_compute; reflexivity |].
  split; [reflexivity |]. split; [reflexivity |].
  unfold at_most_one. vm_compute. lia.
Qed.

(** ** C9: the wrapper forwards to the original callback *)

(** What a wrapper does before it forwards: nothing for a blank value, the
    clearing pass and the preview update otherwise; it always ends normally. *)
Lemma wrapper_prefix v n source value s :
  finds_inherited v source && JS.is_filled value = false ->
  exists s1,
    (if JS.is_filled value
     then clearOtherInputs v (S n) source;; updatePreview v source value
     else skip) s = Ok tt s1 /\
    (JS.is_filled value = false -> s1 = s).
Proof.
  intros Hsource. destruct (JS.is_filled value).
  - rewrite andb_true_r in Hsource.
    destruct (updatePreview_only v source value (pass_result v source s))
      as (s1 & Hup & _).
    exists s1. split; [| done].
    erewrite bind_Ok by by apply clearOtherInputs_spec. exact Hup.
  - exists s. done.
Qed.

Lemma setupEventListeners_widgets v s :
  exists s',
    setupEventListeners v s = Ok tt s' /\
    widgets s' = foldl (fun m key => alter (wrap key) key m) (widgets s)
                       (match v with
                        | Legacy => ["filepath"]
                        | _ => ["image"; "filepath"]
                        end).
Proof.
  unfold setupEventListeners, wrap_callback, addEventListener, push_listener.
  unfold_M. destruct v; cbn;
    repeat (match goal with
            | |- context [if ?b then _ else _] => destruct b
            | |- context [match ?b with Some _ => _ | None => _ end] => destruct b
            end; cbn);
    eexists; split; reflexivity.
Qed.

(** C9: [setupEventListeners] replaces the callback of each widget it wraps
    by a wrapper that holds the callback found there; and for every value,
    empty or not, a wrapper with an original callback ends its own work
    normally and then calls the original with the same value, its outcome
    being the original's: for a host handler, the handler runs last and its
    result is returned.  A wrapper without an original returns undefined.
    (The wrappers of the scripts are those for image and filepath.  A
    wrapper for a name that the rule table inherits, were there one, would
    forward blank values only: with a filled value its clearing pass throws,
    which is the one case left out.) *)
Theorem wrapper_forwards_to_original :
  (forall v key s w,
     key ∈ wrapped_keys v -> widgets s !! key = Some w ->
     exists s',
       setupEventListeners v s = Ok tt s' /\
       widgets s' !! key =
       Some (Widget (value w) (Some (Wrapper key (callback w))) (inputEl w))) /\
  (forall v n source g value s,
     finds_inherited v source && JS.is_filled value = false ->
     exists s1,
       (if JS.is_filled value
        then clearOtherInputs v (S n) source;; updatePreview v source value
        else skip) s = Ok tt s1 /\
       call_callback (clearOtherInputs v (S n)) (updatePreview v)
                     (Wrapper source (Some g)) value s =
       call_callback (clearOtherInputs v (S n)) (updatePreview v) g value s1) /\
  (forall v n source id value s,
     finds_inherited v source && JS.is_filled value = false ->
     exists s1,
       call_callback (clearOtherInputs v (S n)) (updatePreview v)
                     (Wrapper source (Some (HostCallback id))) value s =
       Ok (HostResult id value)
          (set_trace (trace s1 ++ [EvHostCallback id value]) s1)) /\
  (forall v n source value s,
     finds_inherited v source && JS.is_filled value = false ->
     exists s1,
       call_callback (clearOtherInputs v (S n)) (updatePreview v)
                     (Wrapper source None) value s = Ok JSUndefined s1).
Proof.
  split; [| split; [| split]].
  - intros v key s w Hkey Hw.
    destruct (setupEventListeners_widgets v s) as (s' & Hrun & Hws).
    exists s'. split; [exact Hrun |]. rewrite Hws.
    destruct v; cbn in Hkey |- *; elem_cases Hkey; subst key;
      rewrite ?lookup_alter_eq, ?lookup_alter_ne by done;
      rewrite ?lookup_alter_eq, Hw; reflexivity.
  - intros v n source g value s Hown.
    destruct (wrapper_prefix v n source value s Hown) as (s1 & Hpre & _).
    exists s1. split; [exact Hpre |].
    cbn [call_callback]. by erewrite bind_Ok by exact Hpre.
  - intros v n source id value s Hown.
    destruct (wrapper_prefix v n source value s Hown) as (s1 & Hpre & _).
    exists s1. cbn [call_callback]. by erewrite bind_Ok by exact Hpre.
  - intros v n source value s Hown.
    destruct (wrapper_prefix v n source value s Hown) as (s1 & Hpre & _).
    exists s1. cbn [call_callback]. by erewrite bind_Ok by exact Hpre.
Qed.

Lemma wrapper_forwards_to_original_witness :
  (exists s',
     setupEventListeners Full (handler_with (list_to_map
       [("image", Widget "" (Some (HostCallback 1)) false);
        ("filepath", Widget "" (Some (HostCallback 2)) true)]) host_node)
     = Ok tt s' /\
     widgets s' !! "filepath" =
     Some (Widget "" (Some (Wrapper "filepath" (Some (HostCallback 2)))) true)) /\
  (exists s1,
     call_callback (clearOtherInputs Full 1) (updatePreview Full)
                   (Wrapper "filepath" (Some (HostCallback 2))) "cat.png"
                   full_probe =
     Ok (HostResult 2 "cat.png")
        (set_trace (trace s1 ++ [EvHostCallback 2 "cat.png"]) s1)) /\
  exists s1,
    call_callback (clearOtherInputs Legacy 1) (updatePreview Legacy)
                  (Wrapper "filepath" None) "cat.png" legacy_probe
    = Ok JSUndefined s1.
Proof.
  split; [| split].
  - apply (proj1 wrapper_forwards_to_original Full "filepath"
             (handler_with (list_to_map
                [("image", Widget "" (Some (HostCallback 1)) false);
                 ("filepath", Widget "" (Some (HostCallback 2)) true)]) host_node)
             (Widget "" (Some (HostCallback 2)) true)).
    + cbn. repeat constructor.
    + reflexivity.
  - apply (proj1 (proj2 (proj2 wrapper_forwards_to_original))
             Full 0%nat "filepath" 2%nat "cat.png" full_probe).
    reflexivity.
  - apply (proj2 (proj2 (proj2 wrapper_forwards_to_original))
             Legacy 0%nat "filepath" "cat.png" legacy_probe).
    reflexivity.
Defined.

(** ** C8: cleaning up twice *)

Lemma forEach_remove ls s :
  forEach ls removeEventListener s =
  Ok tt (set_registered (unregister ls (registered s)) s).
Proof.
  revert s. induction ls as [| l ls IH]; intros s.
  - destruct s; reflexivity.
  - cbn [forEach]. unfold mbind at 1, M_bind at 1.
    unfold removeEventListener at 1, modify at 1. rewrite IH.
    destruct s; reflexivity.
Qed.

(** [cleanup()] never throws: the preview box is only removed from the
    parent it has. *)
Lemma cleanup_spec v s : cleanup v s = Ok tt (cleaned v s).
Proof.
  unfold cleanup. unfold mbind at 1, M_bind at 1, get at 1.
  erewrite bind_Ok by apply forEach_remove.
  unfold mbind at 1, M_bind at 1, modify at 1.
  unfold mbind at 1, M_bind at 1, get at 1.
  destruct s as [ws ls dr pe oc nd rg tm tr].
  cbn [previewElement set_eventListeners set_registered widgets eventListeners
       isDragging originalColors the_node registered timers trace].
  assert (forall s0 : state,
            previewElement s0 = pe ->
            match pe with
            | Some e => match parentNode e with
                        | Some parent => removeChild parent
                        | None => skip
                        end
            | None => skip
            end s0 = Ok tt (set_previewElement (detach <$> pe) s0)) as Hrm.
  { intros s0 <-. destruct s0 as [? ? ? [[d h [p |]] |] ? ? ? ? ?]; try reflexivity.
    unfold removeChild, mbind, M_bind, get. cbn.
    by rewrite bool_decide_eq_true_2. }
  erewrite bind_Ok by (apply Hrm; reflexivity).
  unfold cleaned, cleanup_events, set_previewElement;
    cbn [previewElement set_eventListeners set_registered widgets eventListeners
         isDragging originalColors the_node registered timers trace].
  destruct v.
  - unfold setDragState_full, redraw. unfold_M. cbn.
    destruct oc as [[bg fg] |]; cbn;
      destruct nd as [? ? [] [] ? ?]; cbn; rewrite ?app_nil_r; reflexivity.
  - unfold_M. cbn. destruct nd as [? ? ? [] ? ?]; cbn; rewrite ?app_nil_r; reflexivity.
  - unfold setDragState_legacy. unfold_M. cbn.
    destruct nd as [? ? ? ? ? [el |]]; cbn; rewrite ?app_nil_r; reflexivity.
Qed.

Lemma cleaned_twice v s :
  cleaned v (cleaned v s) =
  set_trace (trace (cleaned v s) ++ cleanup_events v (cleaned v s)) (cleaned v s).
Proof.
  destruct s as [ws ls dr [[d h p] |] [[bg fg] |] [? ? ? ? ? [el |]] rg tm tr];
    destruct v; reflexivity.
Qed.

(** C8: [cleanup()] ends normally, and so does a second [cleanup()]: nothing
    is removed twice.  The second call leaves every part of the controller,
    the node and the page as the first call left it; all it adds to the
    trace is the redraw that [setDragState(false)] requests again in the
    four-widget script. *)
Theorem cleanup_idempotent (v : variant) (s : state) :
  exists s1 s2,
    cleanup v s = Ok tt s1 /\
    cleanup v s1 = Ok tt s2 /\
    s2 = set_trace (trace s1 ++ cleanup_events v s1) s1 /\
    eventListeners s1 = [] /\
    registered s2 = registered s1 /\
    previewElement s2 = previewElement s1.
Proof.
  exists (cleaned v s), (cleaned v (cleaned v s)).
  split; [apply cleanup_spec |]. split; [apply cleanup_spec |].
  split; [apply cleaned_twice |]. split; [reflexivity |].
  rewrite cleaned_twice. split; reflexivity.
Qed.

(** ** C7: a re-check that fires after clean-up *)

(** C7: the guard does not stop a stale re-check.  [cleanup()] takes the
    preview box out of the page but leaves [this.previewElement] set, and
    cancels no timer: after a rejected base64 input and [cleanup()] the box
    is detached, hidden and empty and the re-check is still pending; when it
    fires, [updatePreview] finds [this.previewElement] and writes an image
    into the box and sets it to display. *)
Lemma stale_recheck_writes_preview :
  exists s1 s2,
    cleanup Full stale_probe = Ok tt s1 /\
    timers s1 = [Timer (PreviewRecheck "base64") 100] /\
    previewElement s1 = Some (Element "none" NoMarkup None) /\
    run_task Full (PreviewRecheck "base64") s1 = Ok tt s2 /\
    previewElement s2 =
    Some (Element "block" (PreviewImage (Inline "data:image/png;base64,!!")) None).
Proof.
  eexists _, _. split; [apply cleanup_spec |].
  split; [reflexivity |]. split; [reflexivity |].
  split; [vm_compute; reflexivity | reflexivity].
Qed.

(** ** Initialisation wires the controller *)

Lemma find_widget_plain name node_widgets w :
  Forall (fun p => plain (callback (snd p)) = true) node_widgets ->
  find_widget name node_widgets = Some w -> plain (callback w) = true.
Proof.
  intros Hall. unfold find_widget.
  destruct (List.find _ node_widgets) as [[name' w'] |] eqn:Hfind; [| done].
  intros [= <-]. apply List.find_some in Hfind as [Hin _].
  rewrite Forall_forall in Hall. apply (Hall (name', w')).
  by apply list_elem_of_In.
Qed.

Lemma store_widget_plain key name node_widgets s :
  Forall (fun p => plain (callback (snd p)) = true) node_widgets ->
  all_plain (widgets s) ->
  exists s', store_widget key name node_widgets s = Ok tt s' /\
             all_plain (widgets s').
Proof.
  intros Hall Hs. unfold store_widget.
  destruct (find_widget name node_widgets) as [w |] eqn:Hw.
  - eexists. split; [reflexivity |]. intros k w'. cbn.
    rewrite lookup_insert. case_decide.
    + intros [= <-]. by apply (find_widget_plain name node_widgets).
    + apply Hs.
  - exists s. done.
Qed.

Lemma findWidgets_plain v node_widgets s :
  Forall (fun p => plain (callback (snd p)) = true) node_widgets ->
  all_plain (widgets s) ->
  exists s', findWidgets v node_widgets s = Ok tt s' /\ all_plain (widgets s').
Proof.
  intros Hall Hs.
  assert (forall key name s0, all_plain (widgets s0) ->
            exists s', store_widget key name node_widgets s0 = Ok tt s' /\
                       all_plain (widgets s')) as Hstep
    by (intros; by apply store_widget_plain).
  destruct v; cbn [findWidgets];
    repeat match goal with
    | Hcur : all_plain (widgets ?st)
      |- exists s', (store_widget ?key ?name _ ≫= _) ?st = _ /\ _ =>
        let s1 := fresh "s" in
        let H1 := fresh "Hrun" in
        let H2 := fresh "Hplain" in
        destruct (Hstep key name st Hcur) as (s1 & H1 & H2);
        erewrite bind_Ok by exact H1; clear Hcur
    end;
    by apply Hstep.
Qed.

Lemma wired_of_plain v (m : gmap string widget) s :
  all_plain m ->
  widgets s = foldl (fun m key => alter (wrap key) key m) m
                    (match v with
                     | Legacy => ["filepath"]
                     | _ => ["image"; "filepath"]
                     end) ->
  wired v s = true.
Proof.
  intros Hm Hs. unfold wired. rewrite forallb_forall. intros key Hkey.
  apply list_elem_of_In in Hkey. rewrite Hs.
  destruct v; cbn in Hkey |- *; elem_cases Hkey; subst key;
    rewrite ?lookup_alter_eq, ?lookup_alter_ne by done;
    rewrite ?lookup_alter_eq;
    match goal with |- context [m !! ?k] =>
      destruct (m !! k) as [w |] eqn:Hw; [| done]
    end; cbn; unfold wrapped_once; cbn; by rewrite (Hm _ _ Hw).
Qed.

Lemma setupDragAndDrop_widgets v s :
  exists s', setupDragAndDrop v s = Ok tt s' /\ widgets s' = widgets s.
Proof.
  unfold setupDragAndDrop, addEventListener, push_listener. unfold_M.
  destruct v; cbn;
    repeat (match goal with
            | |- context [if ?b then _ else _] => destruct b
            end; cbn);
    eexists; split; reflexivity.
Qed.

Lemma setupPreview_widgets v s :
  exists s', setupPreview v s = Ok tt s' /\ widgets s' = widgets s.
Proof.
  unfold setupPreview. unfold_M.
  destruct v; cbn;
    repeat (match goal with
            | |- context [if ?b then _ else _] => destruct b
            end; cbn);
    eexists; split; reflexivity.
Qed.

(** On a node whose widgets carry host handlers or no callback at all,
    [initialize()] ends normally in a wired controller. *)
Lemma initialize_wired v node_widgets n :
  Forall (fun p => plain (callback (snd p)) = true) node_widgets ->
  exists s, initialize v node_widgets (new_handler n) = Ok tt s /\
            wired v s = true.
Proof.
  intros Hall. unfold initialize.
  destruct (findWidgets_plain v node_widgets (new_handler n) Hall)
    as (s1 & Hfind & Hplain); [by intros k w |].
  destruct (setupEventListeners_widgets v s1) as (s2 & Hsetup & Hw2).
  destruct (setupDragAndDrop_widgets v s2) as (s3 & Hdrag & Hw3).
  destruct (setupPreview_widgets v s3) as (s4 & Hprev & Hw4).
  exists s4. split.
  - erewrite bind_Ok by exact Hfind. erewrite bind_Ok by exact Hsetup.
    erewrite bind_Ok by exact Hdrag. exact Hprev.
  - apply (wired_of_plain v (widgets s1)); [exact Hplain |]. congruence.
Qed.

(** * Further properties of the scripts *)

(** ** Listeners and clean-up *)

Lemma elem_of_unregister (l : listener) ls (r : list listener) :
  l ∈ unregister ls r <-> l ∈ r /\ l ∉ ls.
Proof.
  revert r. induction ls as [| l' ls IH]; intros r.
  - cbn. split; [intros H; split; [done | by apply not_elem_of_nil] | by intros [? _]].
  - cbn [unregister foldl]. fold (unregister ls (filter (fun x => x ≠ l') r)).
    rewrite IH, list_elem_of_filter, not_elem_of_cons. tauto.
Qed.

(** X1: [cleanup()] empties [this.eventListeners] and detaches exactly the
    listeners recorded there: a listener is still attached afterwards if and
    only if it was attached before and had not been recorded. *)
Theorem cleanup_removes_recorded_listeners (v : variant) (s : state)
    (l : listener) :
  exists s',
    cleanup v s = Ok tt s' /\
    eventListeners s' = [] /\
    (l ∈ registered s' <-> l ∈ registered s /\ l ∉ eventListeners s).
Proof.
  exists (cleaned v s). split; [apply cleanup_spec |]. split; [reflexivity |].
  apply elem_of_unregister.
Qed.



(** ** The drag highlight of the four-widget script *)

Lemma setDragState_full_true s :
  setDragState_full true s = Ok tt (drag_started s).
Proof.
  destruct s as [ws ls dr pe oc [bg fg gc ip cv ne] rg tm tr].
  unfold setDragState_full, redraw, drag_started, redraw_events. unfold_M. cbn.
  destruct gc; cbn; rewrite ?app_nil_r; reflexivity.
Qed.

Lemma setDragState_full_false s :
  setDragState_full false s = Ok tt (drag_ended s).
Proof.
  destruct s as [ws ls dr pe [[sbg sfg] |] [bg fg gc ip cv ne] rg tm tr];
    unfold setDragState_full, redraw, drag_ended, redraw_events; unfold_M; cbn;
    destruct gc; cbn; rewrite ?app_nil_r; reflexivity.
Qed.

(** X3: [setDragState(true)] followed by [setDragState(false)] gives the node
    its colours back: in between the node carries the highlight colours, and
    afterwards the controller and the node are as before the drag, with
    [isDragging] false and no saved colours; only the two redraws are added
    to the trace. *)
Theorem drag_highlight_round_trip (s : state) :
  exists s1 s2,
    setDragState_full true s = Ok tt s1 /\
    bgcolor (the_node s1) = "rgba(76, 175, 80, 0.2)" /\
    color (the_node s1) = "#4CAF50" /\
    isDragging s1 = true /\
    setDragState_full false s1 = Ok tt s2 /\
    s2 = set_trace (trace s ++ redraw_events s ++ redraw_events s)
           (set_originalColors None (set_isDragging false s)).
Proof.
  exists (drag_started s), (drag_ended (drag_started s)).
  split; [apply setDragState_full_true |].
  split; [reflexivity |]. split; [reflexivity |]. split; [reflexivity |].
  split; [apply setDragState_full_false |].
  destruct s as [ws ls dr pe oc [bg fg gc ip cv ne] rg tm tr].
  unfold drag_ended, drag_started, set_trace, set_originalColors, set_isDragging,
    redraw_events; cbn.
  by rewrite <- app_assoc.
Qed.

(** X4: [setDragState(true)] saves the node's colours every time it is
    called: called twice in a row (as happens when dragover fires again
    during one drag), it saves the highlight colours, and the
    [setDragState(false)] that ends the drag then leaves the node with the
    highlight colours instead of its own. *)
Theorem repeated_dragover_keeps_highlight (s : state) :
  exists s1 s2 s3,
    setDragState_full true s = Ok tt s1 /\
    setDragState_full true s1 = Ok tt s2 /\
    originalColors s2 = Some ("rgba(76, 175, 80, 0.2)", "#4CAF50") /\
    setDragState_full false s2 = Ok tt s3 /\
    bgcolor (the_node s3) = "rgba(76, 175, 80, 0.2)" /\
    color (the_node s3) = "#4CAF50" /\
    originalColors s3 = None.
Proof.
  exists (drag_started s), (drag_started (drag_started s)),
    (drag_ended (drag_started (drag_started s))).
  split; [apply setDragState_full_true |].
  split; [apply setDragState_full_true |].
  split; [reflexivity |].
  split; [apply setDragState_full_false |].
  repeat split.
Qed.

(** ** Inline previews *)

Lemma as_data_url_prefix value : JS.startsWith (as_data_url value) "data:" = true.
Proof.
  unfold as_data_url. destruct (JS.startsWith value "data:") eqn:Hp; [exact Hp |].
  reflexivity.
Qed.

Lemma as_data_url_truthy value : JS.truthy (as_data_url value) = true.
Proof.
  pose proof (as_data_url_prefix value) as Hp.
  destruct (as_data_url value); [discriminate | reflexivity].
Qed.

Lemma as_data_url_idemp value : as_data_url (as_data_url value) = as_data_url value.
Proof.
  unfold as_data_url at 1. by rewrite as_data_url_prefix.
Qed.

Lemma updatePreview_inline_spec v source value s e :
  previewElement s = Some e ->
  source = "base64" \/ (source = "paste" /\ v ≠ Reduced) ->
  updatePreview v source value s =
  Ok tt (set_previewElement (Some (showing v (as_data_url value) e)) s).
Proof.
  intros He Hsrc.
  assert (forall f, with_preview f s = Ok tt (set_previewElement (Some (f e)) s))
    as Hwith.
  { intros f. rewrite with_preview_spec, He. reflexivity. }
  destruct v; cbn [updatePreview];
    [unfold updatePreview_full | unfold updatePreview_reduced
     | unfold updatePreview_legacy];
    unfold mbind, M_bind, get; rewrite He;
    destruct Hsrc as [-> | [-> Hv]]; try done; cbn;
    unfold show_or_hide, showPreview; rewrite as_data_url_truthy; apply Hwith.
Qed.

(** X5: for the base64 source (and for paste, where the script has it),
    [updatePreview] never hides the box: whatever the value, the empty string
    included, a controller with a preview box ends up displaying an image
    whose address starts with [data:], the value itself when it already
    does, the value behind the PNG base64 prefix otherwise. *)
Theorem inline_preview_always_shown (v : variant) (source value : string)
    (s : state) (e : element) :
  previewElement s = Some e ->
  source = "base64" \/ (source = "paste" /\ v ≠ Reduced) ->
  updatePreview v source value s =
  Ok tt (set_previewElement (Some (showing v (as_data_url value) e)) s) /\
  JS.startsWith (as_data_url value) "data:" = true /\
  as_data_url (as_data_url value) = as_data_url value.
Proof.
  intros He Hsrc. split; [by apply updatePreview_inline_spec |].
  split; [apply as_data_url_prefix | apply as_data_url_idemp].
Qed.

Lemma inline_preview_always_shown_witness :
  updatePreview Full "base64" "" (booted Full) =
  Ok tt (set_previewElement
           (Some (showing Full (as_data_url "")
                    (Element "none" NoMarkup (Some DocumentBody))))
           (booted Full)) /\
  JS.startsWith (as_data_url "") "data:" = true /\
  as_data_url (as_data_url "") = as_data_url "".
Proof.
  apply (inline_preview_always_shown Full "base64" "" (booted Full)
           (Element "none" NoMarkup (Some DocumentBody))).
  - reflexivity.
  - left. reflexivity.
Defined.

(** Padding removal only drops [=] signs. *)
Lemma strip_padding_keeps (l : list ascii) (c : ascii) :
  c ≠ "="%char -> c ∈ l -> c ∈ JS.strip_padding l.
Proof.
  intros Hc Hin. unfold JS.strip_padding.
  destruct (length l mod 4 =? 0)%nat; [| exact Hin].
  destruct (rev l) as [| x r] eqn:Hr; [exact Hin |].
  assert (l = rev r ++ [x]) as Hl.
  { rewrite <- (rev_involutive l), Hr. reflexivity. }
  destruct (Ascii.ascii_dec x "="%char) as [-> | Hx].
  - assert (c ∈ rev r) as Hin'.
    { rewrite Hl in Hin. apply elem_of_app in Hin as [Hin | Hin]; [done |].
      apply list_elem_of_singleton in Hin. done. }
    destruct r as [| y r']; [exact Hin' |].
    destruct (Ascii.ascii_dec y "="%char) as [-> | Hy].
    + cbn [rev] in Hin'. apply elem_of_app in Hin' as [Hin' | Hin']; [done |].
      apply list_elem_of_singleton in Hin'. done.
    + assert (match y with
              | "="%char => rev r'
              | _ => rev (y :: r')
              end = rev (y :: r')) as ->; [| exact Hin'].
      destruct y as [[] [] [] [] [] [] [] []]; try reflexivity. by destruct Hy.
  - assert (match x with
            | "="%char => match r with
                          | "="%char :: r0 => rev r0
                          | _ => rev r
                          end
            | _ => l
            end = l) as ->; [| exact Hin].
    destruct x as [[] [] [] [] [] [] [] []]; try reflexivity. by destruct Hx.
Qed.

(** No value that starts with [data:] passes the decode probe. *)
Lemma atob_throws_data value :
  JS.startsWith value "data:" = true ->
  JS.atob_throws (JS.substring0 100 value) = true.
Proof.
  unfold JS.startsWith. intros H.
  do 5 (destruct value as [| ? value]; cbn [String.prefix] in H; [discriminate |];
        destruct (Ascii.ascii_dec _ _) as [<- |]; [| discriminate]).
  unfold JS.atob_throws, JS.substring0. cbn [String.substring list_ascii_of_string].
  set (l := filter _ _).
  assert (":"%char ∈ l) as Hin.
  { subst l. apply list_elem_of_filter. split; [reflexivity |].
    do 4 apply list_elem_of_further. apply list_elem_of_here. }
  apply (strip_padding_keeps l) in Hin; [| discriminate].
  apply orb_true_iff. right. apply negb_true_iff.
  apply not_true_is_false. intros Hall.
  rewrite forallb_forall in Hall. apply list_elem_of_In in Hin.
  specialize (Hall _ Hin). discriminate.
Qed.

Lemma accepted_url v value s e :
  previewElement s = Some e -> accepts value = true ->
  validateBase64Input v value s =
  Ok (JSBool true) (set_previewElement (Some (showing v (as_data_url value) e)) s).
Proof.
  intros He Hacc. unfold validateBase64Input, try_catch. unfold accepts in Hacc.
  destruct (JS.startsWith value "data:image/") eqn:Hp.
  - destruct (JS.split JS.is_comma value !! 1%nat) as [data |]; [| discriminate].
    rewrite Hacc.
    erewrite bind_Ok by (apply updatePreview_inline_spec; [exact He | by left]).
    reflexivity.
  - apply negb_true_iff in Hacc. unfold atob. rewrite Hacc.
    unfold skip, mret, M_ret. unfold mbind at 1, M_bind at 1.
    erewrite bind_Ok by (apply updatePreview_inline_spec; [exact He | by left]).
    assert (JS.startsWith value "data:" = false) as Hd.
    { destruct (JS.startsWith value "data:") eqn:Hd; [| done].
      rewrite (atob_throws_data _ Hd) in Hacc. discriminate. }
    assert (as_data_url value = "data:image/png;base64," +:+ value) as Hu.
    { unfold as_data_url. by rewrite Hd. }
    rewrite <- Hu, as_data_url_idemp. reflexivity.
Qed.

(** X6: when validation accepts a value on a controller with a preview box,
    it returns true and the box displays the value as a data URL: the value
    itself for a [data:image/] value, the value behind the PNG base64 prefix
    for raw base64 (which never starts with [data:], since the decode probe
    rejects the colon).  Nothing else changes. *)
Theorem accepted_value_is_previewed (v : variant) (value : string) (s : state)
    (e : element) :
  previewElement s = Some e ->
  accepts value = true ->
  validateBase64Input v value s =
  Ok (JSBool true) (set_previewElement (Some (showing v (as_data_url value) e)) s) /\
  (JS.startsWith value "data:image/" = false ->
   as_data_url value = "data:image/png;base64," +:+ value).
Proof.
  intros He Hacc. split; [by apply accepted_url |].
  intros Hp. unfold accepts in Hacc. rewrite Hp in Hacc.
  apply negb_true_iff in Hacc. unfold as_data_url.
  destruct (JS.startsWith value "data:") eqn:Hd; [| done].
  rewrite (atob_throws_data _ Hd) in Hacc. discriminate.
Qed.

Lemma accepted_value_is_previewed_witness :
  validateBase64Input Legacy "QUJD" (booted Legacy) =
  Ok (JSBool true)
     (set_previewElement
        (Some (showing Legacy (as_data_url "QUJD")
                 (Element "none" NoMarkup (Some NodeElement))))
        (booted Legacy)) /\
  (JS.startsWith "QUJD" "data:image/" = false ->
   as_data_url "QUJD" = "data:image/png;base64," +:+ "QUJD").
Proof.
  apply (accepted_value_is_previewed Legacy "QUJD" (booted Legacy)
           (Element "none" NoMarkup (Some NodeElement))); reflexivity.
Defined.

(** ** The re-check after a base64 input *)

Lemma only_preview_element s s' e :
  only_preview s s' -> previewElement s = Some e ->
  exists d h, previewElement s' = Some (Element d h (parentNode e)).
Proof.
  intros (d & h & evs & -> & _) He. exists d, h.
  destruct s; cbn in *. by rewrite He.
Qed.

Lemma is_filled_truthy value : JS.is_filled value = true -> JS.truthy value = true.
Proof. unfold JS.is_filled. by intros [? _]%andb_prop. Qed.

(** X7: in the two table-driven scripts the re-check overrides validation.
    After the input handler has run on a filled value that the base64 widget
    holds, the preview is hidden if the value was rejected, and the pending
    timer is the re-check for base64; when that fires it displays the value
    as a data URL, accepted or not. *)
Theorem recheck_shows_rejected_value (v : variant) (n : nat) (value : string)
    (s : state) (e : element) :
  v ≠ Legacy ->
  previewElement s = Some e ->
  JS.is_filled value = true ->
  widget_value "base64" s = value ->
  exists s1 s2,
    inputHandler v (S n) value s = Ok tt s1 /\
    (accepts value = false -> preview_hidden s1) /\
    timers s1 = timers s ++ [Timer (PreviewRecheck "base64") 100] /\
    run_task v (PreviewRecheck "base64") s1 = Ok tt s2 /\
    previewElement s2 = Some (showing v (as_data_url value) e).
Proof.
  intros Hv He Hfilled Hval.
  destruct (inputHandler_spec v n value s Hfilled) as (r & s1 & Hvalid & Hrun & Hs1).
  assert (exists d h, previewElement s1 = Some (Element d h (parentNode e)))
    as (d & h & He1).
  { destruct (only_preview_element _ _ (hide e) Hs1) as (d & h & H).
    - destruct v; [| | done]; cbn; by rewrite He.
    - by exists d, h. }
  assert (widget_value "base64" s1 = value) as Hval1.
  { unfold widget_value in *. rewrite (only_preview_widgets _ _ Hs1).
    rewrite widgets_pass_result, lookup_blank_all.
    by destruct v. }
  eexists s1, _. split; [exact Hrun |]. split; [| split; [| split]].
  - intros Hacc.
    destruct (validate_rejected_after_pass v value s Hacc) as (r' & evs & H & _).
    rewrite H in Hvalid. injection Hvalid as _ <-. apply rejected_state_hidden.
  - rewrite (only_preview_timers _ _ Hs1). by destruct v.
  - unfold run_task, mbind, M_bind, get. cbn.
    rewrite Hval1, (is_filled_truthy _ Hfilled). cbn.
    apply (updatePreview_inline_spec v "base64" value s1 _ He1). by left.
  - reflexivity.
Qed.

Lemma recheck_shows_rejected_value_witness :
  exists s1 s2,
    inputHandler Full 1 "!!" stale_probe = Ok tt s1 /\
    (accepts "!!" = false -> preview_hidden s1) /\
    timers s1 = timers stale_probe ++ [Timer (PreviewRecheck "base64") 100] /\
    run_task Full (PreviewRecheck "base64") s1 = Ok tt s2 /\
    previewElement s2 =
    Some (showing Full (as_data_url "!!")
            (Element "none" NoMarkup (Some DocumentBody))).
Proof.
  apply (recheck_shows_rejected_value Full 0 "!!" stale_probe
           (Element "none" NoMarkup (Some DocumentBody))).
  - discriminate.
  - reflexivity.
  - reflexivity.
  - reflexivity.
Defined.

(** ** A pasted or dropped image, once read *)

Lemma widget_value_blank_all keys (m : gmap string widget) s key :
  widgets s = blank_all keys m -> key ∈ keys -> widget_value key s = "".
Proof.
  intros Hs Hk. unfold widget_value.
  rewrite Hs, lookup_blank_all, bool_decide_eq_true_2 by done.
  by destruct (m !! key).
Qed.

Lemma pass_events_no_notification key names (m : gmap string widget) dataUrl :
  Forall (fun e => e ≠ EvWidgetChanged dataUrl) (pass_events key names m).
Proof.
  revert m. induction names as [| n names IH]; intros m; [by constructor |].
  cbn [pass_events]. apply Forall_app. split; [| apply IH].
  unfold key_events, clear_events.
  destruct (m !! key n) as [w |]; [| by constructor].
  destruct (String.eqb (value w) ""); [by constructor |].
  apply Forall_app. split; [| by repeat constructor].
  destruct (callback w) as [f |]; [| by constructor].
  unfold callback_events. destruct (innermost f); by repeat constructor.
Qed.

(** X8: when the file reader delivers a pasted or dropped image and the
    controller has found the pasted widget, that widget takes the data URL,
    filepath and base64 (and the upload widget in the four-widget script) are
    emptied by exactly one clearing pass, a preview box if there is one
    displays the image, and last the [onWidgetChanged] hook of the node is
    called, if the node has one, before the log line.  Without a pasted
    widget the handler does nothing at all, even without fuel. *)
Theorem delivered_image_becomes_the_input :
  (forall v fuel dataUrl source s,
     widgets s !! "pasted" = None ->
     processImageFile_onload v fuel dataUrl source s = Ok tt s) /\
  (forall v n dataUrl source s w,
     v ≠ Reduced ->
     widgets s !! "pasted" = Some w ->
     exists s' evs,
       processImageFile_onload v (S n) dataUrl source s = Ok tt s' /\
       widget_value "pasted" s' = dataUrl /\
       widget_value "filepath" s' = "" /\
       widget_value "base64" s' = "" /\
       (v = Full -> widget_value "image" s' = "") /\
       passes (trace s') = S (passes (trace s)) /\
       trace s' = trace s ++ evs ++ notification s dataUrl
                  ++ [EvImageLoaded source] /\
       Forall (fun e => e ≠ EvWidgetChanged dataUrl) evs /\
       (forall e, previewElement s = Some e ->
                  previewElement s' = Some (showing v (as_data_url dataUrl) e))).
Proof.
  split.
  - intros v fuel dataUrl source s Hw.
    unfold processImageFile_onload, mbind, M_bind, get. by rewrite Hw.
  - intros v n dataUrl source s w Hv Hw.
    unfold processImageFile_onload. unfold mbind at 1, M_bind at 1, get at 1.
    rewrite Hw.
    erewrite bind_Ok by apply set_value_spec.
    erewrite bind_Ok by (apply clearOtherInputs_spec; by destruct v).
    set (s0 := set_widgets _ s).
    set (s1 := pass_result v "paste" s0).
    destruct (updatePreview_only v "paste" dataUrl s1) as (s2 & Hup & Hs2).
    erewrite bind_Ok by exact Hup.
    assert (widgets s2 = blank_all (cleared_keys v "paste") (widgets s0)) as Hws
      by by rewrite (only_preview_widgets _ _ Hs2).
    assert (passes (trace s2) = S (passes (trace s))) as Hp.
    { rewrite (only_preview_passes _ _ Hs2). subst s1.
      by rewrite passes_pass_result. }
    assert (the_node s2 = the_node s) as Hnode
      by by rewrite (only_preview_node _ _ Hs2).
    pose (pevs := match v with
                  | Legacy => []
                  | _ => pass_events (key_of v) (inputsToClear v "paste")
                                     (widgets s0)
                  end).
    assert (exists uevs, trace s2 = trace s ++ EvClearPass "paste" :: pevs ++ uevs
                         /\ forallb is_preview_event uevs = true)
      as (uevs & Htr & Huevs).
    { destruct Hs2 as (d & h & uevs & Hs2 & Huevs). exists uevs.
      split; [| exact Huevs]. rewrite Hs2. subst s1 s0 pevs.
      destruct s as [ws ls dr pe oc nd rg tm tr];
        cbn [trace set_trace set_previewElement pass_result set_widgets].
      rewrite <- !app_assoc. cbn. by destruct v. }
    assert (exists e1, forall e, previewElement s = Some e ->
              previewElement s1 = Some (e1 e) /\ parentNode (e1 e) = parentNode e)
      as (e1 & He1).
    { exists (fun e => match v with Legacy => e | _ => hide e end).
      intros e He. subst s1 s0. destruct v; [| done |]; cbn; by rewrite He. }
    exists (set_trace (trace s2 ++ notification s dataUrl ++ [EvImageLoaded source])
                      s2),
      (EvClearPass "paste" :: pevs ++ uevs).
    split.
    { unfold mbind at 1, M_bind at 1, get at 1. unfold notification.
      rewrite Hnode. destruct (onWidgetChanged (the_node s)); unfold_M;
        cbn beta iota; f_equal;
        destruct s2 as [ws2 ls2 dr2 pe2 oc2 nd2 rg2 tm2 tr2];
        cbn [set_trace trace]; by rewrite <- ?app_assoc. }
    assert (forall key, key ∈ cleared_keys v "paste" ->
              widget_value key
                (set_trace (trace s2 ++ notification s dataUrl
                            ++ [EvImageLoaded source]) s2) = "") as Hblank.
    { intros key Hkey.
      apply (widget_value_blank_all (cleared_keys v "paste") (widgets s0));
        [exact Hws | exact Hkey]. }
    split; [| split; [| split; [| split; [| split; [| split; [| split]]]]]].
    + unfold widget_value. cbn [widgets set_trace]. rewrite Hws, lookup_blank_all.
      rewrite bool_decide_eq_false_2
        by (apply (bool_decide_unpack _); by destruct v; vm_compute).
      subst s0. cbn [widgets set_widgets]. by rewrite lookup_alter_eq, Hw.
    + apply Hblank. destruct v; [| done |]; vm_compute; repeat constructor.
    + apply Hblank. destruct v; [| done |]; vm_compute; repeat constructor.
    + intros ->. apply Hblank. vm_compute. repeat constructor.
    + cbn [trace set_trace]. rewrite !passes_app, Hp. unfold notification.
      destruct (onWidgetChanged (the_node s)); unfold passes; cbn; lia.
    + cbn [trace set_trace]. rewrite Htr, <- !app_assoc. cbn.
      by rewrite <- !app_assoc.
    + apply Forall_cons. split; [discriminate |]. apply Forall_app. split.
      * subst pevs. destruct v; [| done |]; [| by constructor].
        apply pass_events_no_notification.
      * rewrite forallb_forall in Huevs. apply Forall_forall. intros e He ->.
        apply list_elem_of_In in He. by specialize (Huevs _ He).
    + intros e He. cbn [previewElement set_trace].
      destruct (He1 e He) as [Hpe Hpar].
      rewrite (updatePreview_inline_spec v "paste" dataUrl s1 _ Hpe) in Hup
        by (right; done).
      injection Hup as <-. cbn. unfold showing. by rewrite Hpar.
Qed.

Lemma delivered_image_becomes_the_input_witness :
  (exists s' evs,
     processImageFile_onload Legacy 1 "data:image/png;base64,AAA=" "drop"
                             legacy_probe = Ok tt s' /\
     widget_value "pasted" s' = "data:image/png;base64,AAA=" /\
     widget_value "filepath" s' = "" /\
     widget_value "base64" s' = "" /\
     (Legacy = Full -> widget_value "image" s' = "") /\
     passes (trace s') = S (passes (trace legacy_probe)) /\
     trace s' = trace legacy_probe ++ evs
                ++ notification legacy_probe "data:image/png;base64,AAA="
                ++ [EvImageLoaded "drop"] /\
     Forall (fun e => e ≠ EvWidgetChanged "data:image/png;base64,AAA=") evs /\
     (forall e, previewElement legacy_probe = Some e ->
                previewElement s' =
                Some (showing Legacy (as_data_url "data:image/png;base64,AAA=") e))) /\
  notification legacy_probe "data:image/png;base64,AAA=" = [] /\
  notification both_set_probe "data:image/png;base64,AAA="
  = [EvWidgetChanged "data:image/png;base64,AAA="].
Proof.
  split; [| split; reflexivity].
  apply (proj2 delivered_image_becomes_the_input Legacy 0%nat
           "data:image/png;base64,AAA=" "drop" legacy_probe
           (Widget "data:image/png;base64,AAA=" None true)).
  - discriminate.
  - reflexivity.
Defined.

(** ** What a clearing pass never does *)

(** X9: a clearing pass only ever empties values.  Run for a name that is
    an inherited property of the rule table, it throws a [TypeError] before
    it touches anything; for every other name it ends normally, every
    property of [this.widgets] that exists still exists with the same
    callback and the same text field, and each value is either as before or
    the empty string. *)
Theorem pass_only_empties_values (v : variant) (n : nat) (activeInput : string)
    (s : state) :
  if finds_inherited v activeInput
  then clearOtherInputs v (S n) activeInput s
       = Throw TypeError (set_trace (trace s ++ [EvClearPass activeInput]) s)
  else
    exists s',
      clearOtherInputs v (S n) activeInput s = Ok tt s' /\
      forall k : string,
        callback <$> widgets s' !! k = callback <$> widgets s !! k /\
        inputEl <$> widgets s' !! k = inputEl <$> widgets s !! k /\
        (value <$> widgets s' !! k = value <$> widgets s !! k \/
         value <$> widgets s' !! k = Some "").
Proof.
  destruct (finds_inherited v activeInput) eqn:Hin;
    [by apply inherited_rule_throws |].
  exists (pass_result v activeInput s).
  split; [by apply clearOtherInputs_spec |].
  intros k. rewrite widgets_pass_result, lookup_blank_all.
  case_bool_decide; destruct (widgets s !! k); cbn; auto.
Qed.

(** X10: a clearing pass never empties the source it is run for: in each of
    the three scripts, the widget of the active source is after the pass
    exactly as it was before. *)
Theorem active_source_is_not_cleared (v : variant) (n : nat) (a : source_id)
    (s : state) :
  exists s',
    clearOtherInputs v (S n) (input_of a) s = Ok tt s' /\
    widgets s' !! widget_of a = widgets s !! widget_of a.
Proof.
  exists (pass_result v (input_of a) s).
  split; [apply clearOtherInputs_spec, source_not_inherited |].
  rewrite widgets_pass_result, lookup_blank_all.
  rewrite bool_decide_eq_false_2; [done |].
  apply (bool_decide_unpack _). by destruct v, a; vm_compute.
Qed.

Lemma blank_all_empty keys (m : gmap string widget) :
  (forall k w, k ∈ keys -> m !! k = Some w -> value w = "") ->
  blank_all keys m = m.
Proof.
  revert m. induction keys as [| k keys IH]; intros m Hall; [done |].
  cbn [blank_all foldl]. fold (blank_all keys (alter blank k m)).
  assert (alter blank k m = m) as ->.
  { apply alter_id. intros w Hw. apply blank_empty.
    apply (Hall k w); [apply list_elem_of_here | exact Hw]. }
  apply IH. intros k' w Hk'. apply Hall. by apply list_elem_of_further.
Qed.

Lemma pass_events_empty key names (m : gmap string widget) :
  (forall n w, n ∈ names -> m !! key n = Some w -> value w = "") ->
  pass_events key names m = [].
Proof.
  revert m. induction names as [| n names IH]; intros m Hall; [done |].
  cbn [pass_events].
  assert (alter blank (key n) m = m) as ->.
  { apply alter_id. intros w Hw. apply blank_empty.
    apply (Hall n w); [apply list_elem_of_here | exact Hw]. }
  rewrite IH by (intros n' w Hn'; apply Hall; by apply list_elem_of_further).
  rewrite app_nil_r. unfold key_events, clear_events.
  destruct (m !! key n) as [w |] eqn:Hw; [| done].
  rewrite (Hall n w (list_elem_of_here _ _) Hw). reflexivity.
Qed.

(** X11: a pass that finds nothing to clear is silent: when every widget on
    the list of the active source is empty (or missing), no callback is
    called and nothing is logged, the widgets are unchanged, and the trace
    grows by the mark of the pass alone.  (For a name that is an inherited
    property of the rule table there is no list, and the pass throws a
    [TypeError].) *)
Theorem pass_over_empty_widgets_is_silent (v : variant) (n : nat)
    (activeInput : string) (s : state) :
  (forall inputName, inputName ∈ inputsToClear v activeInput ->
                     widget_value (key_of v inputName) s = "") ->
  if finds_inherited v activeInput
  then clearOtherInputs v (S n) activeInput s
       = Throw TypeError (set_trace (trace s ++ [EvClearPass activeInput]) s)
  else
    exists s',
      clearOtherInputs v (S n) activeInput s = Ok tt s' /\
      widgets s' = widgets s /\
      trace s' = trace s ++ [EvClearPass activeInput].
Proof.
  intros Hall.
  destruct (finds_inherited v activeInput) eqn:Hin;
    [by apply inherited_rule_throws |].
  assert (forall n0 w, n0 ∈ inputsToClear v activeInput ->
            widgets s !! key_of v n0 = Some w -> value w = "") as Hall'.
  { intros n0 w Hn0 Hw. specialize (Hall n0 Hn0).
    unfold widget_value in Hall. by rewrite Hw in Hall. }
  exists (pass_result v activeInput s).
  split; [by apply clearOtherInputs_spec |].
  split.
  - rewrite widgets_pass_result. apply blank_all_empty.
    intros k w Hk Hw. unfold cleared_keys in Hk.
    apply list_elem_of_fmap in Hk as (n0 & -> & Hn0). by apply (Hall' n0).
  - cbn [pass_result trace].
    destruct v; rewrite ?(pass_events_empty _ _ _ Hall'); reflexivity.
Qed.

Lemma pass_over_empty_widgets_is_silent_witness :
  (exists s',
     clearOtherInputs Full 1 "filepath" full_probe = Ok tt s' /\
     widgets s' = widgets full_probe /\
     trace s' = trace full_probe ++ [EvClearPass "filepath"]) /\
  clearOtherInputs Full 1 "constructor" full_probe
  = Throw TypeError
      (set_trace (trace full_probe ++ [EvClearPass "constructor"]) full_probe).
Proof.
  split.
  - refine (pass_over_empty_widgets_is_silent Full 0 "filepath" full_probe _).
    intros inputName Hin. vm_compute in Hin. elem_cases Hin; subst; reflexivity.
  - refine (pass_over_empty_widgets_is_silent Full 0 "constructor" full_probe _).
    intros inputName Hin. vm_compute in Hin. elem_cases Hin.
Defined.

Lemma clearingRules_full_unknown (a : string) :
  a ∉ sources_of Full -> clearingRules_full !! a = None.
Proof.
  cbn. rewrite !not_elem_of_cons. intros (? & ? & ? & ? & _).
  unfold clearingRules_full. by rewrite !lookup_insert_ne, lookup_empty.
Qed.

Lemma clearingRules_reduced_unknown (a : string) :
  a ∉ sources_of Reduced -> clearingRules_reduced !! a = None.
Proof.
  cbn. rewrite !not_elem_of_cons. intros (? & ? & ? & _).
  unfold clearingRules_reduced. by rewrite !lookup_insert_ne, lookup_empty.
Qed.

(** X12: a name that is no source of the script.  The table-driven scripts
    find no rule for it: when the name is an inherited property of the rule
    table the pass throws a [TypeError] before it hides the preview or
    schedules anything; otherwise it empties nothing, but still hides the
    preview and schedules a re-check, which does nothing when it fires.
    js/imgloader.js, which has no table, empties filepath, base64 and
    pasted. *)
Theorem unknown_source (v : variant) (n : nat) (activeInput : string)
    (s : state) :
  activeInput ∉ sources_of v ->
  if finds_inherited v activeInput
  then clearOtherInputs v (S n) activeInput s
       = Throw TypeError (set_trace (trace s ++ [EvClearPass activeInput]) s)
  else
    exists s',
      clearOtherInputs v (S n) activeInput s = Ok tt s' /\
      previewElement s' = hide <$> previewElement s /\
      (v ≠ Legacy ->
       widgets s' = widgets s /\
       timers s' = timers s ++ [Timer (PreviewRecheck activeInput) 100] /\
       forall later, run_task v (PreviewRecheck activeInput) later = Ok tt later) /\
      (v = Legacy ->
       widget_value "filepath" s' = "" /\ widget_value "base64" s' = "" /\
       widget_value "pasted" s' = "").
Proof.
  intros Hun.
  destruct (finds_inherited v activeInput) eqn:Hin;
    [by apply inherited_rule_throws |].
  exists (pass_result v activeInput s).
  split; [by apply clearOtherInputs_spec |].
  assert (String.eqb activeInput "paste" = false \/ v = Reduced) as Hpaste.
  { destruct (String.eqb activeInput "paste") eqn:Hp; [| by left].
    apply String.eqb_eq in Hp as ->.
    destruct v; [| by right |]; exfalso; apply Hun; cbn; repeat constructor. }
  split; [| split].
  - destruct v; cbn; [done | done | destruct Hpaste as [-> | ?]; done].
  - intros Hv.
    assert (inputsToClear v activeInput = []) as Hnone.
    { destruct v; [| | done]; cbn [inputsToClear].
      - by rewrite clearingRules_full_unknown.
      - by rewrite clearingRules_reduced_unknown. }
    split; [| split].
    + rewrite widgets_pass_result. unfold cleared_keys. by rewrite Hnone.
    + destruct v; [| | done]; cbn; [destruct Hpaste as [-> | ?]; done | done].
    + intros later. unfold run_task, mbind, M_bind, get.
      assert (String.eqb activeInput "image" = false /\
              String.eqb activeInput "filepath" = false /\
              String.eqb activeInput "base64" = false) as (-> & -> & ->).
      { rewrite !String.eqb_neq.
        destruct v; [| | done]; cbn in Hun; rewrite !not_elem_of_cons in Hun;
          tauto. }
      reflexivity.
  - intros ->.
    assert (cleared_keys Legacy activeInput = ["filepath"; "base64"; "pasted"])
      as Hkeys.
    { cbn in Hun. rewrite !not_elem_of_cons in Hun. destruct Hun as (? & ? & ? & _).
      unfold cleared_keys, inputsToClear.
      rewrite !filter_cons, filter_nil.
      rewrite !decide_True by congruence. reflexivity. }
    repeat split;
      apply (widget_value_blank_all _ (widgets s) _ _
               (widgets_pass_result Legacy activeInput s));
      rewrite Hkeys; repeat constructor.
Qed.

Lemma unknown_source_witness :
  (exists s',
     clearOtherInputs Reduced 1 "paste" both_set_probe = Ok tt s' /\
     previewElement s' = hide <$> previewElement both_set_probe /\
     (Reduced ≠ Legacy ->
      widgets s' = widgets both_set_probe /\
      timers s' = timers both_set_probe ++ [Timer (PreviewRecheck "paste") 100] /\
      forall later, run_task Reduced (PreviewRecheck "paste") later = Ok tt later) /\
     (Reduced = Legacy ->
      widget_value "filepath" s' = "" /\ widget_value "base64" s' = "" /\
      widget_value "pasted" s' = "")) /\
  clearOtherInputs Full 1 "toString" both_set_probe
  = Throw TypeError
      (set_trace (trace both_set_probe ++ [EvClearPass "toString"]) both_set_probe).
Proof.
  split.
  - refine (unknown_source Reduced 0 "paste" both_set_probe _).
    apply (bool_decide_unpack _). by vm_compute.
  - refine (unknown_source Full 0 "toString" both_set_probe _).
    apply (bool_decide_unpack _). by vm_compute.
Defined.

(** X13: in js/imgloader.js the single-source invariant does hold over its
    three sources: after every clearing pass for filepath, base64 or pasted,
    and so after every non-empty sequence of deliverable activations on a
    wired controller, at most one of filepath, base64 and pasted holds a
    non-empty value. *)
Theorem legacy_single_source :
  (forall n a s,
     a ≠ upload ->
     exists s',
       clearOtherInputs Legacy (S n) (input_of a) s = Ok tt s' /\
       at_most_one [filepath; base64; pasted] s') /\
  (forall n l a s,
     wired Legacy s = true ->
     Forall (fun a' => deliverable Legacy s a' = true) (l ++ [a]) ->
     exists s',
       run_activations Legacy (S n) (l ++ [a]) s = Ok tt s' /\
       at_most_one [filepath; base64; pasted] s').
Proof.
  assert (forall source s' (m : gmap string widget),
            source ∈ sources_of Legacy ->
            widgets s' = blank_all (cleared_keys Legacy source) m ->
            at_most_one [filepath; base64; pasted] s') as Hone.
  { intros source s' m Hsrc Hs. unfold at_most_one. cbn [List.filter].
    cbn in Hsrc; elem_cases Hsrc; subst source;
      match type of Hs with _ = blank_all ?keys ?m' =>
        pose proof (fun x => holds_blanked s' keys m' x Hs) as Hb
      end; cbn in Hb;
      try (rewrite (Hb filepath) by repeat constructor);
      try (rewrite (Hb base64) by repeat constructor);
      try (rewrite (Hb pasted) by repeat constructor);
      repeat match goal with |- context [holds ?s0 ?x] => destruct (holds s0 x) end;
      cbn; lia. }
  split.
  - intros n a s Ha. exists (pass_result Legacy (input_of a) s).
    split; [by apply clearOtherInputs_spec |].
    apply (Hone (input_of a) _ (widgets s)); [| reflexivity].
    destruct a; [done | | |]; cbn; repeat constructor.
  - intros n l a s Hwired Hall.
    destruct (run_activations_spec Legacy n (l ++ [a]) s Hwired Hall)
      as (s' & Hrun & Hw & _).
    exists s'. split; [exact Hrun |].
    rewrite foldl_app in Hw. cbn [foldl] in Hw.
    apply Forall_app in Hall as [_ Ha]. apply Forall_cons in Ha as [Ha _].
    destruct a as [source newValue]. unfold deliverable in Ha.
    apply andb_prop in Ha as [[[Hsrc _]%andb_prop _]%andb_prop _].
    apply bool_decide_eq_true in Hsrc.
    by eapply (Hone source s').
Qed.

Lemma legacy_single_source_witness :
  (exists s',
     clearOtherInputs Legacy 1 (input_of filepath) legacy_probe = Ok tt s' /\
     at_most_one [filepath; base64; pasted] s') /\
  exists s',
    run_activations Legacy 1
      ([Activate "paste" "data:image/png;base64,AAA="] ++ [Activate "filepath" "x.png"])
      (booted Legacy) = Ok tt s' /\
    at_most_one [filepath; base64; pasted] s'.
Proof.
  split.
  - apply (proj1 legacy_single_source 0%nat filepath legacy_probe). discriminate.
  - apply (proj2 legacy_single_source 0%nat
             [Activate "paste" "data:image/png;base64,AAA="]
             (Activate "filepath" "x.png") (booted Legacy)).
    + reflexivity.
    + repeat constructor.
Defined.

(** ** Finding the widgets *)

Lemma store_widget_spec key name node_widgets s :
  store_widget key name node_widgets s =
  Ok tt (set_widgets (fun m => match find_widget name node_widgets with
                               | Some w => <[key := w]> m
                               | None => m
                               end) s).
Proof.
  unfold store_widget. destruct (find_widget name node_widgets); [reflexivity |].
  by destruct s.
Qed.

Lemma find_widget_Some name node_widgets w :
  find_widget name node_widgets = Some w -> (name, w) ∈ node_widgets.
Proof.
  unfold find_widget.
  destruct (List.find _ node_widgets) as [[name' w'] |] eqn:Hfind; [| done].
  intros [= <-]. apply List.find_some in Hfind as [Hin Heq].
  apply String.eqb_eq in Heq. cbn in Heq. subst name'.
  by apply list_elem_of_In.
Qed.

Lemma find_widget_None name node_widgets w :
  find_widget name node_widgets = None -> (name, w) ∉ node_widgets.
Proof.
  unfold find_widget.
  destruct (List.find _ node_widgets) as [p |] eqn:Hfind; [done |].
  intros _ Hin. apply list_elem_of_In in Hin.
  pose proof (List.find_none _ _ Hfind _ Hin) as Hno. cbn in Hno.
  by rewrite String.eqb_refl in Hno.
Qed.

Lemma findWidgets_spec v node_widgets s :
  widgets s = ∅ ->
  exists m : gmap string widget,
    findWidgets v node_widgets s = Ok tt (set_widgets (fun _ => m) s) /\
    forall k : string,
      m !! k = if bool_decide (k ∈ keys_of v)
               then find_widget (node_name k) node_widgets
               else None.
Proof.
  intros Hempty. destruct s as [ws ls dr pe oc nd rg tm tr]. cbn in Hempty. subst ws.
  destruct v; cbn [findWidgets];
    repeat (erewrite bind_Ok by apply store_widget_spec);
    rewrite ?store_widget_spec; unfold set_widgets; cbn [widgets eventListeners
      isDragging previewElement originalColors the_node registered timers trace];
    eexists; (split; [reflexivity |]); intros k; cbn [keys_of];
    repeat match goal with
    | |- context [find_widget ?nm node_widgets] =>
        lazymatch nm with
        | node_name _ => fail
        | _ => destruct (find_widget nm node_widgets) eqn:?
        end
    end;
    repeat (rewrite lookup_insert; case_decide; [subst k |]);
    rewrite ?lookup_empty;
    try (rewrite bool_decide_eq_true_2 by (repeat constructor); cbn; congruence);
    try (rewrite bool_decide_eq_false_2
           by (rewrite !not_elem_of_cons; repeat split; try congruence;
               apply not_elem_of_nil); reflexivity);
    case_bool_decide as Hk; try reflexivity;
      elem_cases Hk; subst k; cbn; congruence.
Qed.

(** X14: [findWidgets] on a new controller assigns exactly the properties
    of its script, each from a node widget of the matching name (pasted
    from [pasted_base64]): a property exists if and only if the node has a
    widget of that name, the four-widget script looks for image, filepath,
    base64 and pasted, the three-widget script not for pasted, and
    js/imgloader.js not for image.  Nothing but [this.widgets] changes. *)
Theorem findWidgets_lookup (v : variant) (node_widgets : list (string * widget))
    (n : node) :
  exists s,
    findWidgets v node_widgets (new_handler n) = Ok tt s /\
    s = handler_with (widgets s) n /\
    (forall k w, widgets s !! k = Some w ->
                 k ∈ keys_of v /\ (node_name k, w) ∈ node_widgets) /\
    (forall k w, k ∈ keys_of v -> (node_name k, w) ∈ node_widgets ->
                 is_Some (widgets s !! k)).
Proof.
  destruct (findWidgets_spec v node_widgets (new_handler n) eq_refl)
    as (m & Hrun & Hm).
  eexists. split; [exact Hrun |]. split; [reflexivity |].
  cbn [widgets set_widgets]. split.
  - intros k w Hk. rewrite Hm in Hk. case_bool_decide; [| done].
    split; [done |]. by apply find_widget_Some.
  - intros k w Hk Hin. rewrite Hm, bool_decide_eq_true_2 by done.
    destruct (find_widget (node_name k) node_widgets) eqn:Hf; [eauto |].
    by apply (find_widget_None _ _ w) in Hf.
Qed.

Lemma findWidgets_lookup_witness :
  exists s,
    findWidgets Legacy host_widgets (new_handler host_node) = Ok tt s /\
    s = handler_with (widgets s) host_node /\
    (forall k w, widgets s !! k = Some w ->
                 k ∈ keys_of Legacy /\ (node_name k, w) ∈ host_widgets) /\
    (forall k w, k ∈ keys_of Legacy -> (node_name k, w) ∈ host_widgets ->
                 is_Some (widgets s !! k)).
Proof. apply (findWidgets_lookup Legacy host_widgets host_node). Defined.

(** ** The life cycle of a controller *)

Lemma addEventListener_fresh l s :
  l ∉ registered s ->
  addEventListener l s = Ok tt (set_registered (registered s ++ [l]) s).
Proof.
  intros Hl. unfold addEventListener. unfold_M.
  by rewrite bool_decide_eq_false_2.
Qed.

Ltac run_setup :=
  repeat first
    [ rewrite addEventListener_fresh
        by (cbn; apply (bool_decide_unpack _); vm_compute; exact I)
    | progress cbn -[addEventListener] ].

Lemma setup_spec v m n :
  exists s,
    (setupEventListeners v;; setupDragAndDrop v;; setupPreview v)
      (handler_with m n) = Ok tt s /\
    widgets s = wrapped v m /\
    eventListeners s = recorded v (has_inputEl "base64" (handler_with m n)) n /\
    registered s = attached v (has_inputEl "base64" (handler_with m n)) n /\
    previewElement s = Some (new_preview v n) /\
    the_node s = match v with
                 | Legacy => n
                 | _ => set_imageLoaderPreview true n
                 end /\
    isDragging s = false /\ originalColors s = None /\
    timers s = [] /\ trace s = [].
Proof.
  destruct n as [bg fg gc ilp cv el].
  unfold handler_with, setupEventListeners, setupDragAndDrop, setupPreview,
    wrap_callback, push_listener.
  unfold_M. unfold has_inputEl.
  destruct v; cbn [widgets set_widgets]; rewrite ?lookup_alter_ne by done;
    destruct (m !! "base64") as [[val cb [|]] |]; destruct cv; destruct el;
    cbn [inputEl]; run_setup;
    (eexists; split; [reflexivity |]); cbn; repeat split; reflexivity.
Qed.

Lemma initialize_spec v node_widgets n :
  exists (m : gmap string widget) s,
    (forall k : string,
       m !! k = if bool_decide (k ∈ keys_of v)
                then find_widget (node_name k) node_widgets
                else None) /\
    initialize v node_widgets (new_handler n) = Ok tt s /\
    widgets s = wrapped v m /\
    eventListeners s = recorded v (has_textarea node_widgets) n /\
    registered s = attached v (has_textarea node_widgets) n /\
    previewElement s = Some (new_preview v n) /\
    the_node s = match v with
                 | Legacy => n
                 | _ => set_imageLoaderPreview true n
                 end /\
    isDragging s = false /\ originalColors s = None /\
    timers s = [] /\ trace s = [].
Proof.
  destruct (findWidgets_spec v node_widgets (new_handler n) eq_refl)
    as (m & Hfind & Hm).
  destruct (setup_spec v m n) as (s & Hsetup & Hs).
  assert (has_inputEl "base64" (handler_with m n) = has_textarea node_widgets)
    as Hb.
  { unfold has_inputEl, has_textarea. cbn [widgets handler_with].
    rewrite Hm, bool_decide_eq_true_2; [done |].
    destruct v; cbn; rewrite !elem_of_cons; tauto. }
  rewrite Hb in Hs. exists m, s. split; [exact Hm |]. split; [| exact Hs].
  unfold initialize. erewrite bind_Ok by exact Hfind. exact Hsetup.
Qed.

(** X15: the listener that [setupEventListeners] attaches to the base64
    text field for pasted text is never pushed onto [this.eventListeners],
    so [cleanup()] cannot remove it: after [initialize()] and [cleanup()] on
    a new controller the record of listeners is empty and the preview box is
    out of the document, but on a node whose base64 widget has a text field
    that one listener is still attached, in the four-widget script and in
    js/imgloader.js.  Every other listener is removed, and the three-widget
    script leaves none. *)
Theorem text_paste_listener_outlives_cleanup (v : variant)
    (node_widgets : list (string * widget)) (n : node) :
  exists s1 s2,
    initialize v node_widgets (new_handler n) = Ok tt s1 /\
    cleanup v s1 = Ok tt s2 /\
    eventListeners s2 = [] /\
    registered s2 = unrecorded v (has_textarea node_widgets) /\
    previewElement s2 = Some (detach (new_preview v n)).
Proof.
  destruct (initialize_spec v node_widgets n)
    as (m & s1 & _ & Hinit & _ & HE & HR & Hpe & _).
  exists s1, (cleaned v s1). split; [exact Hinit |].
  split; [apply cleanup_spec |]. cbn [cleaned eventListeners registered previewElement].
  split; [reflexivity |]. rewrite HE, HR, Hpe. split; [| reflexivity].
  destruct n as [bg fg gc ilp cv el].
  by destruct v, (has_textarea node_widgets), cv, el; vm_compute.
Qed.

Lemma lookup_wrapped v (m : gmap string widget) (k : string) :
  wrapped v m !! k =
  (if bool_decide (k ∈ wrapped_keys v) then wrap k else id) <$> m !! k.
Proof.
  unfold wrapped.
  destruct v; cbn [wrapped_keys foldl];
    repeat (rewrite lookup_alter; case_decide; [subst k |]);
    try (rewrite bool_decide_eq_true_2 by (rewrite !elem_of_cons; tauto));
    try (rewrite bool_decide_eq_false_2
           by (rewrite !not_elem_of_cons; repeat split; try congruence;
               apply not_elem_of_nil));
    rewrite ?lookup_alter_ne by done;
    try reflexivity; by rewrite option_fmap_id.
Qed.

(** X16: [initialize()] on a new controller calls no callback and starts
    no timer; it stores each widget it looks for, replaces the callback of
    the image and filepath widgets (of the filepath widget alone in
    js/imgloader.js) by a wrapper around the callback the host had given,
    leaves every value as it was, and creates the preview box hidden and
    empty. *)
Theorem initialize_wraps_callbacks (v : variant)
    (node_widgets : list (string * widget)) (n : node) :
  exists s,
    initialize v node_widgets (new_handler n) = Ok tt s /\
    trace s = [] /\ timers s = [] /\
    previewElement s = Some (new_preview v n) /\
    forall k : string,
      widgets s !! k =
      if bool_decide (k ∈ keys_of v)
      then (if bool_decide (k ∈ wrapped_keys v) then wrap k else id)
             <$> find_widget (node_name k) node_widgets
      else None.
Proof.
  destruct (initialize_spec v node_widgets n)
    as (m & s & Hm & Hinit & Hw & _ & _ & Hpe & _ & _ & _ & Htm & Htr).
  exists s. repeat (split; [done |]). intros k.
  rewrite Hw, lookup_wrapped, Hm.
  by destruct (bool_decide (k ∈ keys_of v)).
Qed.

Lemma initialized_textarea v node_widgets (m : gmap string widget) s :
  (forall k : string,
     m !! k = if bool_decide (k ∈ keys_of v)
              then find_widget (node_name k) node_widgets
              else None) ->
  widgets s = wrapped v m ->
  has_inputEl "base64" s = has_textarea node_widgets.
Proof.
  intros Hm Hw. unfold has_inputEl, has_textarea.
  rewrite Hw, lookup_wrapped, Hm.
  rewrite (bool_decide_eq_true_2 ("base64" ∈ keys_of v))
    by (destruct v; cbn; rewrite !elem_of_cons; tauto).
  rewrite (bool_decide_eq_false_2 ("base64" ∈ wrapped_keys v))
    by (destruct v; cbn; rewrite !not_elem_of_cons; repeat split;
        try discriminate; apply not_elem_of_nil).
  cbn [node_name String.eqb Ascii.eqb Bool.eqb].
  by destruct (find_widget "base64" node_widgets).
Qed.

Lemma offered_deliverable v node_widgets n (m : gmap string widget) s a :
  (forall k : string,
     m !! k = if bool_decide (k ∈ keys_of v)
              then find_widget (node_name k) node_widgets
              else None) ->
  widgets s = wrapped v m ->
  registered s = attached v (has_textarea node_widgets) n ->
  graph_canvas (the_node s) = graph_canvas n ->
  offered v node_widgets n a = true -> deliverable v s a = true.
Proof.
  intros Hm Hw Hreg Hgc. destruct a as [source newValue].
  unfold offered, deliverable.
  intros [[[Hsrc Hfilled]%andb_prop Hex]%andb_prop Hheard]%andb_prop.
  rewrite Hsrc, Hfilled. cbn [andb]. apply andb_true_intro. split.
  - apply bool_decide_eq_true.
    apply bool_decide_eq_true in Hsrc. apply bool_decide_eq_true in Hex.
    rewrite Hw, lookup_wrapped, Hm, fmap_is_Some.
    rewrite bool_decide_eq_true_2; [exact Hex |].
    destruct v; cbn in Hsrc |- *; elem_cases Hsrc; subst source; cbn;
      rewrite !elem_of_cons; tauto.
  - unfold heard. destruct (String.eqb source "paste").
    + unfold paste_heard, is_attached. rewrite Hreg, Hgc.
      destruct n as [bg fg gc ilp cv el hk]. cbn in Hheard |- *.
      destruct v; [| done |].
      * subst gc. rewrite andb_true_r. apply bool_decide_eq_true.
        unfold attached, node_listeners. rewrite elem_of_app. right.
        apply list_elem_of_here.
      * unfold attached, node_listeners. cbn [canvas node_element].
        apply orb_true_iff. apply orb_prop in Hheard as [-> | Hel].
        -- left. apply bool_decide_eq_true. rewrite !elem_of_app.
           right. left. apply list_elem_of_here.
        -- right. rewrite Hel. apply bool_decide_eq_true. rewrite !elem_of_app.
           right. right. left. apply list_elem_of_here.
    + destruct (String.eqb source "base64"); [| done].
      unfold input_heard, is_attached.
      rewrite (initialized_textarea v node_widgets m s Hm Hw), Hreg.
      unfold attached. rewrite Hheard.
      cbn [andb]. apply bool_decide_eq_true.
      rewrite elem_of_app. left. apply list_elem_of_here.
Qed.

(** X17: a controller that [initialize()] has set up on a node whose
    widgets carry host handlers or no callback takes every sequence of
    activations the host can deliver for that node: each one ends normally,
    with one level of nesting, runs one clearing pass, and leaves the
    widgets as the pass for its source does.  An input into a base64 widget
    that has no text field is not among them: no handler was attached for
    it, so the value is stored and nothing else happens. *)
Theorem initialized_controller_takes_activations (v : variant)
    (node_widgets : list (string * widget)) (n : node) (fuel : nat)
    (l : list activation) :
  Forall (fun p => plain (callback (snd p)) = true) node_widgets ->
  Forall (fun a => offered v node_widgets n a = true) l ->
  exists s1 s2,
    initialize v node_widgets (new_handler n) = Ok tt s1 /\
    run_activations v (S fuel) l s1 = Ok tt s2 /\
    passes (trace s2) = length l /\
    widgets s2 = foldl (fun m a => widgets_after v a m) (widgets s1) l /\
    (has_textarea node_widgets = false ->
     forall newValue,
       activate v (S fuel) (Activate "base64" newValue) s1
       = Ok tt (set_widgets (stored "base64" newValue) s1)).
Proof.
  intros Hplain Hall.
  destruct (initialize_wired v node_widgets n Hplain) as (s1 & Hinit & Hwired).
  destruct (initialize_spec v node_widgets n)
    as (m & s1' & Hm & Hinit' & Hw & _ & Hreg & _ & Hnode & _ & _ & _ & Htr).
  rewrite Hinit in Hinit'. injection Hinit' as <-.
  assert (graph_canvas (the_node s1) = graph_canvas n) as Hgc
    by (rewrite Hnode; by destruct v).
  destruct (run_activations_spec v fuel l s1 Hwired) as (s2 & Hrun & Hw2 & Hp).
  { eapply Forall_impl; [exact Hall |]. intros a.
    by apply (offered_deliverable v node_widgets n m). }
  exists s1, s2. repeat (split; [done |]).
  split; [rewrite Hp, Htr; reflexivity |]. split; [done |].
  intros Hno newValue. unfold activate. cbn [String.eqb Ascii.eqb Bool.eqb].
  erewrite bind_Ok by apply set_value_spec.
  unfold mbind, M_bind, get.
  assert (input_heard
            (set_widgets
               (alter (fun w => Widget newValue (callback w) (inputEl w))
                      "base64") s1) = false) as ->; [| reflexivity].
  unfold input_heard.
  assert (has_inputEl "base64"
            (set_widgets
               (alter (fun w => Widget newValue (callback w) (inputEl w))
                      "base64") s1) = has_inputEl "base64" s1) as ->.
  { unfold has_inputEl. cbn [widgets set_widgets]. rewrite lookup_alter_eq.
    by destruct (widgets s1 !! "base64"). }
  by rewrite (initialized_textarea v node_widgets m s1 Hm Hw), Hno.
Qed.

Lemma initialized_controller_takes_activations_witness :
  Forall (fun p => plain (callback (snd p)) = true)
         [("filepath", Widget "" (Some (HostCallback 2)) true);
          ("base64", Widget "" (Some (HostCallback 3)) false);
          ("pasted_base64", Widget "" None true)] /\
  Forall (fun a => offered Full
                     [("filepath", Widget "" (Some (HostCallback 2)) true);
                      ("base64", Widget "" (Some (HostCallback 3)) false);
                      ("pasted_base64", Widget "" None true)] host_node a = true)
         [Activate "filepath" "cat.png"; Activate "paste" "data:image/png;base64,AAAA"] /\
  offered Full [("filepath", Widget "" (Some (HostCallback 2)) true);
                ("base64", Widget "" (Some (HostCallback 3)) false);
                ("pasted_base64", Widget "" None true)] host_node
          (Activate "base64" "QUJD") = false /\
  exists s1 s2,
    initialize Full [("filepath", Widget "" (Some (HostCallback 2)) true);
                     ("base64", Widget "" (Some (HostCallback 3)) false);
                     ("pasted_base64", Widget "" None true)]
               (new_handler host_node) = Ok tt s1 /\
    run_activations Full 1 [Activate "filepath" "cat.png";
                            Activate "paste" "data:image/png;base64,AAAA"] s1
    = Ok tt s2 /\
    passes (trace s2) = 2 /\
    widgets s2 = foldl (fun m a => widgets_after Full a m) (widgets s1)
                       [Activate "filepath" "cat.png";
                        Activate "paste" "data:image/png;base64,AAAA"] /\
    (has_textarea [("filepath", Widget "" (Some (HostCallback 2)) true);
                   ("base64", Widget "" (Some (HostCallback 3)) false);
                   ("pasted_base64", Widget "" None true)] = false ->
     forall newValue,
       activate Full 1 (Activate "base64" newValue) s1
       = Ok tt (set_widgets (stored "base64" newValue) s1)).
Proof.
  assert (Forall (fun p => plain (callback (snd p)) = true)
            [("filepath", Widget "" (Some (HostCallback 2)) true);
             ("base64", Widget "" (Some (HostCallback 3)) false);
             ("pasted_base64", Widget "" None true)]) as H1
    by (repeat constructor).
  assert (Forall (fun a => offered Full
                     [("filepath", Widget "" (Some (HostCallback 2)) true);
                      ("base64", Widget "" (Some (HostCallback 3)) false);
                      ("pasted_base64", Widget "" None true)] host_node a = true)
            [Activate "filepath" "cat.png";
             Activate "paste" "data:image/png;base64,AAAA"]) as H2
    by (repeat constructor).
  split; [exact H1 |]. split; [exact H2 |]. split; [reflexivity |].
  exact (initialized_controller_takes_activations Full _ host_node 0 _ H1 H2).
Defined.

(** ** The placeholder of a file that cannot be shown *)

Lemma append_cons (c : ascii) (s1 s2 : string) :
  String c s1 +:+ s2 = String c (s1 +:+ s2).
Proof. reflexivity. Qed.

Lemma append_nil_l (s : string) : "" +:+ s = s.
Proof. reflexivity. Qed.

Lemma append_nil_r (s : string) : s +:+ "" = s.
Proof.
  induction s as [| c s IH]; [done |]. by rewrite append_cons, IH.
Qed.

Lemma append_assoc (s1 s2 s3 : string) :
  (s1 +:+ s2) +:+ s3 = s1 +:+ (s2 +:+ s3).
Proof.
  induction s1 as [| c s1 IH]; [done |]. by rewrite !append_cons, IH.
Qed.

Lemma rev_app_append (s1 s2 : string) :
  String.rev_app s1 s2 = String.rev s1 +:+ s2.
Proof.
  unfold String.rev. revert s2.
  induction s1 as [| c s1 IH]; intros s2; cbn [String.rev_app]; [done |].
  rewrite (IH (String c s2)), (IH (String c "")).
  by rewrite append_assoc, append_cons, append_nil_l.
Qed.

Lemma split_go_plain sep (s cur : string) :
  contains sep s = false ->
  JS.split_go sep cur s = [String.rev cur +:+ s].
Proof.
  revert cur. induction s as [| c s IH]; intros cur Hs; cbn [JS.split_go].
  - by rewrite append_nil_r.
  - cbn [contains] in Hs. apply orb_false_elim in Hs as [-> Hs].
    rewrite (IH _ Hs). unfold String.rev at 1. cbn [String.rev_app].
    by rewrite rev_app_append, append_assoc, append_cons, append_nil_l.
Qed.

Lemma split_go_last sep (dir : string) (c : ascii) (rest cur : string) :
  sep c = true -> contains sep rest = false ->
  last (JS.split_go sep cur (dir +:+ String c rest)) = Some rest.
Proof.
  intros Hc Hrest. revert cur.
  induction dir as [| d dir IH]; intros cur;
    rewrite ?append_nil_l, ?append_cons; cbn [JS.split_go].
  - rewrite Hc, last_cons, (split_go_plain sep rest "" Hrest). reflexivity.
  - destruct (sep d); [| apply IH]. by rewrite last_cons, IH.
Qed.

(** X18: the placeholder shown for a file whose image fails to load names
    the part of the path after its last separator, slash or backslash: a
    name without separator is shown whole, [dir/rest] is shown as [rest],
    and a path that ends in a separator is shown whole.  Without a preview
    box nothing happens. *)
Theorem placeholder_shows_base_name (s : state) :
  (previewElement s = None ->
   forall fileName, showPreviewPlaceholder fileName s = Ok tt s) /\
  (forall e, previewElement s = Some e ->
     (forall fileName,
        contains JS.is_slash fileName = false ->
        img_onerror fileName s
        = Ok tt (set_previewElement (Some (placeholder fileName e)) s)) /\
     (forall dir c rest,
        JS.is_slash c = true -> contains JS.is_slash rest = false ->
        img_onerror (dir +:+ String c rest) s
        = Ok tt (set_previewElement
                   (Some (placeholder (if JS.truthy rest then rest
                                       else dir +:+ String c rest) e)) s))).
Proof.
  split.
  - intros He fileName. unfold showPreviewPlaceholder.
    rewrite with_preview_spec.
    destruct s as [? ? ? pe ? ? ? ? ?]. cbn in He. by subst pe.
  - intros e He. split.
    + intros fileName Hplain. unfold img_onerror, showPreviewPlaceholder.
      rewrite with_preview_spec, He. unfold JS.split.
      rewrite (split_go_plain _ _ _ Hplain). cbn [last default String.rev
        String.rev_app]. rewrite append_nil_l.
      unfold id. by destruct (JS.truthy fileName).
    + intros dir c rest Hc Hrest. unfold img_onerror, showPreviewPlaceholder.
      rewrite with_preview_spec, He. unfold JS.split.
      by rewrite (split_go_last _ _ _ _ _ Hc Hrest).
Qed.

Lemma placeholder_shows_base_name_witness :
  previewElement (booted Full) = Some (new_preview Full host_node) /\
  img_onerror "input/cats/tom.png" (booted Full)
  = Ok tt (set_previewElement
             (Some (placeholder "tom.png" (new_preview Full host_node)))
             (booted Full)) /\
  img_onerror "input\cats\" (booted Full)
  = Ok tt (set_previewElement
             (Some (placeholder "input\cats\" (new_preview Full host_node)))
             (booted Full)).
Proof.
  assert (previewElement (booted Full) = Some (new_preview Full host_node))
    as He by reflexivity.
  split; [exact He |]. split.
  - exact (proj2 (proj2 (placeholder_shows_base_name (booted Full)) _ He)
             "input/cats" "/"%char "tom.png" eq_refl eq_refl).
  - exact (proj2 (proj2 (placeholder_shows_base_name (booted Full)) _ He)
             "input\cats" "\"%char "" eq_refl eq_refl).
Defined.

(** ** Clipboard and drag events *)

Lemma paste_items_none items s :
  Forall (fun it => is_image_item it = false) items ->
  paste_items items s = Ok [] s.
Proof.
  induction 1 as [| [type | f] rest Hit _ IH]; cbn [paste_items]; [done | done |].
  cbn in Hit. by rewrite Hit.
Qed.

Lemma paste_items_first pre f post s :
  Forall (fun it => is_image_item it = false) pre ->
  isValidImageType (file_type f) = true ->
  paste_items (pre ++ FileItem f :: post) s
  = Ok [PreventDefault; StopPropagation; ReadAsDataURL f "paste";
        ShowPasteIndicator] s.
Proof.
  intros Hpre Hf.
  induction Hpre as [| [type | f'] rest Hit _ IH]; cbn [paste_items app].
  - by rewrite Hf.
  - exact IH.
  - cbn in Hit. by rewrite Hit.
Qed.

(** X19: [handlePaste] reads the first clipboard item that is a file of a
    supported image type, whatever comes after it: it stops the event,
    starts one read with the source name paste and shows the indicator.
    The four-widget script does so only while its node is selected on a
    graph canvas, and otherwise leaves the event alone; js/imgloader.js does
    so on every paste its listeners receive. *)
Theorem paste_reads_first_image (selected : bool) (pre post : list item)
    (f : file) (s : state) :
  Forall (fun it => is_image_item it = false) pre ->
  isValidImageType (file_type f) = true ->
  handlePaste_legacy (Some (pre ++ FileItem f :: post)) s
  = Ok [PreventDefault; StopPropagation; ReadAsDataURL f "paste";
        ShowPasteIndicator] s /\
  handlePaste_full selected (Some (pre ++ FileItem f :: post)) s
  = Ok (if graph_canvas (the_node s) && selected
        then [PreventDefault; StopPropagation; ReadAsDataURL f "paste";
              ShowPasteIndicator]
        else []) s.
Proof.
  intros Hpre Hf. unfold handlePaste_full, handlePaste_legacy, isNodeActive.
  unfold_M. split; [by apply paste_items_first |].
  destruct (graph_canvas (the_node s) && selected); cbn [negb]; [| done].
  by apply paste_items_first.
Qed.

Lemma paste_reads_first_image_witness :
  handlePaste_legacy
    (Some ([StringItem "text/plain"; FileItem (File "a.pdf" "application/pdf")]
           ++ FileItem (File "b.PNG" "image/PNG")
           :: [FileItem (File "c.gif" "image/gif")])) (booted Legacy)
  = Ok [PreventDefault; StopPropagation;
        ReadAsDataURL (File "b.PNG" "image/PNG") "paste"; ShowPasteIndicator]
       (booted Legacy) /\
  handlePaste_full false
    (Some ([StringItem "text/plain"; FileItem (File "a.pdf" "application/pdf")]
           ++ FileItem (File "b.PNG" "image/PNG")
           :: [FileItem (File "c.gif" "image/gif")])) (booted Full)
  = Ok (if graph_canvas (the_node (booted Full)) && false
        then [PreventDefault; StopPropagation;
              ReadAsDataURL (File "b.PNG" "image/PNG") "paste";
              ShowPasteIndicator]
        else []) (booted Full).
Proof.
  assert (Forall (fun it => is_image_item it = false)
            [StringItem "text/plain"; FileItem (File "a.pdf" "application/pdf")])
    as Hpre by (repeat constructor).
  split.
  - exact (proj1 (paste_reads_first_image false _
                    [FileItem (File "c.gif" "image/gif")]
                    (File "b.PNG" "image/PNG") (booted Legacy) Hpre eq_refl)).
  - exact (proj2 (paste_reads_first_image false _
                    [FileItem (File "c.gif" "image/gif")]
                    (File "b.PNG" "image/PNG") (booted Full) Hpre eq_refl)).
Defined.

(** X20: a paste without an image is left to the browser: when the event
    carries no item list, or no item that is a file of a supported image
    type, [handlePaste] neither stops the event nor reads anything, and the
    controller is unchanged, in both scripts that listen for pastes. *)
Theorem paste_without_image_is_ignored (selected : bool)
    (items : option (list item)) (s : state) :
  (forall l, items = Some l -> Forall (fun it => is_image_item it = false) l) ->
  handlePaste_legacy items s = Ok [] s /\
  handlePaste_full selected items s = Ok [] s.
Proof.
  intros Hitems. unfold handlePaste_full, handlePaste_legacy. unfold_M.
  destruct items as [l |]; destruct (negb (isNodeActive selected s));
    rewrite ?(paste_items_none l s) by (by apply Hitems); done.
Qed.

Lemma paste_without_image_is_ignored_witness :
  handlePaste_legacy (Some [StringItem "text/plain";
                            FileItem (File "notes.txt" "text/plain")])
                     (booted Legacy)
  = Ok [] (booted Legacy) /\
  handlePaste_full true (Some [StringItem "text/plain";
                               FileItem (File "notes.txt" "text/plain")])
                   (booted Full)
  = Ok [] (booted Full).
Proof.
  assert (forall l,
            Some [StringItem "text/plain";
                  FileItem (File "notes.txt" "text/plain")] = Some l ->
            Forall (fun it => is_image_item it = false) l) as Hnone
    by (intros l [= <-]; repeat constructor).
  split.
  - exact (proj1 (paste_without_image_is_ignored true _ (booted Legacy) Hnone)).
  - exact (proj2 (paste_without_image_is_ignored true _ (booted Full) Hnone)).
Defined.

Lemma handleDrop_spec d s : handleDrop d s = Ok (drop_actions d) s.
Proof.
  unfold handleDrop, drop_actions.
  by destruct (List.filter _ (dt_files d)).
Qed.

(** X21: [handleDrop] reads the first dropped file of a supported image
    type and no other, with the source name drop; files of other types in
    front of it are skipped, and a drop without such a file reads nothing.
    The controller itself is not touched before the read completes. *)
Theorem drop_reads_first_image_file (d : dataTransfer) (s : state) :
  (Forall (fun f => isValidImageType (file_type f) = false) (dt_files d) ->
   handleDrop d s = Ok [] s) /\
  (forall pre f post,
     dt_files d = pre ++ f :: post ->
     Forall (fun f' => isValidImageType (file_type f') = false) pre ->
     isValidImageType (file_type f) = true ->
     handleDrop d s = Ok [ReadAsDataURL f "drop"] s).
Proof.
  rewrite handleDrop_spec. unfold drop_actions. split.
  - intros Hnone.
    induction Hnone as [| f rest Hf _ IH]; cbn [List.filter]; [done |].
    by rewrite Hf.
  - intros pre f post -> Hpre Hf.
    induction Hpre as [| f' rest Hf' _ IH]; cbn [List.filter app].
    + by rewrite Hf.
    + by rewrite Hf'.
Qed.

Lemma drop_reads_first_image_file_witness :
  handleDrop (DataTransfer (Some ["Files"]) None
                [File "notes.txt" "text/plain"; File "a.JPG" "image/JPEG";
                 File "b.png" "image/png"]) (booted Full)
  = Ok [ReadAsDataURL (File "a.JPG" "image/JPEG") "drop"] (booted Full) /\
  handleDrop (DataTransfer (Some ["Files"]) None
                [File "notes.txt" "text/plain"; File "v.svg" "image/svg+xml"])
             (booted Full)
  = Ok [] (booted Full).
Proof.
  split.
  - refine (proj2 (drop_reads_first_image_file
                     (DataTransfer (Some ["Files"]) None
                        [File "notes.txt" "text/plain";
                         File "a.JPG" "image/JPEG"; File "b.png" "image/png"])
                     (booted Full))
              [File "notes.txt" "text/plain"] (File "a.JPG" "image/JPEG")
              [File "b.png" "image/png"] eq_refl _ eq_refl).
    repeat constructor.
  - refine (proj1 (drop_reads_first_image_file
                     (DataTransfer (Some ["Files"]) None
                        [File "notes.txt" "text/plain";
                         File "v.svg" "image/svg+xml"])
                     (booted Full)) _).
    repeat constructor.
Defined.

Lemma setDragState_legacy_spec dragging s :
  setDragState_legacy dragging s = Ok tt (outlined dragging s).
Proof.
  destruct s as [ws ls dr pe oc [bg fg gc ip cv [ne |]] rg tm tr];
    unfold setDragState_legacy, outlined; unfold_M; cbn;
    by destruct dragging.
Qed.

(** X22: the handlers that the four-widget script puts on the node keep
    the handlers the node had for everything but images: a drag or a drop
    whose payload [hasImageFiles] does not recognise is passed on to the
    original handler with the event and the controller untouched.  A
    recognised drop is not passed on: the handler returns [true], the
    highlight is taken back and the first image file, if [files] has one, is
    read; and a recognised drag over the node highlights it.  Leaving the
    node takes the highlight back and is always passed on. *)
Theorem node_handlers_forward_other_payloads (dt : option dataTransfer)
    (s : state) :
  (hasImageFiles dt = false ->
   onDragOver dt s = Ok ([], Forward) s /\
   onDrop dt s = Ok ([], Forward) s) /\
  (forall d, dt = Some d -> hasImageFiles dt = true ->
   onDragOver dt s
   = Ok ([PreventDefault; StopPropagation; DropEffectCopy], ReturnTrue)
        (drag_started s) /\
   onDrop dt s
   = Ok ([PreventDefault; StopPropagation] ++ drop_actions d, ReturnTrue)
        (drag_ended s)) /\
  onDragLeave s = Ok ([], Forward) (drag_ended s).
Proof.
  split; [| split].
  - intros Hno. unfold onDragOver, onDrop. rewrite Hno. by destruct dt.
  - intros d -> Hyes. unfold onDragOver, onDrop. rewrite Hyes. split.
    + by erewrite bind_Ok by apply setDragState_full_true.
    + erewrite bind_Ok by apply setDragState_full_false.
      by erewrite bind_Ok by apply handleDrop_spec.
  - unfold onDragLeave. by erewrite bind_Ok by apply setDragState_full_false.
Qed.

Lemma node_handlers_forward_other_payloads_witness :
  (onDragOver (Some (DataTransfer (Some ["text/plain"]) (Some [StringItem "text/plain"]) []))
              (booted Full)
   = Ok ([], Forward) (booted Full) /\
   onDrop (Some (DataTransfer (Some ["text/plain"]) (Some [StringItem "text/plain"]) []))
          (booted Full)
   = Ok ([], Forward) (booted Full)) /\
  (onDragOver (Some (DataTransfer (Some ["Files"])
                       (Some [FileItem (File "a.png" "image/png")]) []))
              (booted Full)
   = Ok ([PreventDefault; StopPropagation; DropEffectCopy], ReturnTrue)
        (drag_started (booted Full)) /\
   onDrop (Some (DataTransfer (Some ["Files"])
                   (Some [FileItem (File "a.png" "image/png")]) []))
          (booted Full)
   = Ok ([PreventDefault; StopPropagation], ReturnTrue)
        (drag_ended (booted Full))).
Proof.
  split.
  - exact (proj1 (node_handlers_forward_other_payloads
                    (Some (DataTransfer (Some ["text/plain"])
                             (Some [StringItem "text/plain"]) []))
                    (booted Full)) eq_refl).
  - exact (proj1 (proj2 (node_handlers_forward_other_payloads
                           (Some (DataTransfer (Some ["Files"])
                                    (Some [FileItem (File "a.png" "image/png")])
                                    []))
                           (booted Full))) _ eq_refl eq_refl).
Defined.

(** X23: the listeners that js/imgloader.js attaches stop every drag event
    they receive, whatever it carries: [dragover] and [dragleave] always
    call [preventDefault] and [stopPropagation], and so does [drop], which
    also takes the outline back and reads the first image file if there is
    one.  The outline is set only for a payload that [hasImageFiles]
    recognises, and taken back on [dragleave] only when the pointer leaves
    the element. *)
Theorem legacy_listeners_stop_every_drag (dt : option dataTransfer)
    (d : dataTransfer) (inside : bool) (s : state) :
  dragOverHandler dt s
  = Ok ([PreventDefault; StopPropagation]
        ++ (if hasImageFiles dt then [DropEffectCopy] else []))
       (if hasImageFiles dt then outlined true s else s) /\
  dragLeaveHandler inside s
  = Ok [PreventDefault; StopPropagation]
       (if inside then s else outlined false s) /\
  dropHandler d s
  = Ok ([PreventDefault; StopPropagation] ++ drop_actions d) (outlined false s).
Proof.
  unfold dragOverHandler, dragLeaveHandler, dropHandler. repeat split.
  - destruct (hasImageFiles dt); [| done].
    by erewrite bind_Ok by apply setDragState_legacy_spec.
  - destruct inside; [done |].
    by erewrite bind_Ok by apply setDragState_legacy_spec.
  - erewrite bind_Ok by apply setDragState_legacy_spec.
    by erewrite bind_Ok by apply handleDrop_spec.
Qed.

Lemma lower_idemp c : lower (lower c) = lower c.
Proof. by destruct c as [[] [] [] [] [] [] [] []]; vm_compute. Qed.

Lemma toLowerCase_idemp s : toLowerCase (toLowerCase s) = toLowerCase s.
Proof.
  induction s as [| c s IH]; cbn [toLowerCase]; [done |].
  by rewrite lower_idemp, IH.
Qed.

(** X24: [isValidImageType] does not depend on the case of the letters of
    the type: a type and its lower-case form are accepted alike, so two
    types that differ in case only are; and every accepted type is, in
    lower case, one of the six of [CONFIG.SUPPORTED_IMAGE_TYPES], all of
    which begin with [image/]. *)
Theorem image_type_check_ignores_case (type : string) :
  isValidImageType (toLowerCase type) = isValidImageType type /\
  (forall other, toLowerCase other = toLowerCase type ->
                 isValidImageType other = isValidImageType type) /\
  (isValidImageType type = true ->
   JS.startsWith (toLowerCase type) "image/" = true).
Proof.
  unfold isValidImageType. split; [by rewrite toLowerCase_idemp |].
  split; [by intros other -> |].
  intros Hin. apply bool_decide_eq_true in Hin.
  unfold SUPPORTED_IMAGE_TYPES in Hin. elem_cases Hin; by rewrite Hin.
Qed.

Lemma image_type_check_ignores_case_witness :
  isValidImageType "IMAGE/Jpeg" = isValidImageType "image/jpeg" /\
  JS.startsWith (toLowerCase "Image/WebP") "image/" = true.
Proof.
  split.
  - exact (proj1 (proj2 (image_type_check_ignores_case "image/jpeg"))
             "IMAGE/Jpeg" eq_refl).
  - exact (proj2 (proj2 (image_type_check_ignores_case "Image/WebP")) eq_refl).
Defined.

(** ** Image loads that complete late *)

Lemma cleared_not_inherited v activeInput (k : string) :
  k ∈ cleared_keys v activeInput -> finds_inherited v activeInput = false.
Proof.
  intros Hk. destruct (finds_inherited v activeInput) eqn:Hin; [| done].
  exfalso. destruct v; [| | discriminate]; cbn in Hin;
    apply bool_decide_eq_true in Hin; unfold Object_prototype in Hin;
    elem_cases Hin; subst activeInput; vm_compute in Hk; elem_cases Hk.
Qed.

(** X25: the completion of an image request is not checked against the
    widgets: when the request for a file path is still under way and a
    clearing pass for another source empties the filepath widget and hides
    the preview, the late [onload] puts the image of the cleared path into
    the preview box and shows it again. *)
Theorem late_image_load_shows_cleared_file (v : variant) (n : nat)
    (activeInput filePath : string) (s : state) (e : element) :
  v ≠ Legacy ->
  "filepath" ∈ cleared_keys v activeInput ->
  previewElement s = Some e ->
  exists s1 s2,
    clearOtherInputs v (S n) activeInput s = Ok tt s1 /\
    previewElement s1 = Some (hide e) /\
    img_onload filePath s1 = Ok tt s2 /\
    widget_value "filepath" s2 = "" /\
    previewElement s2
    = Some (Element "block" (PreviewImage (InputFile filePath)) (parentNode e)).
Proof.
  intros Hv Hkey He.
  exists (pass_result v activeInput s).
  eexists.
  split; [apply clearOtherInputs_spec, (cleared_not_inherited _ _ _ Hkey) |].
  assert (previewElement (pass_result v activeInput s) = Some (hide e)) as Hpe.
  { destruct v; [| | done]; cbn [pass_result previewElement]; by rewrite He. }
  split; [exact Hpe |]. unfold img_onload, showPreview.
  split; [apply with_preview_spec |]. rewrite Hpe. split; [| reflexivity].
  by apply (widget_value_blank_all (cleared_keys v activeInput) (widgets s)).
Qed.

Lemma late_image_load_shows_cleared_file_witness :
  exists s1 s2,
    clearOtherInputs Full 1 "base64" (booted Full) = Ok tt s1 /\
    previewElement s1 = Some (hide (new_preview Full host_node)) /\
    img_onload "cat.png" s1 = Ok tt s2 /\
    widget_value "filepath" s2 = "" /\
    previewElement s2
    = Some (Element "block" (PreviewImage (InputFile "cat.png"))
                    (parentNode (new_preview Full host_node))).
Proof.
  refine (late_image_load_shows_cleared_file Full 0 "base64" "cat.png"
            (booted Full) (new_preview Full host_node) _ _ _).
  - discriminate.
  - apply (bool_decide_unpack _). vm_compute. exact I.
  - vm_compute. reflexivity.
Defined.

(** ** The outline of js/imgloader.js *)

(** X26: in js/imgloader.js the end of a drag does not put back the style
    the element had: [setDragState(true)] followed by [setDragState(false)]
    leaves the controller as [setDragState(false)] alone does, with the
    outline and the background colour of the node element set to the empty
    string whatever they were before; a node without element is not
    touched. *)
Theorem legacy_outline_is_erased (s : state) :
  (setDragState_legacy true;; setDragState_legacy false) s
  = setDragState_legacy false s /\
  exists s',
    setDragState_legacy false s = Ok tt s' /\
    isDragging s' = false /\
    node_element (the_node s') = (fun _ => ("", "")) <$> node_element (the_node s).
Proof.
  split.
  - erewrite bind_Ok by apply setDragState_legacy_spec.
    rewrite !setDragState_legacy_spec. f_equal.
    destruct s as [ws ls dr pe oc [bg fg gc ip cv [ne |]] rg tm tr]; reflexivity.
  - exists (outlined false s). split; [apply setDragState_legacy_spec |].
    split; [reflexivity |].
    destruct s as [ws ls dr pe oc [bg fg gc ip cv [ne |]] rg tm tr]; reflexivity.
Qed.
